(** * TaskEx: the authentication-state cache, the storage wrapper and LinkHive

    A shallow embedding of the parts of the TaskEx browser extension that
    the specification talks about:

    - [storage.js]: the promise wrappers around [chrome.storage.local] and
      the grouped saved-tabs store ([saveTab], [deleteSavedTab]);
    - [background.js]: [getToken], [signOut] and the Google API calls of the
      service worker, together with the message handlers;
    - the side panel script: [apiRequest], [getTasks], [getEvents],
      [handleLogin], [handleLogout] and the DOM helpers they call;
    - the LinkHive save-tab module: [handleSaveTabFormSubmit],
      [saveOrUpdateSavedTab] and [renderSavedTabs].

    JavaScript globals become fields of one [World] record, every callback
    of the event loop becomes one computation in a state-and-exception
    monad, and the answers of the browser platform (identity service,
    network, storage errors) are explicit arguments. *)

From Stdlib Require Import ZArith String Ascii List Bool Lia.
From stdpp Require Import base gmap strings pretty list fin_maps sorting.

Local Open Scope string_scope.
Local Open Scope Z_scope.

(** ** JavaScript values used by the code *)

Module Js.

(** A JavaScript [Error] with the two optional fields the code attaches
    ([error.code] and [error.status]). [chrome.runtime.lastError] is
    modelled by the same record. *)
Record Error := mkError {
  err_message : string;
  err_code : option string;
  err_status : option Z
}.

Definition error (msg : string) : Error :=
  {| err_message := msg; err_code := None; err_status := None |}.

(** A settled promise. *)
Inductive Promise (A : Type) : Type :=
| Resolved (a : A)
| Rejected (e : Error).
Arguments Resolved {A} a.
Arguments Rejected {A} e.

(** Truthiness of a string: every string but the empty one. *)
Definition truthy (s : string) : bool :=
  match s with
  | EmptyString => false
  | String _ _ => true
  end.

(** [s || d] on strings. *)
Definition or_else (s d : string) : string :=
  if truthy s then s else d.

(** A [string] holds the UTF-8 encoding of the JavaScript string. The
    white space and line terminators [String.prototype.trim] strips: the
    one-byte ones are TAB, LF, VT, FF, CR and the space. *)
Definition is_ws (c : ascii) : bool :=
  let n := nat_of_ascii c in
  (Nat.eqb n 9 || Nat.eqb n 10 || Nat.eqb n 11 || Nat.eqb n 12
   || Nat.eqb n 13 || Nat.eqb n 32)%bool.

(** The two-byte one: U+00A0. *)
Definition is_ws2 (c1 c2 : ascii) : bool :=
  (Nat.eqb (nat_of_ascii c1) 194 && Nat.eqb (nat_of_ascii c2) 160)%bool.

(** The three-byte ones: U+1680, U+2000 to U+200A, U+2028, U+2029,
    U+202F, U+205F, U+3000 and U+FEFF. *)
Definition is_ws3 (c1 c2 c3 : ascii) : bool :=
  let a := nat_of_ascii c1 in
  let b := nat_of_ascii c2 in
  let c := nat_of_ascii c3 in
  ((Nat.eqb a 225 && Nat.eqb b 154 && Nat.eqb c 128)
   || (Nat.eqb a 226 && Nat.eqb b 128
       && ((Nat.leb 128 c && Nat.leb c 138) || Nat.eqb c 168 || Nat.eqb c 169
           || Nat.eqb c 175))
   || (Nat.eqb a 226 && Nat.eqb b 129 && Nat.eqb c 159)
   || (Nat.eqb a 227 && Nat.eqb b 128 && Nat.eqb c 128)
   || (Nat.eqb a 239 && Nat.eqb b 187 && Nat.eqb c 191))%bool.

Fixpoint trimStart (s : string) : string :=
  match s with
  | EmptyString => EmptyString
  | String c1 s1 =>
      if is_ws c1 then trimStart s1
      else
        match s1 with
        | EmptyString => s
        | String c2 s2 =>
            if is_ws2 c1 c2 then trimStart s2
            else
              match s2 with
              | EmptyString => s
              | String c3 s3 => if is_ws3 c1 c2 c3 then trimStart s3 else s
              end
        end
  end.

(** The string consists of white space only. *)
Fixpoint blank (s : string) : bool :=
  match s with
  | EmptyString => true
  | String c1 s1 =>
      if is_ws c1 then blank s1
      else
        match s1 with
        | EmptyString => false
        | String c2 s2 =>
            if is_ws2 c1 c2 then blank s2
            else
              match s2 with
              | EmptyString => false
              | String c3 s3 => if is_ws3 c1 c2 c3 then blank s3 else false
              end
        end
  end.

Fixpoint trimEnd (s : string) : string :=
  match s with
  | EmptyString => EmptyString
  | String c s' => if blank s then EmptyString else String c (trimEnd s')
  end.

Definition trim (s : string) : string := trimEnd (trimStart s).

(** [s.includes(pat)]. *)
Fixpoint includes (s pat : string) : bool :=
  (String.prefix pat s
   || match s with
      | EmptyString => false
      | String _ s' => includes s' pat
      end)%bool.

(** [encodeURIComponent], on the UTF-8 encoding: letters, digits and
    the marks [- _ . ! ~] and the star, quote and parentheses stay,
    every other octet becomes a percent sign and two hex digits. *)
Definition unreserved (c : ascii) : bool :=
  let n := nat_of_ascii c in
  ((Nat.leb 48 n && Nat.leb n 57) || (Nat.leb 65 n && Nat.leb n 90)
   || (Nat.leb 97 n && Nat.leb n 122)
   || Nat.eqb n 45 || Nat.eqb n 95 || Nat.eqb n 46 || Nat.eqb n 33
   || Nat.eqb n 126 || Nat.eqb n 42 || Nat.eqb n 39 || Nat.eqb n 40
   || Nat.eqb n 41)%bool.

Definition hex_digit (n : nat) : ascii :=
  ascii_of_nat (if Nat.ltb n 10 then 48 + n else 55 + n).

Fixpoint encodeURIComponent (s : string) : string :=
  match s with
  | EmptyString => EmptyString
  | String c s' =>
      if unreserved c then String c (encodeURIComponent s')
      else
        let n := nat_of_ascii c in
        String "%" (String (hex_digit (Nat.div n 16))
                      (String (hex_digit (Nat.modulo n 16))
                         (encodeURIComponent s')))
  end.

(** The double-quote character, as a string. *)
Definition dquote : string := String (ascii_of_nat 34) EmptyString.

(** Property names every object literal inherits from
    [Object.prototype]: reading one of them from an object that has no
    own property of that name yields a truthy value that is not an
    array. *)
Definition inherited (k : string) : bool :=
  bool_decide (k ∈ [ "constructor"; "toString"; "toLocaleString"; "valueOf";
                     "hasOwnProperty"; "isPrototypeOf"; "propertyIsEnumerable";
                     "__proto__"; "__defineGetter__"; "__defineSetter__";
                     "__lookupGetter__"; "__lookupSetter__" ]).

End Js.
Import Js.

(** ** Data *)

(** A Google task, as far as the cache layer looks at it. *)
Record Task := mkTask {
  task_id : string;
  task_title : string;
  task_completed : bool
}.

(** A calendar event. *)
Record CalEvent := mkEvent {
  event_id : string;
  event_summary : string
}.

(** An entry of the grouped saved-tabs store of [storage.js]. *)
Record TabEntry := mkTabEntry {
  tab_id : string;
  tab_title : string;
  tab_url : string;
  tab_note : string;
  tab_savedAt : string
}.

(** A LinkHive item, as normalised by [getSavedTabsArray]. *)
Record SavedLink := mkSavedLink {
  link_id : string;
  link_title : string;
  link_url : string;
  link_note : string;
  link_group : string;
  link_starred : bool
}.

(** The parts of a request payload (or of [message.data]) that the code
    reads, already passed through [JSON.stringify] where the code does so. *)
Record Payload := mkPayload {
  taskId : string;
  taskData : string;
  eventId : string;
  eventData : string;
  whole : string
}.

(** The shapes of value the extension persists in [chrome.storage]. *)
Inductive Stored : Type :=
| SavedTabsObj (g : gmap string (list TabEntry))   (* savedTabs, storage.js *)
| LinkItems (l : list SavedLink)                   (* linkHiveItems *)
| StrArray (l : list string)                       (* starredTasks, linkHiveGroups *)
| Str (s : string).                                (* theme, timeFormat *)

(** ** storage.js *)

Module Storage.

Definition SAVED_TABS : string := "savedTabs".
Definition STARRED_TASKS : string := "starredTasks".

Section KeyValueStore.
Context {V : Type}.

(** The argument of [chrome.storage.local.get]: one key, an array of
    keys, an object of defaults, or [null] for everything. *)
Inductive Keys : Type :=
| KeyOne (k : string)
| KeyList (ks : list string)
| KeyDefaults (d : gmap string V)
| KeyAll.

(** What the storage area answers when it does not fail. *)
Definition area_get (keys : Keys) (area : gmap string V) : gmap string V :=
  match keys with
  | KeyOne k =>
      match area !! k with
      | Some v => {[ k := v ]}
      | None => ∅
      end
  | KeyList ks =>
      foldr (fun k acc =>
               match area !! k with
               | Some v => <[ k := v ]> acc
               | None => acc
               end) ∅ ks
  | KeyDefaults d => map_imap (fun k dv => Some (default dv (area !! k))) d
  | KeyAll => area
  end.

(** [set] writes the given entries over the area, [remove] deletes the
    given keys. *)
Definition area_set (data area : gmap string V) : gmap string V :=
  data ∪ area.

Definition area_remove (keys : list string) (area : gmap string V)
  : gmap string V :=
  foldr delete area keys.

(** [getStorageData]: rejects with [chrome.runtime.lastError] when the
    platform reports one, resolves with the result otherwise. *)
Definition getStorageData (keys : Keys) (lastError : option Error)
    (area : gmap string V) : Promise (gmap string V) :=
  match lastError with
  | Some e => Rejected e
  | None => Resolved (area_get keys area)
  end.

(** [setStorageData]: a write the platform refuses leaves the area as
    it was. *)
Definition setStorageData (data : gmap string V) (lastError : option Error)
    (area : gmap string V) : gmap string V * Promise unit :=
  match lastError with
  | Some e => (area, Rejected e)
  | None => (area_set data area, Resolved tt)
  end.

(** [removeStorageData], for an array of keys (a single key is the
    one-element array). *)
Definition removeStorageData (keys : list string) (lastError : option Error)
    (area : gmap string V) : gmap string V * Promise unit :=
  match lastError with
  | Some e => (area, Rejected e)
  | None => (area_remove keys area, Resolved tt)
  end.

End KeyValueStore.

(** *** The grouped saved-tabs store *)

Record TabData := mkTabData {
  td_title : string;
  td_url : string;
  td_note : option string;
  td_group : string
}.

(** [getSavedTabs]: the object stored under [savedTabs], or [{}] when the
    key is absent or the read fails. The key holds a grouped object
    whenever [storage.js] wrote it; see [saved_tabs_inv]. *)
Definition getSavedTabs (getErr : option Error) (area : gmap string Stored)
  : gmap string (list TabEntry) :=
  match getStorageData (KeyOne SAVED_TABS) getErr area with
  | Resolved result =>
      match result !! SAVED_TABS with
      | Some (SavedTabsObj g) => g
      | _ => ∅
      end
  | Rejected _ => ∅
  end.

Definition not_a_function (what : string) : Error :=
  error (what +:+ " is not a function").

(** [saveTab tabData]; [now] is [Date.now().toString()] and [iso] is
    [new Date().toISOString()]. *)
Definition saveTab (tabData : TabData) (now iso : string)
    (getErr setErr : option Error) (area : gmap string Stored)
  : gmap string Stored * Promise TabEntry :=
  let savedTabs := getSavedTabs getErr area in
  let group := td_group tabData in
  (* if (!savedTabs[group]) savedTabs[group] = [] *)
  let existing :=
    match savedTabs !! group with
    | Some l => Some l
    | None => if inherited group then None else Some []
    end in
  let tabEntry :=
    {| tab_id := now;
       tab_title := trim (td_title tabData);
       tab_url := trim (td_url tabData);
       tab_note := match td_note tabData with
                   | Some n => if truthy n then trim n else ""
                   | None => ""
                   end;
       tab_savedAt := iso |} in
  match existing with
  | None => (area, Rejected (not_a_function "savedTabs[group].push"))
  | Some l =>
      let savedTabs' := <[ group := (l ++ [tabEntry])%list ]> savedTabs in
      match setStorageData {[ SAVED_TABS := SavedTabsObj savedTabs' ]} setErr area with
      | (area', Resolved _) => (area', Resolved tabEntry)
      | (area', Rejected e) => (area', Rejected e)
      end
  end.

(** [deleteSavedTab groupName tabId]. *)
Definition deleteSavedTab (groupName tabId : string)
    (getErr setErr : option Error) (area : gmap string Stored)
  : gmap string Stored * Promise unit :=
  let savedTabs := getSavedTabs getErr area in
  match savedTabs !! groupName with
  | Some l =>
      let kept := filter (fun tab => tab_id tab ≠ tabId) l in
      let savedTabs' :=
        if Nat.eqb (length kept) 0
        then delete groupName savedTabs
        else <[ groupName := kept ]> savedTabs in
      setStorageData {[ SAVED_TABS := SavedTabsObj savedTabs' ]} setErr area
  | None =>
      if inherited groupName
      then (area, Rejected (not_a_function "savedTabs[groupName].filter"))
      else (area, Resolved tt)
  end.

(** [clearAllSavedTabs]. *)
Definition clearAllSavedTabs (rmErr : option Error) (area : gmap string Stored)
  : gmap string Stored * Promise unit :=
  removeStorageData [SAVED_TABS] rmErr area.

(** One call of the saved-tabs interface, with the answers of the
    platform it meets. *)
Inductive Op : Type :=
| OpSave (tabData : TabData) (now iso : string) (getErr setErr : option Error)
| OpDelete (groupName tabId : string) (getErr setErr : option Error)
| OpClear (rmErr : option Error).

Definition run (op : Op) (area : gmap string Stored) : gmap string Stored :=
  match op with
  | OpSave td now iso ge se => fst (saveTab td now iso ge se area)
  | OpDelete g i ge se => fst (deleteSavedTab g i ge se area)
  | OpClear e => fst (clearAllSavedTabs e area)
  end.

Definition groups_nonempty (g : gmap string (list TabEntry)) : Prop :=
  forall k l, g !! k = Some l -> l <> [].

(** The key [savedTabs] is absent, or holds a grouped object none of
    whose groups is empty. *)
Definition saved_tabs_inv (area : gmap string Stored) : Prop :=
  match area !! SAVED_TABS with
  | None => True
  | Some (SavedTabsObj g) => groups_nonempty g
  | Some _ => False
  end.

End Storage.

(** ** The browser: DOM, identity service, network *)

Module Browser.

(** What an element of the panel shows. The markup the code writes into
    [innerHTML] is kept as the data it is built from. *)
Inductive Html : Type :=
| HtmlEmpty
| HtmlLoginPrompt (text : string)     (* div.no-items *)
| HtmlLoading (text : string)         (* div.loading-message *)
| HtmlError (text : string)           (* div.error-message *)
| HtmlEventsError (text : string)     (* div.error-message with a Retry button *)
| HtmlTasks (tasks : list Task) (starred : gset string)
| HtmlEvents (events : list CalEvent).

(** A child of [#saved-tabs-list]. *)
Inductive GroupEl : Type :=
| GroupShell (name : string)                          (* createGroup *)
| GroupCard (name : string) (items : list SavedLink). (* createGroupElement *)

(** The elements the code looks up with [document.getElementById];
    [None] stands for an element the page does not have. *)
Record Dom := mkDom {
  tasks_list : option Html;
  events_list : option Html;
  no_events_message : option bool;                  (* displayed? *)
  auth_status_dot : option bool;                    (* has class connected *)
  auth_btn_label : option string;
  status_messages : option (list (string * string)); (* (message, type) *)
  saved_tabs_list : option (list GroupEl);
  todo_content : option bool                        (* displayed? *)
}.

(** Calls that leave the script. *)
Inductive Effect : Type :=
| GetAuthToken (interactive : bool)
| RemoveCachedAuthToken (token : string)
| Fetch (method url : string)
| SendMessage (action : string).

(** The globals of the side panel script, the page, and the state the
    platform keeps for the extension. *)
Record World := mkWorld {
  isAuthenticated : bool;
  currentTasks : list Task;
  currentEvents : list CalEvent;
  starredTasks : gset string;
  savedTabsCache : list SavedLink;
  dom : Dom;
  tokenCache : option string;          (* chrome.identity token cache *)
  local : gmap string Stored;          (* chrome.storage.local *)
  sync : gmap string Stored;           (* chrome.storage.sync *)
  log : list Effect                    (* newest last *)
}.

Definition set_isAuthenticated (b : bool) (w : World) : World :=
  mkWorld b (currentTasks w) (currentEvents w) (starredTasks w)
    (savedTabsCache w) (dom w) (tokenCache w) (local w) (sync w) (log w).
Definition set_currentTasks (ts : list Task) (w : World) : World :=
  mkWorld (isAuthenticated w) ts (currentEvents w) (starredTasks w)
    (savedTabsCache w) (dom w) (tokenCache w) (local w) (sync w) (log w).
Definition set_currentEvents (es : list CalEvent) (w : World) : World :=
  mkWorld (isAuthenticated w) (currentTasks w) es (starredTasks w)
    (savedTabsCache w) (dom w) (tokenCache w) (local w) (sync w) (log w).
Definition set_savedTabsCache (c : list SavedLink) (w : World) : World :=
  mkWorld (isAuthenticated w) (currentTasks w) (currentEvents w)
    (starredTasks w) c (dom w) (tokenCache w) (local w) (sync w) (log w).
Definition set_dom (d : Dom) (w : World) : World :=
  mkWorld (isAuthenticated w) (currentTasks w) (currentEvents w)
    (starredTasks w) (savedTabsCache w) d (tokenCache w) (local w) (sync w)
    (log w).
Definition set_tokenCache (t : option string) (w : World) : World :=
  mkWorld (isAuthenticated w) (currentTasks w) (currentEvents w)
    (starredTasks w) (savedTabsCache w) (dom w) t (local w) (sync w) (log w).
Definition set_local (m : gmap string Stored) (w : World) : World :=
  mkWorld (isAuthenticated w) (currentTasks w) (currentEvents w)
    (starredTasks w) (savedTabsCache w) (dom w) (tokenCache w) m (sync w)
    (log w).
Definition add_log (e : Effect) (w : World) : World :=
  mkWorld (isAuthenticated w) (currentTasks w) (currentEvents w)
    (starredTasks w) (savedTabsCache w) (dom w) (tokenCache w) (local w)
    (sync w) (log w ++ [e])%list.

(** Assignments to [innerHTML], [textContent] and the like: nothing
    happens to an element that is [None]; the callers test for it. *)
Definition set_tasks_list (h : Html) (d : Dom) : Dom :=
  mkDom (Some h) (events_list d) (no_events_message d) (auth_status_dot d)
    (auth_btn_label d) (status_messages d) (saved_tabs_list d) (todo_content d).
Definition set_events_list (h : Html) (d : Dom) : Dom :=
  mkDom (tasks_list d) (Some h) (no_events_message d) (auth_status_dot d)
    (auth_btn_label d) (status_messages d) (saved_tabs_list d) (todo_content d).
Definition set_no_events_message (b : bool) (d : Dom) : Dom :=
  mkDom (tasks_list d) (events_list d) (Some b) (auth_status_dot d)
    (auth_btn_label d) (status_messages d) (saved_tabs_list d) (todo_content d).
Definition set_auth_status_dot (b : bool) (d : Dom) : Dom :=
  mkDom (tasks_list d) (events_list d) (no_events_message d) (Some b)
    (auth_btn_label d) (status_messages d) (saved_tabs_list d) (todo_content d).
Definition set_auth_btn_label (s : string) (d : Dom) : Dom :=
  mkDom (tasks_list d) (events_list d) (no_events_message d)
    (auth_status_dot d) (Some s) (status_messages d) (saved_tabs_list d)
    (todo_content d).
Definition set_status_messages (l : list (string * string)) (d : Dom) : Dom :=
  mkDom (tasks_list d) (events_list d) (no_events_message d)
    (auth_status_dot d) (auth_btn_label d) (Some l) (saved_tabs_list d)
    (todo_content d).
Definition set_saved_tabs_list (l : list GroupEl) (d : Dom) : Dom :=
  mkDom (tasks_list d) (events_list d) (no_events_message d)
    (auth_status_dot d) (auth_btn_label d) (status_messages d) (Some l)
    (todo_content d).
Definition set_todo_content (b : bool) (d : Dom) : Dom :=
  mkDom (tasks_list d) (events_list d) (no_events_message d)
    (auth_status_dot d) (auth_btn_label d) (status_messages d)
    (saved_tabs_list d) (Some b).

(** *** Computations: state and exceptions *)

Inductive Completion (A : Type) : Type :=
| Normal (a : A)
| Throw (e : Error).
Arguments Normal {A} a.
Arguments Throw {A} e.

(** A piece of script run to completion on the single thread. The world
    is returned in both cases: what was assigned before a [throw]
    stays assigned. For an [async] function, [Throw] is the rejection
    of the promise it returns. *)
Definition Eff (A : Type) : Type := World -> Completion A * World.

Definition ret {A} (a : A) : Eff A := fun w => (Normal a, w).

Definition bind {A B} (m : Eff A) (k : A -> Eff B) : Eff B :=
  fun w =>
    match m w with
    | (Normal a, w') => k a w'
    | (Throw e, w') => (Throw e, w')
    end.

Definition throw {A} (e : Error) : Eff A := fun w => (Throw e, w).

Definition try_catch {A} (m : Eff A) (handler : Error -> Eff A) : Eff A :=
  fun w =>
    match m w with
    | (Normal a, w') => (Normal a, w')
    | (Throw e, w') => handler e w'
    end.

Definition read {A} (f : World -> A) : Eff A := fun w => (Normal (f w), w).
Definition modify (f : World -> World) : Eff unit := fun w => (Normal tt, f w).
Definition modify_dom (f : Dom -> Dom) : Eff unit :=
  modify (fun w => set_dom (f (dom w)) w).
Definition emit (e : Effect) : Eff unit := modify (add_log e).

(** [await p]. *)
Definition await {A} (p : Promise A) : Eff A :=
  match p with
  | Resolved a => ret a
  | Rejected e => throw e
  end.

(** The promise an [async] call settles to. *)
Definition settle {A} (m : Eff A) : Eff (Promise A) :=
  try_catch (bind m (fun a => ret (Resolved a))) (fun e => ret (Rejected e)).

Definition exec {A} (m : Eff A) (w : World) : World := snd (m w).
Definition outcome {A} (m : Eff A) (w : World) : Completion A := fst (m w).

(** *** Network *)

(** The parsed body of a response, as far as the callers read it. *)
Inductive Data : Type :=
| TaskList (items : option (list Task))
| EventList (items : option (list CalEvent))
| OneTask (t : Task)
| OneEvent (e : CalEvent)
| DeleteOk.                               (* { success: true } *)

Record Response := mkResponse {
  status : Z;
  statusText : string;
  json : option Data                      (* [None]: the body is not JSON *)
}.

Definition ok (r : Response) : bool :=
  (200 <=? status r) && (status r <=? 299).

Inductive FetchOutcome : Type :=
| NetworkError (e : Error)
| Responded (r : Response).

Record Request := mkRequest {
  method : string;
  url : string;
  bearer : option string;                 (* Authorization: Bearer ... *)
  body : option string
}.

(** The reply of [chrome.identity.getAuthToken] to its callback. *)
Record AuthReply := mkAuthReply {
  lastError : option Error;
  token : option string
}.

(** What lies outside the extension: the account service asked for a
    token in the given mode when the cache has none, the network, and
    the clock. *)
Record Env := mkEnv {
  mint : bool -> AuthReply;
  net : Request -> FetchOutcome;
  now : string;                           (* new Date().toISOString() *)
  in_three_months : string                (* the same, three months on *)
}.

(** [chrome.identity.getAuthToken], as the documentation of the platform
    describes it: the identity service answers from its token cache when
    it holds a token, asks the account service otherwise, and caches what
    it obtains. *)
Definition chrome_identity_getAuthToken (interactive : bool) (env : Env)
  : Eff AuthReply :=
  bind (emit (GetAuthToken interactive)) (fun _ =>
  bind (read tokenCache) (fun cached =>
  match cached with
  | Some t => ret {| lastError := None; token := Some t |}
  | None =>
      let reply := mint env interactive in
      match lastError reply, token reply with
      | None, Some t =>
          bind (modify (set_tokenCache (if truthy t then Some t else None)))
               (fun _ => ret reply)
      | _, _ => ret reply
      end
  end)).

(** [chrome.identity.removeCachedAuthToken({ token })]: the token leaves
    the cache if it is the cached one. *)
Definition chrome_identity_removeCachedAuthToken (t : string) : Eff unit :=
  bind (emit (RemoveCachedAuthToken t)) (fun _ =>
  modify (fun w =>
    if decide (tokenCache w = Some t) then set_tokenCache None w else w)).

(** [fetch(url, init)]: rejects on a network failure. *)
Definition fetch (req : Request) (env : Env) : Eff Response :=
  bind (emit (Fetch (method req) (url req))) (fun _ =>
  match net env req with
  | NetworkError e => throw e
  | Responded r => ret r
  end).

(** [response.json()]. *)
Definition response_json (r : Response) : Eff Data :=
  match json r with
  | Some d => ret d
  | None => throw (error "Unexpected end of JSON input")
  end.

End Browser.
Import Browser.

Declare Scope eff_scope.
Delimit Scope eff_scope with eff.
Notation "x <- m ;; k" := (bind m (fun x => k))
  (at level 100, m at next level, right associativity) : eff_scope.
Notation "m ;; k" := (bind m (fun _ => k))
  (at level 100, right associativity) : eff_scope.
Local Open Scope eff_scope.

(** ** background.js: the service worker *)

Module Background.

(** The callback [getToken] passes to [chrome.identity.getAuthToken]:
    what the promise is resolved with for each reply of the platform. *)
Definition getToken_callback (reply : AuthReply) : Promise (option string) :=
  match lastError reply with
  | Some _ => Resolved None
  | None =>
      match token reply with
      | Some t => if truthy t then Resolved (Some t) else Resolved None
      | None => Resolved None
      end
  end.

(** [getToken(interactive)]: the promise has no [reject]. *)
Definition getToken (interactive : bool) (env : Env) : Eff (option string) :=
  reply <- chrome_identity_getAuthToken interactive env;;
  await (getToken_callback reply).

Definition REVOKE_URL : string :=
  "https://accounts.google.com/o/oauth2/revoke?token=".

(** [signOut]: revoke the token with Google, ignoring a failure of the
    request, then remove it from the cache of the platform. *)
Definition signOut (env : Env) : Eff unit :=
  token <- getToken false env;;
  match token with
  | None => ret tt
  | Some t =>
      try_catch
        (_ <- fetch {| method := "GET";
                       url := REVOKE_URL +:+ encodeURIComponent t;
                       bearer := None; body := None |} env;;
         ret tt)
        (fun _ => ret tt);;
      chrome_identity_removeCachedAuthToken t
  end.

(** [isAuthenticated] of the service worker: [!!token]. *)
Definition isAuthenticated (env : Env) : Eff bool :=
  token <- getToken false env;;
  ret (match token with Some _ => true | None => false end).

Definition TASKS_URL : string :=
  "https://www.googleapis.com/tasks/v1/lists/@default/tasks".
Definition EVENTS_URL : string :=
  "https://www.googleapis.com/calendar/v3/calendars/primary/events".

(** The error thrown for a response that is not [ok]. *)
Definition api_error (api : string) (r : Response) : Error :=
  error (api +:+ " API error: " +:+ pretty (status r) +:+ " " +:+ statusText r).

(** [data.items || []]. *)
Definition task_items (d : Data) : list Task :=
  match d with
  | TaskList (Some l) => l
  | _ => []
  end.

Definition event_items (d : Data) : list CalEvent :=
  match d with
  | EventList (Some l) => l
  | _ => []
  end.

(** The six API functions share one shape: [getToken(true)], fail
    without a token, [fetch], fail unless [response.ok], read the body. *)
Definition getTasks (env : Env) : Eff (list Task) :=
  token <- getToken true env;;
  match token with
  | None => throw (error "Authentication required")
  | Some t =>
      response <- fetch {| method := "GET"; url := TASKS_URL;
                           bearer := Some t; body := None |} env;;
      if negb (ok response) then throw (api_error "Tasks" response)
      else (data <- response_json response;; ret (task_items data))
  end.

Definition createTask (taskData : string) (env : Env) : Eff Data :=
  token <- getToken true env;;
  match token with
  | None => throw (error "Authentication required")
  | Some t =>
      response <- fetch {| method := "POST"; url := TASKS_URL;
                           bearer := Some t; body := Some taskData |} env;;
      if negb (ok response) then throw (api_error "Tasks" response)
      else response_json response
  end.

Definition updateTask (taskId taskData : string) (env : Env) : Eff Data :=
  token <- getToken true env;;
  match token with
  | None => throw (error "Authentication required")
  | Some t =>
      response <- fetch {| method := "PATCH";
                           url := TASKS_URL +:+ "/" +:+ taskId;
                           bearer := Some t; body := Some taskData |} env;;
      if negb (ok response) then throw (api_error "Tasks" response)
      else response_json response
  end.

Definition deleteTask (taskId : string) (env : Env) : Eff unit :=
  token <- getToken true env;;
  match token with
  | None => throw (error "Authentication required")
  | Some t =>
      response <- fetch {| method := "DELETE";
                           url := TASKS_URL +:+ "/" +:+ taskId;
                           bearer := Some t; body := None |} env;;
      if negb (ok response) then throw (api_error "Tasks" response)
      else ret tt
  end.

Definition getCalendarEvents (maxResults : Z) (env : Env)
  : Eff (list CalEvent) :=
  token <- getToken true env;;
  match token with
  | None => throw (error "Authentication required")
  | Some t =>
      response <- fetch {| method := "GET";
                           url := EVENTS_URL +:+ "?timeMin="
                                  +:+ encodeURIComponent (now env)
                                  +:+ "&maxResults=" +:+ pretty maxResults
                                  +:+ "&singleEvents=true&orderBy=startTime";
                           bearer := Some t; body := None |} env;;
      if negb (ok response) then throw (api_error "Calendar" response)
      else (data <- response_json response;; ret (event_items data))
  end.

Definition createCalendarEvent (eventData : string) (env : Env) : Eff Data :=
  token <- getToken true env;;
  match token with
  | None => throw (error "Authentication required")
  | Some t =>
      response <- fetch {| method := "POST"; url := EVENTS_URL;
                           bearer := Some t; body := Some eventData |} env;;
      if negb (ok response) then throw (api_error "Calendar" response)
      else response_json response
  end.

(** *** Message handlers *)

(** The object handed to [sendResponse]. *)
Record Message := mkMessage {
  success : bool;
  msg_error : option string;
  authenticated : option bool;
  tasks : option (list Task);
  events : option (list CalEvent);
  item : option Data                    (* task or event of a create/update *)
}.

Definition succeeded : Message := mkMessage true None None None None None.

Definition failed (msg : string) : Message :=
  mkMessage false (Some msg) None None None None.

Definition failure (e : Error) : Message := failed (err_message e).

Definition handleCheckAuth (env : Env) : Eff Message :=
  try_catch
    (a <- isAuthenticated env;;
     ret (mkMessage true None (Some a) None None None))
    (fun e => ret (failure e)).

Definition handleAuthenticate (env : Env) : Eff Message :=
  try_catch
    (token <- getToken true env;;
     match token with
     | Some _ => ret (mkMessage true None (Some true) None None None)
     | None => ret (failed "Authentication cancelled or failed")
     end)
    (fun e => ret (failure e)).

Definition handleLogout (env : Env) : Eff Message :=
  try_catch
    (signOut env;; ret succeeded)
    (fun e => ret (failure e)).

Definition handleGetTasks (env : Env) : Eff Message :=
  try_catch
    (ts <- getTasks env;; ret (mkMessage true None None (Some ts) None None))
    (fun e => ret (failure e)).

Definition handleGetEvents (env : Env) : Eff Message :=
  try_catch
    (es <- getCalendarEvents 50 env;;
     ret (mkMessage true None None None (Some es) None))
    (fun e => ret (failure e)).

Definition handleCreateTask (data : Payload) (env : Env) : Eff Message :=
  try_catch
    (t <- createTask (whole data) env;;
     ret (mkMessage true None None None None (Some t)))
    (fun e => ret (failure e)).

Definition handleUpdateTask (data : Payload) (env : Env) : Eff Message :=
  try_catch
    (t <- updateTask (taskId data) (taskData data) env;;
     ret (mkMessage true None None None None (Some t)))
    (fun e => ret (failure e)).

Definition handleDeleteTask (data : Payload) (env : Env) : Eff Message :=
  try_catch
    (deleteTask (taskId data) env;; ret succeeded)
    (fun e => ret (failure e)).

Definition handleCreateEvent (data : Payload) (env : Env) : Eff Message :=
  try_catch
    (ev <- createCalendarEvent (whole data) env;;
     ret (mkMessage true None None None None (Some ev)))
    (fun e => ret (failure e)).

(** The [chrome.runtime.onMessage] listener: the handler chosen by
    [message.action], and what it passes to [sendResponse]. *)
Definition onMessage (action : string) (data : Payload) (env : Env)
  : Eff Message :=
  if String.eqb action "checkAuth" then handleCheckAuth env
  else if String.eqb action "authenticate" then handleAuthenticate env
  else if String.eqb action "logout" then handleLogout env
  else if String.eqb action "getTasks" then handleGetTasks env
  else if String.eqb action "createTask" then handleCreateTask data env
  else if String.eqb action "updateTask" then handleUpdateTask data env
  else if String.eqb action "deleteTask" then handleDeleteTask data env
  else if String.eqb action "getEvents" then handleGetEvents env
  else if String.eqb action "createEvent" then handleCreateEvent data env
  else ret (failed "Unknown action").

End Background.

(** ** The side panel script *)

Module SidePanel.

Import Background (Message, success, msg_error, tasks, events, authenticated).

(** *** DOM helpers *)

Definition updateFooterAuthStatus : Eff unit :=
  a <- read isAuthenticated;;
  modify_dom (fun d =>
    let d1 := match auth_status_dot d with
              | Some _ => set_auth_status_dot a d
              | None => d
              end in
    match auth_btn_label d1 with
    | Some _ => set_auth_btn_label (if a then "Logout" else "Login") d1
    | None => d1
    end).

Definition TASKS_LOGIN_PROMPT : Html :=
  HtmlLoginPrompt "Please log in to Google to see your tasks".
Definition EVENTS_LOGIN_PROMPT : Html :=
  HtmlLoginPrompt "Please log in to Google to see your calendar events".

(** [if (el) el.innerHTML = h] for the two lists. *)
Definition write_tasks_list (h : Html) : Eff unit :=
  modify_dom (fun d =>
    match tasks_list d with
    | Some _ => set_tasks_list h d
    | None => d
    end).

Definition write_events_list (h : Html) : Eff unit :=
  modify_dom (fun d =>
    match events_list d with
    | Some _ => set_events_list h d
    | None => d
    end).

Definition hide_no_events_message : Eff unit :=
  modify_dom (fun d =>
    match no_events_message d with
    | Some _ => set_no_events_message false d
    | None => d
    end).

Definition showLoginPrompt : Eff unit :=
  write_tasks_list TASKS_LOGIN_PROMPT;;
  write_events_list EVENTS_LOGIN_PROMPT.

(** [showStatus] assigns to [statusDiv.innerHTML] without testing the
    element, so it throws a [TypeError] on a page without
    [#status-messages]. The timer that removes the message after three
    seconds is left out. *)
Definition showStatus (message type : string) : Eff unit :=
  d <- read dom;;
  match status_messages d with
  | None => throw (error "Cannot set properties of null (setting 'innerHTML')")
  | Some _ => modify_dom (set_status_messages [(message, type)])
  end.

Definition showError (message : string) : Eff unit :=
  showStatus message "error".

Definition showEventsLoading : Eff unit :=
  write_events_list (HtmlLoading "Loading events...");;
  hide_no_events_message.

Definition showEventsError (message : string) : Eff unit :=
  write_events_list (HtmlEventsError message);;
  hide_no_events_message.

(** [renderTasks] and [renderEvents] rebuild a list from the cache; the
    markup is kept as the data it shows. *)
Definition renderTasks : Eff unit :=
  ts <- read currentTasks;;
  starred <- read starredTasks;;
  write_tasks_list (HtmlTasks ts starred).

Definition renderEvents : Eff unit :=
  d <- read dom;;
  match events_list d, no_events_message d with
  | Some _, Some _ =>
      es <- read currentEvents;;
      modify_dom (fun d =>
        set_no_events_message (Nat.eqb (length es) 0)
          (set_events_list (HtmlEvents es) d))
  | _, _ => ret tt
  end.

(** *** apiRequest *)

Definition TASKS_URL : string := Background.TASKS_URL.
Definition EVENTS_URL : string := Background.EVENTS_URL.

(** The [switch (action)]: method, URL and body, or [None] for the
    [default] branch. The query values of [getEvents] are ISO timestamps,
    on which the encoding of [URLSearchParams] and [encodeURIComponent]
    agree. *)
Definition request_of (action : string) (payload : Payload) (env : Env)
  : option (string * string * option string) :=
  if String.eqb action "getTasks" then Some ("GET", TASKS_URL, None)
  else if String.eqb action "createTask" then
    Some ("POST", TASKS_URL, Some (whole payload))
  else if String.eqb action "updateTask" then
    Some ("PATCH", TASKS_URL +:+ "/" +:+ taskId payload, Some (taskData payload))
  else if String.eqb action "deleteTask" then
    Some ("DELETE", TASKS_URL +:+ "/" +:+ taskId payload, None)
  else if String.eqb action "getEvents" then
    Some ("GET",
          EVENTS_URL +:+ "?timeMin=" +:+ encodeURIComponent (now env)
          +:+ "&timeMax=" +:+ encodeURIComponent (in_three_months env)
          +:+ "&singleEvents=true&orderBy=startTime&maxResults=50",
          None)
  else if String.eqb action "createEvent" then
    Some ("POST", EVENTS_URL, Some (whole payload))
  else if String.eqb action "updateEvent" then
    Some ("PATCH", EVENTS_URL +:+ "/" +:+ eventId payload,
          Some (eventData payload))
  else None.

(** The message chosen for a response that is not [ok]. *)
Definition errorMessage (r : Response) : string :=
  if status r =? 401 then
    "Your Google login has expired. Please log out and log back in."
  else if status r =? 403 then
    "Permission denied. Please check your Google permissions."
  else if status r =? 404 then
    "Resource not found. It may have been deleted."
  else if status r =? 429 then
    "Too many requests. Please wait a moment and try again."
  else if 500 <=? status r then
    "Google services are temporarily unavailable. Please try again later."
  else
    "Request failed: " +:+ pretty (status r) +:+ " " +:+ statusText r.

(** The error thrown for a response that is not [ok]. *)
Definition http_error (r : Response) : Error :=
  {| err_message := errorMessage r;
     err_code := None;
     err_status := Some (status r) |}.

Definition AUTH_REQUIRED : Error :=
  {| err_message := "Authentication required. Please log in to Google.";
     err_code := Some "AUTH_REQUIRED";
     err_status := None |}.

(** [chrome.runtime.lastError || !token] is false. *)
Definition usable_token (reply : AuthReply) : option string :=
  match lastError reply with
  | Some _ => None
  | None =>
      match token reply with
      | Some t => if truthy t then Some t else None
      | None => None
      end
  end.

Definition apiRequest (action : string) (payload : Payload) (env : Env)
  : Eff Data :=
  reply <- chrome_identity_getAuthToken false env;;
  match usable_token reply with
  | None => throw AUTH_REQUIRED
  | Some t =>
      match request_of action payload env with
      | None => throw (error ("Unknown action: " +:+ action))
      | Some (m, u, b) =>
          response <- fetch {| method := m; url := u;
                               bearer := Some t; body := b |} env;;
          if negb (ok response) then throw (http_error response)
          else if String.eqb m "DELETE" then ret DeleteOk
          else response_json response
      end
  end.

(** *** Tasks *)

(** [getTasks] up to [chrome.runtime.sendMessage]; the result tells
    whether the request was sent. *)
Definition getTasks_start : Eff bool :=
  a <- read isAuthenticated;;
  if negb a then (showLoginPrompt;; ret false)
  else
    write_tasks_list (HtmlLoading "Loading tasks...");;
    emit (SendMessage "getTasks");;
    ret true.

(** [response?.error || 'Unknown error']. *)
Definition error_of (response : option Message) : string :=
  match response with
  | Some r =>
      match msg_error r with
      | Some e => or_else e "Unknown error"
      | None => "Unknown error"
      end
  | None => "Unknown error"
  end.

Definition looks_expired (errorMsg : string) : bool :=
  includes errorMsg "Authentication required" || includes errorMsg "401"
  || includes errorMsg "expired".

(** The callback of [getTasks]. *)
Definition getTasks_onResponse (runtimeError : option Error)
    (response : option Message) : Eff unit :=
  match runtimeError with
  | Some _ =>
      showError "Extension communication error. Please reload the extension.";;
      write_tasks_list (HtmlError "Extension error")
  | None =>
      if match response with Some r => success r | None => false end then
        modify (set_currentTasks
                  (match response with
                   | Some r => default [] (tasks r)
                   | None => []
                   end));;
        renderTasks
      else
        let errorMsg := error_of response in
        (if looks_expired errorMsg then
           modify (set_isAuthenticated false);;
           updateFooterAuthStatus;;
           showLoginPrompt;;
           showError "Your Google login has expired. Please log in again."
         else if includes errorMsg "403" || includes errorMsg "forbidden" then
           showError "Permission denied. Please check your Google Tasks permissions."
         else if includes errorMsg "network" || includes errorMsg "fetch" then
           showError "Could not connect to Google Tasks. Please check your internet connection."
         else
           showError ("Could not load tasks: " +:+ errorMsg));;
        write_tasks_list (HtmlError "Failed to load tasks")
  end.

(** A task fetch with nothing else scheduled in between: the request,
    the service worker, the callback. *)
Definition getTasks (env : Env) : Eff unit :=
  sent <- getTasks_start;;
  if sent then
    response <- Background.handleGetTasks env;;
    getTasks_onResponse None (Some response)
  else ret tt.

(** *** Events *)

Definition no_payload : Payload := mkPayload "" "" "" "" "".

(** [getEvents] up to [await apiRequest('getEvents')]. *)
Definition getEvents_start : Eff bool :=
  a <- read isAuthenticated;;
  if negb a then
    showEventsError "Please log in to Google to view your calendar events.";;
    ret false
  else
    showEventsLoading;;
    ret true.

(** [getEvents] from the point where the promise of [apiRequest] has
    settled. *)
Definition getEvents_resume (result : Promise Data) : Eff unit :=
  match result with
  | Resolved data =>
      modify (set_currentEvents (Background.event_items data));;
      renderEvents
  | Rejected e =>
      let errorMsg := or_else (err_message e) "Unknown error" in
      if looks_expired errorMsg then
        modify (set_isAuthenticated false);;
        updateFooterAuthStatus;;
        showLoginPrompt;;
        showEventsError "Your Google login has expired. Please log in again."
      else if includes errorMsg "403" || includes errorMsg "forbidden" then
        showEventsError "Permission denied. Please check your Google Calendar permissions."
      else if includes errorMsg "network" || includes errorMsg "fetch" then
        showEventsError "Could not connect to Google Calendar. Please check your internet connection."
      else
        showEventsError errorMsg
  end.

Definition getEvents (env : Env) : Eff unit :=
  go <- getEvents_start;;
  if go then
    result <- settle (apiRequest "getEvents" no_payload env);;
    getEvents_resume result
  else ret tt.

(** *** Login and logout *)

(** [window.showTab('todo')]: shows the tab and loads the tasks. *)
Definition showTab_todo : Eff unit :=
  d <- read dom;;
  match todo_content d with
  | None => ret tt
  | Some _ =>
      modify_dom (set_todo_content true);;
      _ <- getTasks_start;;
      ret tt
  end.

Definition handleLogin_start : Eff unit :=
  showStatus "Logging in to Google..." "info";;
  emit (SendMessage "authenticate").

Definition handleLogin_onResponse (runtimeError : option Error)
    (response : option Message) : Eff unit :=
  match runtimeError with
  | Some _ =>
      showError "Extension communication error. Please reload the extension and try again."
  | None =>
      if match response with Some r => success r | None => false end then
        showStatus "Login successful!" "success";;
        modify (set_isAuthenticated true);;
        updateFooterAuthStatus;;
        _ <- getTasks_start;;
        _ <- getEvents_start;;
        showTab_todo
      else
        let errorMsg := error_of response in
        (if includes errorMsg "User cancelled" || includes errorMsg "canceled" then
           showStatus "Login cancelled" "warning"
         else if includes errorMsg "network" || includes errorMsg "fetch" then
           showError "Could not connect to Google. Please check your internet connection."
         else
           showError "Unable to login to Google. Please try again.");;
        modify (set_isAuthenticated false);;
        updateFooterAuthStatus
  end.

Definition handleLogout_start : Eff unit :=
  showStatus "Logging out..." "info";;
  emit (SendMessage "logout").

Definition handleLogout_onResponse (runtimeError : option Error)
    (response : option Message) : Eff unit :=
  match runtimeError with
  | Some _ =>
      showError "Extension communication error. Please reload the extension and try again."
  | None =>
      if match response with Some r => success r | None => false end then
        modify (set_isAuthenticated false);;
        updateFooterAuthStatus;;
        modify (set_currentTasks []);;
        modify (set_currentEvents []);;
        showLoginPrompt;;
        write_tasks_list HtmlEmpty;;
        write_events_list HtmlEmpty;;
        showStatus "Logged out successfully" "success"
      else
        showError "Unable to logout from Google. Please try again."
  end.

(** A logout with nothing else scheduled in between. *)
Definition handleLogout (env : Env) : Eff unit :=
  handleLogout_start;;
  response <- Background.handleLogout env;;
  handleLogout_onResponse None (Some response).

(** A login with nothing else scheduled in between; the fetches it
    starts are answered by later callbacks. *)
Definition handleLogin (env : Env) : Eff unit :=
  handleLogin_start;;
  response <- Background.handleAuthenticate env;;
  handleLogin_onResponse None (Some response).

End SidePanel.

(** ** The event loop of a session *)

Module Session.

(** The pieces of script that run one at a time while the user logs in
    and out and lists are fetched: a click, the answer to a message, the
    settlement of a request, the service worker serving one message. *)
Inductive Callback : Type :=
| LoginClicked
| LoginAnswered (runtimeError : option Error)
    (response : option Background.Message)
| LogoutClicked
| LogoutAnswered (runtimeError : option Error)
    (response : option Background.Message)
| TasksRequested
| TasksAnswered (runtimeError : option Error)
    (response : option Background.Message)
| EventsRequested
| EventsSettled (result : Promise Data)
| Worker (action : string) (data : Payload) (env : Env)
| ApiCall (action : string) (payload : Payload) (env : Env).

Definition run_callback (c : Callback) : Eff unit :=
  match c with
  | LoginClicked => SidePanel.handleLogin_start
  | LoginAnswered e r => SidePanel.handleLogin_onResponse e r
  | LogoutClicked => SidePanel.handleLogout_start
  | LogoutAnswered e r => SidePanel.handleLogout_onResponse e r
  | TasksRequested => _ <- SidePanel.getTasks_start;; ret tt
  | TasksAnswered e r => SidePanel.getTasks_onResponse e r
  | EventsRequested => _ <- SidePanel.getEvents_start;; ret tt
  | EventsSettled result => SidePanel.getEvents_resume result
  | Worker action data env => _ <- Background.onMessage action data env;; ret tt
  | ApiCall action payload env =>
      _ <- settle (SidePanel.apiRequest action payload env);; ret tt
  end.

(** The world after the callbacks ran in the given order. An uncaught
    exception ends the callback it occurs in, not the session. *)
Definition run_all (cs : list Callback) (w : World) : World :=
  foldl (fun w c => exec (run_callback c) w) w cs.

End Session.

(** ** LinkHive: the save-tab module with its flat list of links *)

Module LinkHive.

Import SidePanel (showStatus, showError).

Definition LH_ITEMS_KEY : string := "linkHiveItems".

(** The fields of the save form as the submit handler reads them.
    [editing_id] is [None] on a page without [#editing-savedtab-id]. *)
Record Form := mkForm {
  editing_id : option string;
  form_title : string;
  form_note : string;
  form_url : string;
  form_group : string
}.

Record FormData := mkFormData {
  fd_id : option string;               (* editingId || undefined *)
  fd_title : string;
  fd_note : string;
  fd_url : string;
  fd_group : string
}.

(** [await chrome.storage.local.set(data)] and [.remove(key)]. *)
Definition storage_local_set (data : gmap string Stored)
    (lastError : option Error) : Eff unit :=
  area <- read local;;
  let r := Storage.setStorageData data lastError area in
  modify (set_local (fst r));;
  await (snd r).

Definition storage_local_remove (key : string) (lastError : option Error)
  : Eff unit :=
  area <- read local;;
  let r := Storage.removeStorageData [key] lastError area in
  modify (set_local (fst r));;
  await (snd r).

Definition setSavedTabsArray (arr : list SavedLink)
    (setErr rmErr : option Error) : Eff unit :=
  storage_local_set {[ LH_ITEMS_KEY := LinkItems arr ]} setErr;;
  storage_local_remove "savedTabs" rmErr.

(** [createGroup] of the side panel script. *)
Definition createGroup (name : string) : Eff unit :=
  if negb (truthy name) || negb (truthy (trim name)) then
    showError "Group name cannot be empty"
  else
    d <- read dom;;
    match saved_tabs_list d with
    | None => ret tt
    | Some children =>
        modify_dom (set_saved_tabs_list (children ++ [GroupShell name])%list);;
        showStatus ("Group " +:+ dquote +:+ name +:+ dquote +:+ " created")
          "success"
    end.

(** *** renderSavedTabs *)

(** [(it.group || 'General').trim()]. *)
Definition group_key (it : SavedLink) : string :=
  trim (or_else (link_group it) "General").

Definition has_group (key : string) (acc : list (string * list SavedLink))
  : bool :=
  existsb (fun e => String.eqb (fst e) key) acc.

(** [(acc[key] ||= []).push(it)] on an accumulator that has no inherited
    clash at [key]. Entries are kept in insertion order (an engine lists
    names that look like array indices first; no statement depends on the
    order of the groups). *)
Fixpoint push_group (key : string) (it : SavedLink)
    (acc : list (string * list SavedLink)) : list (string * list SavedLink) :=
  match acc with
  | [] => [(key, [it])]
  | (k, items) :: rest =>
      if String.eqb k key then (k, (items ++ [it])%list) :: rest
      else (k, items) :: push_group key it rest
  end.

(** One step of the [reduce]: a key that names an inherited property and
    is not an own one reads as a truthy value without [push]. *)
Definition group_step (acc : list (string * list SavedLink)) (it : SavedLink)
  : Completion (list (string * list SavedLink)) :=
  let key := group_key it in
  if has_group key acc then Normal (push_group key it acc)
  else if inherited key then
    Throw (Storage.not_a_function "(intermediate value).push")
  else Normal (push_group key it acc).

Fixpoint group_from (acc : list (string * list SavedLink))
    (items : list SavedLink) : Completion (list (string * list SavedLink)) :=
  match items with
  | [] => Normal acc
  | it :: rest =>
      match group_step acc it with
      | Normal acc' => group_from acc' rest
      | Throw e => Throw e
      end
  end.

Definition grouped (cache : list SavedLink)
  : Completion (list (string * list SavedLink)) :=
  group_from [] cache.

(** The comparator [(a, b) => (b.starred === true) - (a.starred === true)]. *)
Definition by_star (a b : SavedLink) : Z :=
  Z.b2z (link_starred b) - Z.b2z (link_starred a).

(** [Array.prototype.sort] is stable: an insertion sort that keeps equal
    elements in their order. *)
Fixpoint insert_sorted (x : SavedLink) (l : list SavedLink) : list SavedLink :=
  match l with
  | [] => [x]
  | y :: l' =>
      if by_star x y <=? 0 then x :: y :: l'
      else y :: insert_sorted x l'
  end.

Fixpoint sort_by_star (l : list SavedLink) : list SavedLink :=
  match l with
  | [] => []
  | x :: l' => insert_sorted x (sort_by_star l')
  end.

Definition renderSavedTabs : Eff unit :=
  d <- read dom;;
  match saved_tabs_list d with
  | None => ret tt
  | Some _ =>
      modify_dom (set_saved_tabs_list []);;
      cache <- read savedTabsCache;;
      match grouped cache with
      | Throw e => throw e
      | Normal groups =>
          modify_dom
            (set_saved_tabs_list
               ((fun e => GroupCard (fst e) (sort_by_star (snd e))) <$> groups))
      end
  end.

(** *** Saving *)

(** [{ ...old, ...formData }] for a [formData] whose [id] is set. *)
Definition merge (old : SavedLink) (id : string) (f : FormData) : SavedLink :=
  {| link_id := id;
     link_title := fd_title f;
     link_url := fd_url f;
     link_note := fd_note f;
     link_group := fd_group f;
     link_starred := link_starred old |}.

(** [{ ...formData, id: fresh, starred: false }]. *)
Definition fresh_link (fresh : string) (f : FormData) : SavedLink :=
  {| link_id := fresh;
     link_title := fd_title f;
     link_url := fd_url f;
     link_note := fd_note f;
     link_group := fd_group f;
     link_starred := false |}.

(** [saveOrUpdateSavedTab formData]; [fresh] is the identifier
    [crypto.randomUUID] or the clock would produce. *)
Definition saveOrUpdateSavedTab (f : FormData) (fresh : string)
    (setErr rmErr : option Error) : Eff unit :=
  cache <- read savedTabsCache;;
  (match fd_id f with
   | Some id =>
       (* findIndex, then savedTabsCache[idx] = { ...old, ...formData } *)
       match list_find (fun it => link_id it = id) cache with
       | Some (idx, old) =>
           modify (set_savedTabsCache (<[ idx := merge old id f ]> cache))
       | None => ret tt
       end
   | None =>
       modify (set_savedTabsCache (cache ++ [fresh_link fresh f])%list)
   end);;
  cache' <- read savedTabsCache;;
  setSavedTabsArray cache' setErr rmErr;;
  renderSavedTabs.

(** [handleSaveTabFormSubmit]. Clearing and hiding the form afterwards
    touches the form fields only and is left out. *)
Definition handleSaveTabFormSubmit (form : Form) (fresh : string)
    (setErr rmErr : option Error) : Eff unit :=
  let editingId := match editing_id form with
                   | Some v => trim v
                   | None => ""
                   end in
  let title := trim (form_title form) in
  let note := trim (form_note form) in
  let url := trim (form_url form) in
  let group := form_group form in
  if negb (truthy title) then showError "Title is required"
  else if negb (truthy url) then showError "URL is required"
  else
    let group := if truthy group then group else "General" in
    createGroup group;;
    try_catch
      (saveOrUpdateSavedTab
         {| fd_id := if truthy editingId then Some editingId else None;
            fd_title := title; fd_note := note; fd_url := url;
            fd_group := group |}
         fresh setErr rmErr;;
       if truthy editingId then showStatus "Link updated" "success"
       else showStatus "Link saved" "success")
      (fun e => showError ("Failed to save tab: " +:+ err_message e)).

(** *** Starring and deleting a link *)

Definition toggle_star (it : SavedLink) : SavedLink :=
  {| link_id := link_id it;
     link_title := link_title it;
     link_url := link_url it;
     link_note := link_note it;
     link_group := link_group it;
     link_starred := negb (link_starred it) |}.

(** [onToggleStar id]: [findIndex], the flag flipped in place, then the
    array persisted and the list drawn again. *)
Definition onToggleStar (id : string) (setErr rmErr : option Error)
  : Eff unit :=
  cache <- read savedTabsCache;;
  match list_find (fun it => link_id it = id) cache with
  | None => ret tt
  | Some (i, it) =>
      modify (set_savedTabsCache (<[ i := toggle_star it ]> cache));;
      cache' <- read savedTabsCache;;
      setSavedTabsArray cache' setErr rmErr;;
      renderSavedTabs
  end.

(** [onDeleteSavedTab id]. *)
Definition onDeleteSavedTab (id : string) (setErr rmErr : option Error)
  : Eff unit :=
  modify (fun w =>
    set_savedTabsCache
      (filter (fun it => link_id it ≠ id) (savedTabsCache w)) w);;
  cache' <- read savedTabsCache;;
  setSavedTabsArray cache' setErr rmErr;;
  renderSavedTabs.

End LinkHive.

(** ** The error taxonomy of the specification *)

Module Spec.

(** The kinds of failure the specification names for a request that was
    sent, in its own words; kept apart from the code for comparison with
    [SidePanel.http_error]. *)
Inductive ErrorKind : Type :=
| AuthExpired
| PermissionDenied
| NotFound
| RateLimited
| ProviderUnavailable
| RequestFailed (status : Z).

(** 401, 403, 404, 429, any 5xx, any other status. *)
Definition error_of_status (s : Z) : ErrorKind :=
  if s =? 401 then AuthExpired
  else if s =? 403 then PermissionDenied
  else if s =? 404 then NotFound
  else if s =? 429 then RateLimited
  else if (500 <=? s) && (s <=? 599) then ProviderUnavailable
  else RequestFailed s.

(** The message under which the side panel reports each kind. *)
Definition message_of (k : ErrorKind) (statusText : string) : string :=
  match k with
  | AuthExpired =>
      "Your Google login has expired. Please log out and log back in."
  | PermissionDenied =>
      "Permission denied. Please check your Google permissions."
  | NotFound => "Resource not found. It may have been deleted."
  | RateLimited => "Too many requests. Please wait a moment and try again."
  | ProviderUnavailable =>
      "Google services are temporarily unavailable. Please try again later."
  | RequestFailed s =>
      "Request failed: " +:+ pretty s +:+ " " +:+ statusText
  end.

Definition error_of (k : ErrorKind) (r : Response) : Error :=
  {| err_message := message_of k (statusText r);
     err_code := None;
     err_status := Some (status r) |}.

End Spec.

(** ** Sample data *)

Module Sample.

Definition tab : Storage.TabData :=
  Storage.mkTabData " Rocq manual " "https://rocq-prover.org/doc" None "Reading".

Definition ops : list Storage.Op :=
  [ Storage.OpSave tab "1700000000000" "2023-11-14T22:13:20.000Z" None None;
    Storage.OpDelete "Reading" "1700000000000" None None ].

Definition page : Dom :=
  mkDom (Some HtmlEmpty) (Some HtmlEmpty) (Some false) (Some true)
    (Some "Logout") (Some []) (Some []) (Some true).

Definition task : Task := mkTask "t1" "Write report" false.
Definition event : CalEvent := mkEvent "e1" "Stand-up".

(** A logged-in side panel with one cached task and one cached event. *)
Definition logged_in : World :=
  mkWorld true [task] [event] {[ "t1" ]} [] page (Some "ya29.token")
    {[ "starredTasks" := StrArray ["t1"] ]} ∅ [].

(** A world in which the platform holds no token. *)
Definition logged_out : World :=
  mkWorld false [] [] ∅ [] page None ∅ ∅ [].

Definition unauthorized : Response := mkResponse 401 "Unauthorized" None.

(** The answer to a task fetch that was sent while the user was still
    logged in, and the result of a calendar fetch of the same time. *)
Definition late_task : Task := mkTask "t2" "Book flights" false.
Definition late_event : CalEvent := mkEvent "e2" "Review".

Definition late_tasks_reply : Background.Message :=
  Background.mkMessage true None None (Some [late_task]) None None.

Definition late_events_result : Promise Data :=
  Resolved (EventList (Some [late_event])).

(** A fetch is sent, the user logs out and the logout is confirmed. *)
Definition logout_during_fetch : list Session.Callback :=
  [ Session.TasksRequested;
    Session.EventsRequested;
    Session.LogoutClicked;
    Session.LogoutAnswered None (Some Background.succeeded) ].

(** A network that answers every request with 401, and an account
    service that issues nothing. *)
Definition expired_env : Env :=
  mkEnv (fun _ => mkAuthReply (Some (error "OAuth2 not granted or revoked.")) None)
    (fun _ => Responded unauthorized)
    "2025-10-04T09:00:00.000Z" "2026-01-04T09:00:00.000Z".

(** An account service that issues a token only through the consent
    window, and a provider that accepts it. *)
Definition consenting_env : Env :=
  mkEnv (fun interactive =>
           if interactive then mkAuthReply None (Some "ya29.fresh")
           else mkAuthReply (Some (error "OAuth2 not granted or revoked.")) None)
    (fun _ => Responded (mkResponse 200 "OK" (Some (TaskList (Some [task])))))
    "2025-10-04T09:00:00.000Z" "2026-01-04T09:00:00.000Z".

(** A save form with the group left empty. *)
Definition ungrouped_form : LinkHive.Form :=
  LinkHive.mkForm (Some "") " Rocq manual " "" "https://rocq-prover.org/doc " "".

End Sample.

(** ** storage.js: group names, starred tasks, settings *)

Module Prefs.

Import Storage.

Definition THEME : string := "theme".
Definition TIME_FORMAT : string := "timeFormat".

(** [Array.prototype.sort()] without a comparator, on names made of
    one-byte characters: ascending in the order of the character codes.
    The names sorted below are distinct, so the algorithm does not show. *)
Fixpoint insert_name (x : string) (l : list string) : list string :=
  match l with
  | [] => [x]
  | y :: l' => if String.leb x y then x :: y :: l' else y :: insert_name x l'
  end.

Definition sort_names (l : list string) : list string :=
  foldr insert_name [] l.

(** [getTabGroups]: [Object.keys(savedTabs).sort()]. [getSavedTabs] has
    already turned a failed read into [{}]. *)
Definition getTabGroups (getErr : option Error) (area : gmap string Stored)
  : list string :=
  sort_names ((map_to_list (getSavedTabs getErr area)).*1).

(** [getStarredTasks]: the array under [starredTasks] as a set, the empty
    set when the key is absent or the read fails. The key holds an array
    of identifiers whenever this code wrote it. *)
Definition getStarredTasks (getErr : option Error) (area : gmap string Stored)
  : gset string :=
  match getStorageData (KeyOne STARRED_TASKS) getErr area with
  | Resolved result =>
      match result !! STARRED_TASKS with
      | Some (StrArray l) => list_to_set l
      | _ => ∅
      end
  | Rejected _ => ∅
  end.

(** [saveStarredTasks]: [Array.from(starredTasks)] written under the key;
    a failure is thrown again. *)
Definition saveStarredTasks (starred : gset string) (setErr : option Error)
    (area : gmap string Stored) : gmap string Stored * Promise unit :=
  setStorageData {[ STARRED_TASKS := StrArray (elements starred) ]} setErr area.

(** [value || d] for a stored value: the empty string is the only falsy
    value among the shapes that are stored. *)
Definition or_default (v : option Stored) (d : string) : Stored :=
  match v with
  | Some (Str s) => if truthy s then Str s else Str d
  | Some x => x
  | None => Str d
  end.

Record UserSettings := mkUserSettings {
  theme : Stored;
  timeFormat : Stored
}.

Definition DEFAULT_SETTINGS : UserSettings :=
  mkUserSettings (Str "light") (Str "12h").

(** [getUserSettings]. *)
Definition getUserSettings (getErr : option Error) (area : gmap string Stored)
  : UserSettings :=
  match getStorageData (KeyList [THEME; TIME_FORMAT]) getErr area with
  | Resolved result =>
      {| theme := or_default (result !! THEME) "light";
         timeFormat := or_default (result !! TIME_FORMAT) "12h" |}
  | Rejected _ => DEFAULT_SETTINGS
  end.

(** [if (settings.x) dataToSave[key] = settings.x]; [None] is a field that
    is not given. *)
Definition put_if_truthy (key : string) (value : option string)
    (data : gmap string Stored) : gmap string Stored :=
  match value with
  | Some s => if truthy s then <[ key := Str s ]> data else data
  | None => data
  end.

(** [saveUserSettings settings]. *)
Definition saveUserSettings (new_theme new_timeFormat : option string)
    (setErr : option Error) (area : gmap string Stored)
  : gmap string Stored * Promise unit :=
  let dataToSave :=
    put_if_truthy TIME_FORMAT new_timeFormat (put_if_truthy THEME new_theme ∅) in
  setStorageData dataToSave setErr area.

End Prefs.

(** ** background.js: the storage helpers of the context menu *)

Module ContextMenu.

Import Storage.

(** [result.savedTabs || {}] after [chrome.storage.local.get(['savedTabs'])]. *)
Definition saved_tabs_of (result : gmap string Stored)
  : gmap string (list TabEntry) :=
  match result !! "savedTabs" with
  | Some (SavedTabsObj g) => g
  | _ => ∅
  end.

(** [getTabGroupsFromStorage]: a failed read gives [[]]. *)
Definition getTabGroupsFromStorage (getErr : option Error)
    (area : gmap string Stored) : list string :=
  match getStorageData (KeyList ["savedTabs"]) getErr area with
  | Resolved result =>
      Prefs.sort_names ((map_to_list (saved_tabs_of result)).*1)
  | Rejected _ => []
  end.

(** [saveTabToStorage tabData]: the read is awaited inside the [try], so a
    failed read is thrown again instead of being replaced by [{}]. *)
Definition saveTabToStorage (tabData : TabData) (now iso : string)
    (getErr setErr : option Error) (area : gmap string Stored)
  : gmap string Stored * Promise TabEntry :=
  match getStorageData (KeyList ["savedTabs"]) getErr area with
  | Rejected e => (area, Rejected e)
  | Resolved result =>
      let savedTabs := saved_tabs_of result in
      let group := td_group tabData in
      let existing :=
        match savedTabs !! group with
        | Some l => Some l
        | None => if inherited group then None else Some []
        end in
      let tabEntry :=
        {| tab_id := now;
           tab_title := trim (td_title tabData);
           tab_url := trim (td_url tabData);
           tab_note := match td_note tabData with
                       | Some n => if truthy n then trim n else ""
                       | None => ""
                       end;
           tab_savedAt := iso |} in
      match existing with
      | None => (area, Rejected (not_a_function "savedTabs[group].push"))
      | Some l =>
          let savedTabs' := <[ group := (l ++ [tabEntry])%list ]> savedTabs in
          match setStorageData {[ "savedTabs" := SavedTabsObj savedTabs' ]}
                  setErr area with
          | (area', Resolved _) => (area', Resolved tabEntry)
          | (area', Rejected e) => (area', Rejected e)
          end
      end
  end.

End ContextMenu.

(** ** The side panel script: start-up, starred tasks, task actions *)

Module Panel.

Import Background (Message, success, msg_error, authenticated).
Import SidePanel.

Definition set_starredTasks (s : gset string) (w : World) : World :=
  mkWorld (Browser.isAuthenticated w) (currentTasks w) (currentEvents w) s
    (savedTabsCache w) (dom w) (tokenCache w) (local w) (sync w) (log w).

Definition set_sync (m : gmap string Stored) (w : World) : World :=
  mkWorld (Browser.isAuthenticated w) (currentTasks w) (currentEvents w)
    (starredTasks w) (savedTabsCache w) (dom w) (tokenCache w) (local w) m
    (log w).

(** *** Start-up *)

(** [updateGoogleAccountUI] only updates the footer, and [updateAuthUI]
    calls it and updates the footer again. *)
Definition updateGoogleAccountUI (authenticated : bool) : Eff unit :=
  updateFooterAuthStatus.

Definition updateAuthUI : Eff unit :=
  a <- read Browser.isAuthenticated;;
  updateGoogleAccountUI a;;
  updateFooterAuthStatus.

Definition checkAuthenticationStatus_start : Eff unit :=
  emit (SendMessage "checkAuth").

(** The callback of [checkAuthenticationStatus]. A response without the
    [authenticated] field leaves the flag falsy. *)
Definition checkAuthenticationStatus_onResponse (runtimeError : option Error)
    (response : option Message) : Eff unit :=
  match runtimeError with
  | Some _ =>
      showError "Extension communication error. Please reload the extension."
  | None =>
      match response with
      | Some r =>
          if success r then
            modify (set_isAuthenticated (default false (authenticated r)));;
            updateAuthUI;;
            a <- read Browser.isAuthenticated;;
            if a then
              _ <- getTasks_start;;
              _ <- getEvents_start;;
              updateFooterAuthStatus;;
              showTab_todo
            else
              updateFooterAuthStatus;;
              showLoginPrompt
          else
            showError "Unable to verify login status. Please try again.";;
            modify (set_isAuthenticated false);;
            updateFooterAuthStatus
      | None =>
          showError "Unable to verify login status. Please try again.";;
          modify (set_isAuthenticated false);;
          updateFooterAuthStatus
      end
  end.

(** Start-up with nothing else scheduled in between: the message, the
    service worker, the callback. *)
Definition checkAuthenticationStatus (env : Env) : Eff unit :=
  checkAuthenticationStatus_start;;
  response <- Background.handleCheckAuth env;;
  checkAuthenticationStatus_onResponse None (Some response).

(** *** Starred tasks *)

Definition STARRED_KEY : string := "starredTasks".

(** [result.starredTasks || []] as a set; the key holds an array of
    identifiers whenever this code wrote it. *)
Definition starred_in (area : gmap string Stored) : gset string :=
  match area !! STARRED_KEY with
  | Some (StrArray l) => list_to_set l
  | _ => ∅
  end.

(** The callbacks of [loadStarredTasks]: [chrome.storage.sync] first,
    [chrome.storage.local] when the synced read fails. *)
Definition loadStarredTasks (syncErr localErr : option Error) : Eff unit :=
  match syncErr with
  | None =>
      area <- read sync;;
      modify (set_starredTasks (starred_in area))
  | Some _ =>
      match localErr with
      | None =>
          area <- read local;;
          modify (set_starredTasks (starred_in area))
      | Some _ =>
          showError "Unable to load starred tasks. Please refresh the page."
      end
  end.

(** The writes of [saveStarredTasks] for the array taken from the set when
    it was called, and their callbacks. *)
Definition saveStarredTasks_writes (starredArray : list string)
    (syncErr localErr : option Error) : Eff unit :=
  match syncErr with
  | None =>
      modify (fun w =>
        set_sync (Storage.area_set {[ STARRED_KEY := StrArray starredArray ]}
                    (sync w)) w)
  | Some _ =>
      match localErr with
      | None =>
          modify (fun w =>
            set_local (Storage.area_set
                         {[ STARRED_KEY := StrArray starredArray ]} (local w)) w)
      | Some _ => showError "Unable to save starred tasks. Please try again."
      end
  end.

Definition saveStarredTasks (syncErr localErr : option Error) : Eff unit :=
  starred <- read starredTasks;;
  saveStarredTasks_writes (elements starred) syncErr localErr.

Definition isTaskStarred (taskId : string) : Eff bool :=
  starred <- read starredTasks;;
  ret (bool_decide (taskId ∈ starred)).

(** [toggleTaskStar taskId]: the set is changed, the notice shown, the
    save started and the list drawn again; the storage callbacks run
    afterwards. *)
Definition toggleTaskStar (taskId : string) (syncErr localErr : option Error)
  : Eff unit :=
  starred <- read starredTasks;;
  (if bool_decide (taskId ∈ starred) then
     modify (set_starredTasks (starred ∖ {[ taskId ]}));;
     showStatus "Task unstarred" "success"
   else
     modify (set_starredTasks (starred ∪ {[ taskId ]}));;
     showStatus "Task starred and pinned to top!" "success");;
  starred' <- read starredTasks;;
  renderTasks;;
  saveStarredTasks_writes (elements starred') syncErr localErr.

(** *** Completing and deleting a task *)

Definition set_completed (b : bool) (t : Task) : Task :=
  mkTask (task_id t) (task_title t) b.

(** [currentTasks.find(t => t.id === taskId)] followed by the assignment
    to [task.status]: the first task with the id changes in place. *)
Fixpoint mark_first (taskId : string) (b : bool) (l : list Task) : list Task :=
  match l with
  | [] => []
  | t :: rest =>
      if String.eqb (task_id t) taskId then set_completed b t :: rest
      else t :: mark_first taskId b rest
  end.

Definition toggleTaskCompletion_start (taskId : string) (completed : bool)
  : Eff bool :=
  a <- read Browser.isAuthenticated;;
  if negb a then (showError "Please log in to Google first";; ret false)
  else (emit (SendMessage "updateTask");; ret true).

Definition toggleTaskCompletion_onResponse (taskId : string) (completed : bool)
    (response : option Message) : Eff unit :=
  if match response with Some r => success r | None => false end then
    modify (fun w => set_currentTasks (mark_first taskId completed (currentTasks w)) w);;
    renderTasks;;
    showStatus (if completed then "Task completed!" else "Task reopened!")
      "success"
  else
    let errorMsg := error_of response in
    if includes errorMsg "Authentication required" || includes errorMsg "401" then
      showError "Your Google login has expired. Please log out and log back in."
    else if includes errorMsg "403" || includes errorMsg "forbidden" then
      showError "Permission denied. Please check your Google Tasks permissions."
    else if includes errorMsg "network" || includes errorMsg "fetch" then
      showError "Could not connect to Google Tasks. Please check your internet connection."
    else
      showError "Could not update task. Please try again.".

Definition deleteTaskById_start (taskId : string) : Eff unit :=
  emit (SendMessage "deleteTask").

Definition deleteTaskById_onResponse (taskId : string)
    (response : option Message) : Eff unit :=
  if match response with Some r => success r | None => false end then
    modify (fun w =>
      set_currentTasks
        (filter (fun t => task_id t ≠ taskId) (currentTasks w)) w);;
    renderTasks;;
    showStatus "Task deleted successfully!" "success"
  else
    showError ("Failed to delete task: " +:+ error_of response).

(** A deletion with nothing else scheduled in between: the message, the
    service worker, the callback. *)
Definition deleteTaskById (taskId : string) (env : Env) : Eff unit :=
  deleteTaskById_start taskId;;
  response <- Background.handleDeleteTask (mkPayload taskId "" "" "" "") env;;
  deleteTaskById_onResponse taskId (Some response).

End Panel.

(** ** Vocabulary of the statements *)

(** The data that belongs to the user and not to the Google session: the
    starred task identifiers and the two storage areas (which hold the
    persisted [starredTasks] and the saved links). *)
Definition local_data (w : World)
  : gset string * gmap string Stored * gmap string Stored :=
  (starredTasks w, local w, sync w).

Definition keeps_local_data {A : Type} (m : Eff A) : Prop :=
  forall w, local_data (snd (m w)) = local_data w.

(** The request [apiRequest('getEvents')] sends. *)
Definition events_request (env : Env) (t : string) : Request :=
  mkRequest "GET"
    (SidePanel.EVENTS_URL +:+ "?timeMin=" +:+ encodeURIComponent (now env)
     +:+ "&timeMax=" +:+ encodeURIComponent (in_three_months env)
     +:+ "&singleEvents=true&orderBy=startTime&maxResults=50")
    (Some t) None.

Definition tasks_request (t : string) : Request :=
  mkRequest "GET" Background.TASKS_URL (Some t) None.

Definition EXPIRED_NOTICE : string :=
  "Your Google login has expired. Please log in again.".

(** The branch both fetch handlers take when the failure looks like an
    expired login. *)
Definition expiry_branch (notice : Eff unit) : Eff unit :=
  modify (set_isAuthenticated false);;
  SidePanel.updateFooterAuthStatus;;
  SidePanel.showLoginPrompt;;
  notice.


(** The storage area after [setSavedTabsArray arr]. *)
Definition links_stored (arr : list SavedLink) (area : gmap string Stored)
  : gmap string Stored :=
  Storage.area_remove ["savedTabs"]
    (Storage.area_set {[ LinkHive.LH_ITEMS_KEY := LinkItems arr ]} area).



(** [editingId] of the submit handler. *)
Definition editingId (form : LinkHive.Form) : string :=
  match LinkHive.editing_id form with
  | Some v => trim v
  | None => ""
  end.



(** The token an acquisition in the given mode yields in a world: the
    cached one, or what the account service issues in that mode. *)
Definition acquired_token (interactive : bool) (env : Env) (w : World)
  : option string :=
  match tokenCache w with
  | Some t => if truthy t then Some t else None
  | None => SidePanel.usable_token (mint env interactive)
  end.

(** The kinds [apiRequest] answers with: those of the specification,
    except that a status of 600 and above is answered like a 5xx one. *)
Definition kind_of_status (s : Z) : Spec.ErrorKind :=
  if 600 <=? s then Spec.ProviderUnavailable else Spec.error_of_status s.

(** A platform like that of [Sample.expired_env] whose network answers
    every request with [r]. *)
Definition answering (r : Response) : Env :=
  mkEnv (mint Sample.expired_env) (fun _ => Responded r)
    (now Sample.expired_env) (in_three_months Sample.expired_env).

Definition forbidden : Response := mkResponse 403 "Forbidden" None.


(** ** Vocabulary of the further statements *)

(** The entry [saveTab] builds for a tab. *)
Definition new_entry (td : Storage.TabData) (now iso : string) : TabEntry :=
  {| tab_id := now;
     tab_title := trim (Storage.td_title td);
     tab_url := trim (Storage.td_url td);
     tab_note := match Storage.td_note td with
                 | Some n => if truthy n then trim n else ""
                 | None => ""
                 end;
     tab_savedAt := iso |}.

(** A field of a settings object that [saveUserSettings] skips. *)
Definition falsy (value : option string) : Prop :=
  value = None \/ value = Some "".

Definition name_le (a b : string) : Prop := String.leb a b = true.

(** Sample stores for the statements below. *)
Definition store_one_tab : gmap string Stored :=
  fst (Storage.saveTab Sample.tab "1700000000000" "2023-11-14T22:13:20.000Z"
         None None {[ "theme" := Str "dark" ]}).

Definition store_two_tabs : gmap string Stored :=
  fst (Storage.saveTab Sample.tab "1700000000500" "2023-11-14T22:13:20.500Z"
         None None store_one_tab).

(** The token a silent acquisition yields in a world: the cached one, or
    what the account service issues without prompting. *)
Definition silent_token (env : Env) (w : World) : option string :=
  match tokenCache w with
  | Some t => if truthy t then Some t else None
  | None => SidePanel.usable_token (mint env false)
  end.

(** The actions the message listener of the service worker knows. *)
Definition known_actions : list string :=
  [ "checkAuth"; "authenticate"; "logout"; "getTasks"; "createTask";
    "updateTask"; "deleteTask"; "getEvents"; "createEvent" ].

(** The request [signOut] sends to revoke a token. *)
Definition revoke_url (t : string) : string :=
  Background.REVOKE_URL +:+ encodeURIComponent t.

(** The session as the fetch handlers can change it: the flag and the two
    caches. *)
Definition session (w : World) : bool * list Task * list CalEvent :=
  (isAuthenticated w, currentTasks w, currentEvents w).

(** The response reports a failure (or is missing). *)
Definition reports_failure (response : option Background.Message) : Prop :=
  match response with
  | Some r => Background.success r = false
  | None => True
  end.

(** Statuses that [apiRequest] turns into a fixed message other than the
    expired-login one. *)
Definition refused_or_unavailable (s : Z) : Prop :=
  s = 403 \/ s = 404 \/ s = 429 \/ 500 <= s.

(** The request [apiRequest('deleteTask')] sends. *)
Definition delete_task_request (payload : Payload) (t : string) : Request :=
  mkRequest "DELETE" (SidePanel.TASKS_URL +:+ "/" +:+ taskId payload)
    (Some t) None.

(** The messages sent to the service worker, and the calls that open the
    consent window, among the calls that left the script. *)
Definition messages (l : list Effect) : list string :=
  omap (fun e => match e with SendMessage a => Some a | _ => None end) l.

Definition consent_prompts (l : list Effect) : list Effect :=
  omap (fun e => match e with GetAuthToken true => Some e | _ => None end) l.

(** What the start-up check asks of the service worker after the check
    itself. *)
Definition startup_messages (authenticated : bool) (d : Dom) : list string :=
  if authenticated then
    "getTasks" :: match todo_content d with
                  | Some _ => ["getTasks"]
                  | None => []
                  end
  else [].

(** The notices of the status container. *)
Definition notice (w : World) : option (list (string * string)) :=
  status_messages (dom w).

(** The request [deleteTask] of the service worker sends. *)
Definition worker_delete_request (taskId t : string) : Request :=
  mkRequest "DELETE" (Background.TASKS_URL +:+ "/" +:+ taskId) (Some t) None.

(** A piece of script ran from [w] to [w'] sending [l] and touching, apart
    from that, only the page: the flag and the token cache are as before,
    and so is the presence of the to-do tab and of the status container. *)
Definition evolves (l : list Effect) (w w' : World) : Prop :=
  isAuthenticated w' = isAuthenticated w
  /\ tokenCache w' = tokenCache w
  /\ log w' = (log w ++ l)%list
  /\ todo_content (dom w') = todo_content (dom w)
  /\ (is_Some (status_messages (dom w))
      -> is_Some (status_messages (dom w'))).

(** What the switch to the to-do tab sends. *)
Definition todo_tab_requests (d : Dom) : list Effect :=
  match todo_content d with
  | Some _ => [SendMessage "getTasks"]
  | None => []
  end.

(** The links of a cache that [renderSavedTabs] files under the key [k],
    in the order of the cache. *)
Definition in_group (k : string) (cache : list SavedLink) : list SavedLink :=
  filter (fun it => LinkHive.group_key it = k) cache.

Definition starred_first (l : list SavedLink) : list SavedLink :=
  (filter (fun it => link_starred it = true) l
   ++ filter (fun it => link_starred it = false) l)%list.

(** The name of a group is one every object inherits. *)
Definition clashes (it : SavedLink) : Prop :=
  inherited (LinkHive.group_key it) = true.

(** What the reduce of [renderSavedTabs] maintains: the keys are distinct
    and none is an inherited name, each holds the links seen so far that
    carry it, none is empty, and every link seen is filed. *)
Definition filed (acc : list (string * list SavedLink))
    (seen : list SavedLink) : Prop :=
  NoDup acc.*1
  /\ (forall k, k ∈ acc.*1 -> inherited k = false)
  /\ (forall k its, (k, its) ∈ acc -> its = in_group k seen /\ its ≠ [])
  /\ (forall it, it ∈ seen -> LinkHive.group_key it ∈ acc.*1).

(** The cache after [onToggleStar id]. *)
Definition star_toggled (id : string) (cache : list SavedLink)
  : list SavedLink :=
  match list_find (fun it => link_id it = id) cache with
  | Some (i, it) => <[ i := LinkHive.toggle_star it ]> cache
  | None => cache
  end.

(** * Properties *)

Example trim_example : trim "  Work notes  " = "Work notes".
Proof. reflexivity. Qed.

Example includes_example :
  includes "Tasks API error: 401 Unauthorized" "401" = true
  /\ includes "Tasks API error: 500 Oops" "401" = false.
Proof. split; reflexivity. Qed.

Example encodeURIComponent_example :
  encodeURIComponent "ya29.a0-b_c/d e" = "ya29.a0-b_c%2Fd%20e".
Proof. reflexivity. Qed.

(** ** The key-value store wrapper *)

Section StoreFacts.
Context {V : Type}.
Implicit Types (area data : gmap string V) (k : string) (v : V).

Lemma area_set_lookup data area k v :
  data !! k = Some v -> Storage.area_set data area !! k = Some v.
Proof.
  intros Hk. unfold Storage.area_set.
  apply lookup_union_Some_l. exact Hk.
Qed.

Lemma area_set_other data area k :
  data !! k = None -> Storage.area_set data area !! k = area !! k.
Proof.
  intros Hk. unfold Storage.area_set.
  apply lookup_union_r. exact Hk.
Qed.

Lemma area_get_one area k v :
  area !! k = Some v -> Storage.area_get (Storage.KeyOne k) area !! k = Some v.
Proof.
  intros Hk. simpl. rewrite Hk. apply lookup_singleton_eq.
Qed.

End StoreFacts.

(** C9. Round trip of the store wrapper: on a store that reports no error,
    [setStorageData({k: v})] resolves, and [getStorageData(k)] on the store
    it leaves resolves with a mapping whose entry for [k] is [v]; this for
    every key and every value the store can hold. *)
Theorem storage_round_trip {V : Type} (k : string) (v : V)
    (area : gmap string V) :
  exists area' result,
    Storage.setStorageData {[ k := v ]} None area = (area', Resolved tt)
    /\ Storage.getStorageData (Storage.KeyOne k) None area' = Resolved result
    /\ result !! k = Some v.
Proof.
  exists (Storage.area_set {[ k := v ]} area).
  exists (Storage.area_get (Storage.KeyOne k) (Storage.area_set {[ k := v ]} area)).
  split; [reflexivity|]. split; [reflexivity|].
  apply area_get_one, area_set_lookup, lookup_singleton_eq.
Qed.

(** ** The grouped saved-tabs store *)

Lemma getSavedTabs_nonempty getErr (area : gmap string Stored) :
  Storage.saved_tabs_inv area ->
  Storage.groups_nonempty (Storage.getSavedTabs getErr area).
Proof.
  unfold Storage.saved_tabs_inv, Storage.getSavedTabs, Storage.getStorageData.
  intros Hinv. destruct getErr as [e|].
  - intros k l Hk. rewrite lookup_empty in Hk. discriminate.
  - simpl. destruct (area !! Storage.SAVED_TABS) as [s|] eqn:Hs.
    + rewrite lookup_singleton_eq.
      destruct s; try contradiction. exact Hinv.
    + rewrite lookup_empty. intros k l Hk. rewrite lookup_empty in Hk.
      discriminate.
Qed.

Lemma saved_tabs_inv_set g setErr (area : gmap string Stored) :
  Storage.saved_tabs_inv area ->
  Storage.groups_nonempty g ->
  Storage.saved_tabs_inv
    (fst (Storage.setStorageData
            {[ Storage.SAVED_TABS := SavedTabsObj g ]} setErr area)).
Proof.
  intros Hinv Hg. destruct setErr as [e|]; simpl; [exact Hinv|].
  unfold Storage.saved_tabs_inv.
  rewrite (area_set_lookup _ _ _ (SavedTabsObj g)); [exact Hg|].
  apply lookup_singleton_eq.
Qed.

Lemma groups_nonempty_insert g k (l : list TabEntry) :
  Storage.groups_nonempty g -> l <> [] ->
  Storage.groups_nonempty (<[ k := l ]> g).
Proof.
  intros Hg Hl k' l' Hk'.
  destruct (decide (k = k')) as [->|Hne].
  - rewrite lookup_insert_eq in Hk'. congruence.
  - rewrite lookup_insert_ne in Hk' by exact Hne. eapply Hg, Hk'.
Qed.

Lemma groups_nonempty_delete g k :
  Storage.groups_nonempty g -> Storage.groups_nonempty (delete k g).
Proof.
  intros Hg k' l' Hk'.
  destruct (decide (k = k')) as [->|Hne].
  - rewrite lookup_delete_eq in Hk'. discriminate.
  - rewrite lookup_delete_ne in Hk' by exact Hne. eapply Hg, Hk'.
Qed.

Lemma saveTab_inv td now iso getErr setErr (area : gmap string Stored) :
  Storage.saved_tabs_inv area ->
  Storage.saved_tabs_inv (fst (Storage.saveTab td now iso getErr setErr area)).
Proof.
  intros Hinv. unfold Storage.saveTab.
  pose proof (getSavedTabs_nonempty getErr area Hinv) as Hg.
  set (g := Storage.getSavedTabs getErr area) in *.
  set (entry := mkTabEntry _ _ _ _ _).
  assert (Hset : forall l,
    Storage.saved_tabs_inv
      (fst (Storage.setStorageData
              {[ Storage.SAVED_TABS :=
                   SavedTabsObj (<[ Storage.td_group td := (l ++ [entry])%list ]> g) ]}
              setErr area))).
  { intros l. apply saved_tabs_inv_set; [exact Hinv|].
    apply groups_nonempty_insert; [exact Hg|]. destruct l; discriminate. }
  destruct (g !! Storage.td_group td) as [l|].
  - specialize (Hset l).
    destruct (Storage.setStorageData _ setErr area) as [area' [u|e]]; exact Hset.
  - destruct (inherited (Storage.td_group td)); [exact Hinv|].
    specialize (Hset []).
    destruct (Storage.setStorageData _ setErr area) as [area' [u|e]]; exact Hset.
Qed.

Lemma deleteSavedTab_inv groupName tabId getErr setErr
    (area : gmap string Stored) :
  Storage.saved_tabs_inv area ->
  Storage.saved_tabs_inv
    (fst (Storage.deleteSavedTab groupName tabId getErr setErr area)).
Proof.
  intros Hinv. unfold Storage.deleteSavedTab.
  pose proof (getSavedTabs_nonempty getErr area Hinv) as Hg.
  set (g := Storage.getSavedTabs getErr area) in *.
  destruct (g !! groupName) as [l|].
  - apply saved_tabs_inv_set; [exact Hinv|].
    destruct (filter _ l) as [|x kept] eqn:Hkept; simpl.
    + apply groups_nonempty_delete, Hg.
    + apply groups_nonempty_insert; [exact Hg | discriminate].
  - destruct (inherited groupName); exact Hinv.
Qed.

Lemma clearAllSavedTabs_inv rmErr (area : gmap string Stored) :
  Storage.saved_tabs_inv area ->
  Storage.saved_tabs_inv (fst (Storage.clearAllSavedTabs rmErr area)).
Proof.
  intros Hinv. destruct rmErr as [e|]; simpl; [exact Hinv|].
  unfold Storage.saved_tabs_inv. rewrite lookup_delete_eq. exact I.
Qed.

Lemma run_inv op (area : gmap string Stored) :
  Storage.saved_tabs_inv area -> Storage.saved_tabs_inv (Storage.run op area).
Proof.
  destruct op; simpl.
  - apply saveTab_inv.
  - apply deleteSavedTab_inv.
  - apply clearAllSavedTabs_inv.
Qed.

(** C10. In the grouped saved-tabs store no group is empty: if the
    invariant holds of the storage area, it holds again after every
    sequence of [saveTab], [deleteSavedTab] and [clearAllSavedTabs] calls,
    whatever they are given and whether or not the platform reports
    errors. *)
Theorem saved_tabs_groups_never_empty (ops : list Storage.Op)
    (area : gmap string Stored) :
  Storage.saved_tabs_inv area ->
  Storage.saved_tabs_inv (foldl (fun a op => Storage.run op a) area ops).
Proof.
  revert area. induction ops as [|op ops IH]; intros area Hinv; simpl.
  - exact Hinv.
  - apply IH, run_inv, Hinv.
Qed.

Lemma saved_tabs_groups_never_empty_witness :
  Storage.saved_tabs_inv ∅
  /\ Storage.saved_tabs_inv (foldl (fun a op => Storage.run op a) ∅ Sample.ops).
Proof.
  split.
  - vm_compute. exact I.
  - apply (saved_tabs_groups_never_empty Sample.ops ∅). vm_compute. exact I.
Defined.

(** Deleting the only tab of a group removes the group key. *)
Example delete_last_tab_removes_group :
  Storage.getSavedTabs None
    (foldl (fun a op => Storage.run op a) ∅ Sample.ops) !! "Reading" = None.
Proof. vm_compute. reflexivity. Qed.

(** ** Credential acquisition *)


(** ** Status codes *)

Lemma apiRequest_not_ok action payload env w t m u b r :
  tokenCache w = Some t -> truthy t = true ->
  SidePanel.request_of action payload env = Some (m, u, b) ->
  net env (mkRequest m u (Some t) b) = Responded r ->
  ok r = false ->
  SidePanel.apiRequest action payload env w
  = (Throw (SidePanel.http_error r),
     add_log (Fetch m u) (add_log (GetAuthToken false) w)).
Proof.
  intros Hc Ht Hreq Hnet Hok.
  unfold SidePanel.apiRequest, chrome_identity_getAuthToken, fetch,
    bind, emit, modify, read, ret, throw. simpl.
  rewrite Hc. simpl. unfold SidePanel.usable_token. simpl.
  rewrite Ht, Hreq. simpl. rewrite Hnet. simpl. rewrite Hok. reflexivity.
Qed.

(** ** What a session leaves alone *)

Section Frame.
Context {A B : Type}.

Lemma keeps_ret (a : A) : keeps_local_data (ret a).
Proof. intros w. reflexivity. Qed.

Lemma keeps_throw (e : Error) : keeps_local_data (@throw A e).
Proof. intros w. reflexivity. Qed.

Lemma keeps_read (f : World -> A) : keeps_local_data (read f).
Proof. intros w. reflexivity. Qed.

Lemma keeps_bind (m : Eff A) (k : A -> Eff B) :
  keeps_local_data m -> (forall a, keeps_local_data (k a)) ->
  keeps_local_data (bind m k).
Proof.
  intros Hm Hk w. unfold bind. specialize (Hm w).
  destruct (m w) as [[a|e] w']; simpl in *.
  - rewrite Hk. exact Hm.
  - exact Hm.
Qed.

Lemma keeps_try_catch (m : Eff A) (h : Error -> Eff A) :
  keeps_local_data m -> (forall e, keeps_local_data (h e)) ->
  keeps_local_data (try_catch m h).
Proof.
  intros Hm Hh w. unfold try_catch. specialize (Hm w).
  destruct (m w) as [[a|e] w']; simpl in *.
  - exact Hm.
  - rewrite Hh. exact Hm.
Qed.

Lemma keeps_await (p : Promise A) : keeps_local_data (await p).
Proof. destruct p; intros w; reflexivity. Qed.

End Frame.

Lemma keeps_settle {A : Type} (m : Eff A) :
  keeps_local_data m -> keeps_local_data (settle m).
Proof.
  intros Hm. unfold settle. apply keeps_try_catch.
  - apply keeps_bind; [exact Hm|]. intros a. apply keeps_ret.
  - intros e. apply keeps_ret.
Qed.

Lemma keeps_modify (f : World -> World) :
  (forall w, local_data (f w) = local_data w) -> keeps_local_data (modify f).
Proof. intros Hf w. apply Hf. Qed.

Lemma keeps_modify_dom (f : Dom -> Dom) : keeps_local_data (modify_dom f).
Proof. intros w. reflexivity. Qed.

Lemma keeps_emit (e : Effect) : keeps_local_data (emit e).
Proof. intros w. reflexivity. Qed.

Create HintDb session_code.

#[local] Hint Unfold
  chrome_identity_getAuthToken chrome_identity_removeCachedAuthToken fetch
  response_json
  Background.getToken Background.signOut Background.isAuthenticated
  Background.getTasks Background.createTask Background.updateTask
  Background.deleteTask Background.getCalendarEvents
  Background.createCalendarEvent
  Background.handleCheckAuth Background.handleAuthenticate
  Background.handleLogout Background.handleGetTasks
  Background.handleGetEvents Background.handleCreateTask
  Background.handleUpdateTask Background.handleDeleteTask
  Background.handleCreateEvent Background.onMessage
  SidePanel.updateFooterAuthStatus SidePanel.write_tasks_list
  SidePanel.write_events_list SidePanel.hide_no_events_message
  SidePanel.showLoginPrompt SidePanel.showStatus SidePanel.showError
  SidePanel.showEventsLoading SidePanel.showEventsError
  SidePanel.renderTasks SidePanel.renderEvents SidePanel.apiRequest
  SidePanel.getTasks_start SidePanel.getTasks_onResponse
  SidePanel.getEvents_start SidePanel.getEvents_resume
  SidePanel.showTab_todo SidePanel.handleLogin_start
  SidePanel.handleLogin_onResponse SidePanel.handleLogout_start
  SidePanel.handleLogout_onResponse SidePanel.handleLogout
  SidePanel.handleLogin SidePanel.getTasks SidePanel.getEvents
  Session.run_callback : session_code.

(** One step of a frame proof: follow the structure of the computation,
    splitting on whatever a branch tests. *)
Ltac frame_step :=
  match goal with
  | |- keeps_local_data (bind _ _) => apply keeps_bind; [|intros]
  | |- keeps_local_data (try_catch _ _) => apply keeps_try_catch; [|intros]
  | |- keeps_local_data (settle _) => apply keeps_settle
  | |- keeps_local_data (ret _) => apply keeps_ret
  | |- keeps_local_data (throw _) => apply keeps_throw
  | |- keeps_local_data (read _) => apply keeps_read
  | |- keeps_local_data (await _) => apply keeps_await
  | |- keeps_local_data (emit _) => apply keeps_emit
  | |- keeps_local_data (modify_dom _) => apply keeps_modify_dom
  | |- keeps_local_data (modify _) =>
      apply keeps_modify; intros w; try reflexivity;
      case_decide; reflexivity
  | |- keeps_local_data (match ?x with _ => _ end) => destruct x
  | |- keeps_local_data (let _ := _ in _) => cbv zeta
  end.

Ltac frame := autounfold with session_code; repeat frame_step.

Lemma keeps_run_callback (c : Session.Callback) :
  keeps_local_data (Session.run_callback c).
Proof. destruct c; frame. Qed.

Lemma keeps_handleLogout (env : Env) :
  keeps_local_data (SidePanel.handleLogout env).
Proof. frame. Qed.

Lemma keeps_handleLogin (env : Env) :
  keeps_local_data (SidePanel.handleLogin env).
Proof. frame. Qed.

Lemma run_all_local_data (cs : list Session.Callback) (w : World) :
  local_data (Session.run_all cs w) = local_data w.
Proof.
  revert w. induction cs as [|c cs IH]; intros w; simpl.
  - reflexivity.
  - unfold Session.run_all in *. simpl. rewrite IH.
    apply keeps_run_callback.
Qed.

(** C5. Logging out leaves the starred task identifiers and both storage
    areas (hence the persisted [starredTasks] and the saved links) as they
    were, and so does every sequence of login, logout and fetch callbacks,
    in any order and with any answers from the platform. *)
Theorem logout_keeps_local_data (env : Env) (cs : list Session.Callback)
    (w : World) :
  local_data (exec (SidePanel.handleLogout env) w) = local_data w
  /\ local_data
       (exec (SidePanel.handleLogin env) (exec (SidePanel.handleLogout env) w))
     = local_data w
  /\ local_data (Session.run_all cs w) = local_data w.
Proof.
  split; [|split].
  - apply keeps_handleLogout.
  - unfold exec. rewrite keeps_handleLogin. apply keeps_handleLogout.
  - apply run_all_local_data.
Qed.

(** What the same logout does clear: the in-memory task and event caches. *)
Example logout_clears_caches :
  let w := exec (SidePanel.handleLogout Sample.expired_env) Sample.logged_in in
  isAuthenticated w = false /\ currentTasks w = [] /\ currentEvents w = []
  /\ tokenCache w = None
  /\ starredTasks w = starredTasks Sample.logged_in
  /\ local w = local Sample.logged_in.
Proof. vm_compute. repeat split. Qed.

(** ** Results that arrive late *)

Ltac eff_unfold :=
  unfold exec, outcome; autounfold with session_code;
  unfold bind, try_catch, settle, modify_dom, modify, read, ret, throw,
    emit, await.

(** C4, as stated, fails: a task fetch and a calendar fetch are in flight
    when the logout is confirmed; the session is then logged out with
    empty caches, and the two late results are written into the caches all
    the same. *)
Lemma late_result_repopulates_caches :
  let w1 := Session.run_all Sample.logout_during_fetch Sample.logged_in in
  let w2 := exec (SidePanel.getTasks_onResponse None
                    (Some Sample.late_tasks_reply)) w1 in
  let w3 := exec (SidePanel.getEvents_resume Sample.late_events_result) w2 in
  (isAuthenticated w1 = false /\ currentTasks w1 = [] /\ currentEvents w1 = [])
  /\ (isAuthenticated w3 = false
      /\ currentTasks w3 = [Sample.late_task]
      /\ currentEvents w3 = [Sample.late_event]).
Proof. vm_compute. repeat split. Qed.

(** C4, amended. The handlers apply a successful result without looking
    at the session state: in every world, logged in or not, the callback of
    [getTasks] replaces the task cache by the tasks of a successful
    response, [getEvents] replaces the event cache by the items of a
    resolved request, and neither touches [isAuthenticated]. *)
Theorem fetch_result_applied_unconditionally (w : World)
    (err : option string) (auth : option bool) (ts : option (list Task))
    (es : option (list CalEvent)) (it : option Data) (data : Data) :
  let w1 := exec (SidePanel.getTasks_onResponse None
                    (Some (Background.mkMessage true err auth ts es it))) w in
  let w2 := exec (SidePanel.getEvents_resume (Resolved data)) w in
  (currentTasks w1 = default [] ts /\ isAuthenticated w1 = isAuthenticated w)
  /\ (currentEvents w2 = Background.event_items data
      /\ isAuthenticated w2 = isAuthenticated w).
Proof.
  destruct w as [a cts ces st c d tok loc syn lg].
  destruct d as [tl el nem dot lbl sm stl tc].
  eff_unfold. simpl.
  split.
  - destruct tl; simpl; split; reflexivity.
  - destruct el, nem; simpl; split; reflexivity.
Qed.

(** ** Expired credentials *)

Lemma prefix_app_l (pat s t : string) :
  String.prefix pat s = true -> String.prefix pat (s +:+ t) = true.
Proof.
  revert s. induction pat as [|a pat IH]; intros s Hp.
  { destruct (s +:+ t); reflexivity. }
  destruct s as [|b s]; simpl in *; [discriminate|].
  destruct (Ascii.ascii_dec a b); [apply IH, Hp | discriminate].
Qed.

Lemma includes_app_l (s t pat : string) :
  includes s pat = true -> includes (s +:+ t) pat = true.
Proof.
  induction s as [|c s IH]; intros Hi.
  - simpl in Hi. rewrite orb_false_r in Hi.
    destruct pat; [|discriminate]. destruct t; reflexivity.
  - simpl in Hi. apply orb_true_iff in Hi as [Hp|Hi].
    + change (String c s +:+ t) with (String c (s +:+ t)).
      cbn [includes]. apply orb_true_iff. left.
      apply (prefix_app_l pat (String c s) t Hp).
    + change (String c s +:+ t) with (String c (s +:+ t)).
      cbn [includes]. apply orb_true_iff. right. apply IH, Hi.
Qed.

Lemma pretty_401 : pretty 401 = "401".
Proof. reflexivity. Qed.

(** The message of the service worker for a 401 is recognised as an
    expiry by the side panel, whatever the status text. *)
Lemma tasks_401_looks_expired (r : Response) :
  status r = 401 ->
  SidePanel.looks_expired (err_message (Background.api_error "Tasks" r)) = true
  /\ truthy (err_message (Background.api_error "Tasks" r)) = true.
Proof.
  intros H401. unfold Background.api_error. rewrite H401, pretty_401.
  split; [|reflexivity].
  unfold SidePanel.looks_expired.
  apply orb_true_iff. left. apply orb_true_iff. right.
  exact (includes_app_l "Tasks API error: 401 " (statusText r) "401" eq_refl).
Qed.

Lemma not_ok_401 (r : Response) : status r = 401 -> ok r = false.
Proof. intros H. unfold ok. rewrite H. reflexivity. Qed.

(** The service worker's answer to [getTasks] when the provider refuses
    the cached token. *)
Lemma handleGetTasks_not_ok env w t (r : Response) :
  tokenCache w = Some t -> truthy t = true ->
  net env (mkRequest "GET" Background.TASKS_URL (Some t) None) = Responded r ->
  ok r = false ->
  Background.handleGetTasks env w
  = (Normal (Background.failure (Background.api_error "Tasks" r)),
     add_log (Fetch "GET" Background.TASKS_URL)
       (add_log (GetAuthToken true) w)).
Proof.
  intros Hc Ht Hnet Hok. eff_unfold. simpl. rewrite Hc. simpl.
  unfold Background.getToken_callback. simpl. rewrite Ht. simpl.
  rewrite Hnet. simpl. rewrite Hok. reflexivity.
Qed.

(** C1. The code at the failing input: a logged-in panel with one cached
    task and one cached event whose task fetch is answered with 401. The
    branch that the code calls the automatic logout sets the flag to false
    and leaves both caches filled, where the claim has them cleared, as
    the logout itself does ([logout_clears_caches]). *)
Lemma expiry_keeps_caches :
  let w := exec (SidePanel.getTasks Sample.expired_env) Sample.logged_in in
  isAuthenticated w = false
  /\ currentTasks w = [Sample.task]
  /\ currentEvents w = [Sample.event].
Proof. vm_compute. repeat split. Qed.

Lemma bind_normal {A B : Type} (m : Eff A) (k : A -> Eff B) w a w' :
  m w = (Normal a, w') -> bind m k w = k a w'.
Proof. intros H. unfold bind. rewrite H. reflexivity. Qed.

Lemma settle_throw {A : Type} (m : Eff A) w e w' :
  m w = (Throw e, w') -> settle m w = (Normal (Rejected e), w').
Proof. intros H. unfold settle, try_catch, bind. rewrite H. reflexivity. Qed.

Lemma getEvents_resume_401 (r : Response) :
  status r = 401 ->
  SidePanel.getEvents_resume (Rejected (SidePanel.http_error r))
  = expiry_branch (SidePanel.showEventsError EXPIRED_NOTICE).
Proof.
  intros H401. unfold SidePanel.getEvents_resume, SidePanel.http_error.
  cbn [err_message]. unfold SidePanel.errorMessage. rewrite H401.
  reflexivity.
Qed.

Lemma getTasks_onResponse_401 (r : Response) :
  status r = 401 ->
  SidePanel.getTasks_onResponse None
    (Some (Background.failure (Background.api_error "Tasks" r)))
  = (expiry_branch (SidePanel.showError EXPIRED_NOTICE);;
     SidePanel.write_tasks_list (HtmlError "Failed to load tasks")).
Proof.
  intros H401. destruct (tasks_401_looks_expired r H401) as [Hexp Htruthy].
  unfold SidePanel.getTasks_onResponse. cbn [Background.success Background.failure Background.failed].
  unfold SidePanel.error_of. cbn [Background.msg_error Background.failure Background.failed].
  unfold or_else. rewrite Htruthy, Hexp. reflexivity.
Qed.

(** What a 401 on the calendar fetch does to the panel. *)
(** The same for every logged-in session: a calendar fetch answered with
    401 completes, sets the flag to false and keeps the caches and the
    token. *)
Lemma getEvents_401 env w t (r : Response) :
  isAuthenticated w = true ->
  tokenCache w = Some t -> truthy t = true ->
  net env (events_request env t) = Responded r ->
  status r = 401 ->
  let w' := exec (SidePanel.getEvents env) w in
  outcome (SidePanel.getEvents env) w = Normal tt
  /\ isAuthenticated w' = false
  /\ currentTasks w' = currentTasks w
  /\ currentEvents w' = currentEvents w
  /\ tokenCache w' = Some t
  /\ tasks_list (dom w')
     = fmap (fun _ => SidePanel.TASKS_LOGIN_PROMPT) (tasks_list (dom w))
  /\ events_list (dom w')
     = fmap (fun _ => HtmlEventsError EXPIRED_NOTICE) (events_list (dom w))
  /\ auth_status_dot (dom w')
     = fmap (fun _ => false) (auth_status_dot (dom w))
  /\ auth_btn_label (dom w')
     = fmap (fun _ => "Login") (auth_btn_label (dom w)).
Proof.
  intros Ha Hc Ht Hnet H401.
  pose proof (not_ok_401 r H401) as Hok.
  set (w1 := exec SidePanel.showEventsLoading w).
  assert (Hstart : SidePanel.getEvents_start w = (Normal true, w1)).
  { subst w1. eff_unfold. rewrite Ha. reflexivity. }
  assert (Hc1 : tokenCache w1 = Some t) by (subst w1; eff_unfold; exact Hc).
  pose proof (apiRequest_not_ok "getEvents" SidePanel.no_payload env w1 t
                "GET" (url (events_request env t)) None r Hc1 Ht eq_refl
                Hnet Hok) as Hapi.
  apply settle_throw in Hapi.
  assert (Heq : SidePanel.getEvents env w
                = expiry_branch (SidePanel.showEventsError EXPIRED_NOTICE)
                    (add_log (Fetch "GET" (url (events_request env t)))
                       (add_log (GetAuthToken false) w1))).
  { unfold SidePanel.getEvents.
    rewrite (bind_normal _ _ _ _ _ Hstart). cbv iota.
    rewrite (bind_normal _ _ _ _ _ Hapi).
    rewrite (getEvents_resume_401 r H401). reflexivity. }
  unfold exec, outcome. rewrite Heq. subst w1. clear Heq Hapi Hstart Hc1.
  destruct w as [a cts ces st c d tok loc syn lg].
  destruct d as [tl el nem dot lbl sm stl tc]. simpl in Hc. subst tok.
  unfold expiry_branch. eff_unfold. simpl.
  destruct tl, el, nem, dot, lbl; simpl; repeat split.
Qed.

(** What a 401 on the task fetch does to the panel. *)
(** And a task fetch answered with 401, on a page with the status
    message container. *)
Lemma getTasks_401 env w t (r : Response) :
  isAuthenticated w = true ->
  tokenCache w = Some t -> truthy t = true ->
  net env (tasks_request t) = Responded r ->
  status r = 401 ->
  is_Some (status_messages (dom w)) ->
  let w' := exec (SidePanel.getTasks env) w in
  outcome (SidePanel.getTasks env) w = Normal tt
  /\ isAuthenticated w' = false
  /\ currentTasks w' = currentTasks w
  /\ currentEvents w' = currentEvents w
  /\ tokenCache w' = Some t
  /\ tasks_list (dom w')
     = fmap (fun _ => HtmlError "Failed to load tasks") (tasks_list (dom w))
  /\ events_list (dom w')
     = fmap (fun _ => SidePanel.EVENTS_LOGIN_PROMPT) (events_list (dom w))
  /\ auth_status_dot (dom w')
     = fmap (fun _ => false) (auth_status_dot (dom w))
  /\ auth_btn_label (dom w')
     = fmap (fun _ => "Login") (auth_btn_label (dom w)).
Proof.
  intros Ha Hc Ht Hnet H401 [sm Hsm].
  pose proof (not_ok_401 r H401) as Hok.
  set (w1 := add_log (SendMessage "getTasks")
               (exec (SidePanel.write_tasks_list (HtmlLoading "Loading tasks...")) w)).
  assert (Hstart : SidePanel.getTasks_start w = (Normal true, w1)).
  { subst w1. eff_unfold. rewrite Ha. reflexivity. }
  assert (Hc1 : tokenCache w1 = Some t) by (subst w1; eff_unfold; exact Hc).
  pose proof (handleGetTasks_not_ok env w1 t r Hc1 Ht Hnet Hok) as Hbg.
  assert (Heq : SidePanel.getTasks env w
                = (expiry_branch (SidePanel.showError EXPIRED_NOTICE);;
                   SidePanel.write_tasks_list (HtmlError "Failed to load tasks"))
                    (add_log (Fetch "GET" Background.TASKS_URL)
                       (add_log (GetAuthToken true) w1))).
  { unfold SidePanel.getTasks.
    rewrite (bind_normal _ _ _ _ _ Hstart). cbv iota.
    rewrite (bind_normal _ _ _ _ _ Hbg).
    rewrite (getTasks_onResponse_401 r H401). reflexivity. }
  unfold exec, outcome. rewrite Heq. subst w1. clear Heq Hbg Hstart Hc1.
  destruct w as [a cts ces st c d tok loc syn lg].
  destruct d as [tl el nem dot lbl sm' stl tc]. simpl in Hc, Hsm.
  subst tok sm'.
  unfold expiry_branch. eff_unfold. simpl.
  destruct tl, el, dot, lbl; simpl; repeat split.
Qed.

(** Without the status message container the task fetch ends in an
    uncaught [TypeError]; the calendar fetch does not use it. *)
Example expiry_without_status_container :
  let bare := set_dom (mkDom (Some HtmlEmpty) (Some HtmlEmpty) (Some false)
                         (Some true) (Some "Logout") None (Some []) (Some true))
                Sample.logged_in in
  outcome (SidePanel.getTasks Sample.expired_env) bare
  = Throw (error "Cannot set properties of null (setting 'innerHTML')")
  /\ outcome (SidePanel.getEvents Sample.expired_env) bare = Normal tt.
Proof. vm_compute. split; reflexivity. Qed.

(** ** The token cache *)

Lemma getToken_cached interactive env w t :
  tokenCache w = Some t -> truthy t = true ->
  Background.getToken interactive env w
  = (Normal (Some t), add_log (GetAuthToken interactive) w).
Proof.
  intros Hc Ht. eff_unfold. simpl. rewrite Hc. simpl.
  unfold Background.getToken_callback. simpl. rewrite Ht. reflexivity.
Qed.

Lemma signOut_evicts env w t :
  tokenCache w = Some t -> truthy t = true ->
  tokenCache (exec (Background.signOut env) w) = None.
Proof.
  intros Hc Ht. unfold exec, Background.signOut.
  rewrite (bind_normal _ _ _ _ _ (getToken_cached false env w t Hc Ht)).
  destruct w as [a cts ces st c d tok loc syn lg]. simpl in Hc. subst tok.
  eff_unfold. simpl.
  destruct (net env _); simpl; case_decide; simpl; congruence.
Qed.

(** C2. The code at the failing input: the task fetch of a logged-in
    panel is answered with 401; the next silent acquisition returns the
    very token that was refused, because the automatic logout removes
    nothing from the platform cache, where the logout does
    ([signOut_evicts]). *)
Lemma expired_token_returned_again :
  let w := exec (SidePanel.getTasks Sample.expired_env) Sample.logged_in in
  tokenCache Sample.logged_in = Some "ya29.token"
  /\ isAuthenticated w = false
  /\ outcome (Background.getToken false Sample.expired_env) w
     = Normal (Some "ya29.token").
Proof. vm_compute. repeat split. Qed.

(** Logging in again does not help either: the interactive acquisition
    of the service worker is answered from the same cache. *)
Example relogin_gets_refused_token :
  let w := exec (SidePanel.getTasks Sample.expired_env) Sample.logged_in in
  outcome (Background.getToken true Sample.expired_env) w
  = Normal (Some "ya29.token")
  /\ outcome (Background.handleAuthenticate Sample.expired_env) w
     = Normal (Background.mkMessage true None (Some true) None None None).
Proof. vm_compute. split; reflexivity. Qed.

(** ** Requests without a credential *)

(** C3, as stated, fails: the requests served by the service worker ask
    for the credential in interactive mode. Here no credential is available
    silently, yet [getTasks] obtains one through the consent window and
    goes on to the network. *)
Lemma worker_acquires_interactively :
  outcome (Background.getToken false Sample.consenting_env) Sample.logged_out
  = Normal None
  /\ log (exec (Background.getTasks Sample.consenting_env) Sample.logged_out)
     = [GetAuthToken true; Fetch "GET" Background.TASKS_URL]
  /\ outcome (Background.getTasks Sample.consenting_env) Sample.logged_out
     = Normal [Sample.task].
Proof. vm_compute. repeat split. Qed.

Lemma getToken_none interactive env w :
  tokenCache w = None ->
  SidePanel.usable_token (mint env interactive) = None ->
  Background.getToken interactive env w
  = (Normal None, add_log (GetAuthToken interactive) w).
Proof.
  intros Hc Hu. destruct w as [a cts ces st c d tok loc syn lg].
  simpl in Hc. subst tok. eff_unfold. simpl.
  unfold SidePanel.usable_token, Background.getToken_callback in *.
  destruct (mint env interactive) as [[e|] [t|]]; simpl in *; try reflexivity.
  destruct (truthy t); [discriminate | reflexivity].
Qed.

(** C3, amended. [apiRequest] asks for the credential in non-interactive
    mode, the functions of the service worker ask for it in interactive
    mode; on either path, when no credential is obtained the request fails
    at once with its authentication-required error, and the only call that
    left the script is the one to the identity service: no network call is
    made. *)
Theorem no_token_no_request env w (action taskId taskData eventData : string)
    (payload : Payload) (maxResults : Z) :
  tokenCache w = None ->
  let silent := add_log (GetAuthToken false) w in
  let prompted := add_log (GetAuthToken true) w in
  let required := error "Authentication required" in
  (SidePanel.usable_token (mint env false) = None ->
   SidePanel.apiRequest action payload env w
   = (Throw SidePanel.AUTH_REQUIRED, silent))
  /\ (SidePanel.usable_token (mint env true) = None ->
   Background.getTasks env w = (Throw required, prompted)
   /\ Background.createTask taskData env w = (Throw required, prompted)
   /\ Background.updateTask taskId taskData env w = (Throw required, prompted)
   /\ Background.deleteTask taskId env w = (Throw required, prompted)
   /\ Background.getCalendarEvents maxResults env w = (Throw required, prompted)
   /\ Background.createCalendarEvent eventData env w
      = (Throw required, prompted)).
Proof.
  intros Hc. cbv zeta. split.
  - intros Hsilent.
    destruct w as [a cts ces st c d tok loc syn lg]. simpl in Hc. subst tok.
    unfold SidePanel.apiRequest, chrome_identity_getAuthToken,
      bind, emit, modify, read, ret, throw. simpl.
    unfold SidePanel.usable_token in *.
    destruct (mint env false) as [[e|] [t|]]; simpl in *; try reflexivity.
    destruct (truthy t); [discriminate | reflexivity].
  - intros Hprompted.
    pose proof (getToken_none true env w Hc Hprompted) as Htok.
    unfold Background.getTasks, Background.createTask, Background.updateTask,
      Background.deleteTask, Background.getCalendarEvents,
      Background.createCalendarEvent.
    rewrite !(bind_normal _ _ _ _ _ Htok). repeat split.
Qed.

Lemma no_token_no_request_witness :
  SidePanel.apiRequest "getEvents" SidePanel.no_payload Sample.expired_env
    Sample.logged_out
  = (Throw SidePanel.AUTH_REQUIRED,
     add_log (GetAuthToken false) Sample.logged_out)
  /\ Background.getTasks Sample.expired_env Sample.logged_out
     = (Throw (error "Authentication required"),
        add_log (GetAuthToken true) Sample.logged_out).
Proof.
  destruct (no_token_no_request Sample.expired_env Sample.logged_out
              "getEvents" "" "" "" SidePanel.no_payload 50)
    as (H1 & H2); [reflexivity |].
  split.
  - apply H1. reflexivity.
  - apply H2. reflexivity.
Defined.

(** ** The error of a refused request *)

Lemma http_error_kind (r : Response) :
  SidePanel.http_error r = Spec.error_of (kind_of_status (status r)) r.
Proof.
  unfold SidePanel.http_error, Spec.error_of, SidePanel.errorMessage,
    kind_of_status, Spec.error_of_status.
  destruct (Z.leb_spec 600 (status r)) as [Hbig|Hsmall].
  - destruct (Z.eqb_spec (status r) 401); [lia|].
    destruct (Z.eqb_spec (status r) 403); [lia|].
    destruct (Z.eqb_spec (status r) 404); [lia|].
    destruct (Z.eqb_spec (status r) 429); [lia|].
    destruct (Z.leb_spec 500 (status r)); [reflexivity|lia].
  - destruct (status r =? 401); [reflexivity|].
    destruct (status r =? 403); [reflexivity|].
    destruct (status r =? 404); [reflexivity|].
    destruct (status r =? 429); [reflexivity|].
    assert (Hmax : (status r <=? 599) = true) by (apply Z.leb_le; lia).
    rewrite Hmax, andb_true_r.
    destruct (500 <=? status r); reflexivity.
Qed.

Lemma getToken_acquired interactive env w :
  exists w',
    Background.getToken interactive env w
    = (Normal (acquired_token interactive env w), w').
Proof.
  unfold acquired_token. eff_unfold. simpl.
  unfold Background.getToken_callback, SidePanel.usable_token.
  destruct (tokenCache w) as [t|]; simpl.
  - destruct (truthy t); eauto.
  - destruct (mint env interactive) as [[e|] [t|]]; simpl; eauto.
    destruct (truthy t); eauto.
Qed.

Lemma apiRequest_rejects action payload env w t m u b (r : Response) :
  acquired_token false env w = Some t ->
  SidePanel.request_of action payload env = Some (m, u, b) ->
  net env (mkRequest m u (Some t) b) = Responded r ->
  ok r = false ->
  outcome (SidePanel.apiRequest action payload env) w
  = Throw (SidePanel.http_error r).
Proof.
  intros Hacq Hreq Hnet Hok.
  destruct w as [a cts ces st c d tok loc syn lg].
  unfold acquired_token, SidePanel.usable_token in Hacq. simpl in Hacq.
  unfold outcome, SidePanel.apiRequest, chrome_identity_getAuthToken, fetch,
    bind, emit, modify, read, ret, throw. simpl.
  unfold SidePanel.usable_token.
  destruct tok as [t0|]; simpl.
  - destruct (truthy t0); [|discriminate]. injection Hacq as ->.
    rewrite Hreq. simpl. rewrite Hnet. simpl. rewrite Hok. reflexivity.
  - destruct (mint env false) as [[e|] [t0|]]; simpl in *; try discriminate.
    destruct (truthy t0); [|discriminate]. injection Hacq as ->.
    simpl. rewrite Hreq. simpl. rewrite Hnet. simpl. rewrite Hok.
    reflexivity.
Qed.

(** What the six API functions of the service worker share after the
    token: the request, and the error for a response that is not [ok]. *)
Lemma worker_rejects {A : Type} (api : string) (req : string -> Request)
    (k : Response -> Eff A) env w t (r : Response) :
  acquired_token true env w = Some t ->
  net env (req t) = Responded r ->
  ok r = false ->
  outcome
    (token <- Background.getToken true env;;
     match token with
     | None => throw (error "Authentication required")
     | Some t =>
         response <- fetch (req t) env;;
         if negb (ok response) then throw (Background.api_error api response)
         else k response
     end) w
  = Throw (Background.api_error api r).
Proof.
  intros Hacq Hnet Hok. unfold outcome.
  destruct (getToken_acquired true env w) as (w' & Hrun).
  rewrite (bind_normal _ _ _ _ _ Hrun), Hacq.
  unfold fetch, bind, emit, modify, ret, throw. simpl.
  rewrite Hnet. simpl. rewrite Hok. reflexivity.
Qed.

(** C7, as stated, fails. The service worker sends requests of its own,
    and a 403 on one of them is rejected with a message that carries no
    kind; and [apiRequest] answers a status of 600 as it answers a 5xx
    one, not with the request-failed error. *)
Lemma worker_error_carries_no_kind :
  outcome (Background.getTasks (answering forbidden)) Sample.logged_in
  = Throw (error "Tasks API error: 403 Forbidden")
  /\ error "Tasks API error: 403 Forbidden"
     <> Spec.error_of (Spec.error_of_status 403) forbidden
  /\ outcome (SidePanel.apiRequest "getTasks" SidePanel.no_payload
                (answering (mkResponse 600 "" None))) Sample.logged_in
     = Throw (Spec.error_of Spec.ProviderUnavailable (mkResponse 600 "" None))
  /\ Spec.error_of_status 600 = Spec.RequestFailed 600.
Proof.
  split; [vm_compute; reflexivity|].
  split; [vm_compute; discriminate|].
  split; vm_compute; reflexivity.
Qed.

(** C7, amended. A request sent through [apiRequest] whose response is
    not 2xx is rejected with the error its status determines: 401 gives
    the expired-login error, 403 permission denied, 404 not found, 429
    rate limited, 500 and above provider unavailable, and every other
    status the request-failed error that carries the status. The requests
    the service worker sends itself are rejected, whatever the status,
    with the message made of the name of the API, the status and the
    status text. *)
Theorem status_error_mapping action payload env w t m u b (r : Response)
    (tid tdata edata : string) (maxResults : Z) :
  ok r = false ->
  (acquired_token false env w = Some t ->
   SidePanel.request_of action payload env = Some (m, u, b) ->
   net env (mkRequest m u (Some t) b) = Responded r ->
   outcome (SidePanel.apiRequest action payload env) w
   = Throw (Spec.error_of (kind_of_status (status r)) r))
  /\ (acquired_token true env w = Some t ->
      let tasks := Background.api_error "Tasks" r in
      let calendar := Background.api_error "Calendar" r in
      (net env (mkRequest "GET" Background.TASKS_URL (Some t) None)
       = Responded r ->
       outcome (Background.getTasks env) w = Throw tasks)
      /\ (net env (mkRequest "POST" Background.TASKS_URL (Some t)
                     (Some tdata)) = Responded r ->
          outcome (Background.createTask tdata env) w = Throw tasks)
      /\ (net env (mkRequest "PATCH"
                     (Background.TASKS_URL +:+ "/" +:+ tid) (Some t)
                     (Some tdata)) = Responded r ->
          outcome (Background.updateTask tid tdata env) w = Throw tasks)
      /\ (net env (mkRequest "DELETE"
                     (Background.TASKS_URL +:+ "/" +:+ tid) (Some t) None)
          = Responded r ->
          outcome (Background.deleteTask tid env) w = Throw tasks)
      /\ (net env (mkRequest "GET"
                     (Background.EVENTS_URL +:+ "?timeMin="
                      +:+ encodeURIComponent (now env)
                      +:+ "&maxResults=" +:+ pretty maxResults
                      +:+ "&singleEvents=true&orderBy=startTime")
                     (Some t) None) = Responded r ->
          outcome (Background.getCalendarEvents maxResults env) w
          = Throw calendar)
      /\ (net env (mkRequest "POST" Background.EVENTS_URL (Some t)
                     (Some edata)) = Responded r ->
          outcome (Background.createCalendarEvent edata env) w
          = Throw calendar)).
Proof.
  intros Hok. split.
  - intros Hacq Hreq Hnet.
    rewrite (apiRequest_rejects _ _ _ _ _ _ _ _ _ Hacq Hreq Hnet Hok).
    f_equal. apply http_error_kind.
  - intros Hacq. cbv zeta.
    repeat split; intros Hnet.
    + exact (worker_rejects "Tasks"
               (fun t => mkRequest "GET" Background.TASKS_URL (Some t) None)
               _ env w t r Hacq Hnet Hok).
    + exact (worker_rejects "Tasks"
               (fun t => mkRequest "POST" Background.TASKS_URL (Some t)
                           (Some tdata))
               _ env w t r Hacq Hnet Hok).
    + exact (worker_rejects "Tasks"
               (fun t => mkRequest "PATCH"
                           (Background.TASKS_URL +:+ "/" +:+ tid) (Some t)
                           (Some tdata))
               _ env w t r Hacq Hnet Hok).
    + exact (worker_rejects "Tasks"
               (fun t => mkRequest "DELETE"
                           (Background.TASKS_URL +:+ "/" +:+ tid) (Some t)
                           None)
               _ env w t r Hacq Hnet Hok).
    + exact (worker_rejects "Calendar"
               (fun t => mkRequest "GET"
                           (Background.EVENTS_URL +:+ "?timeMin="
                            +:+ encodeURIComponent (now env)
                            +:+ "&maxResults=" +:+ pretty maxResults
                            +:+ "&singleEvents=true&orderBy=startTime")
                           (Some t) None)
               _ env w t r Hacq Hnet Hok).
    + exact (worker_rejects "Calendar"
               (fun t => mkRequest "POST" Background.EVENTS_URL (Some t)
                           (Some edata))
               _ env w t r Hacq Hnet Hok).
Qed.

Lemma status_error_mapping_witness :
  outcome (SidePanel.apiRequest "getTasks" SidePanel.no_payload
             Sample.expired_env) Sample.logged_in
  = Throw (Spec.error_of Spec.AuthExpired Sample.unauthorized)
  /\ outcome (Background.getTasks Sample.expired_env) Sample.logged_in
     = Throw (Background.api_error "Tasks" Sample.unauthorized).
Proof.
  destruct (status_error_mapping "getTasks" SidePanel.no_payload
              Sample.expired_env Sample.logged_in "ya29.token"
              "GET" SidePanel.TASKS_URL None Sample.unauthorized "" "" "" 50)
    as (H1 & H2); [reflexivity|].
  split.
  - apply H1; reflexivity.
  - apply H2; reflexivity.
Defined.

(** ** LinkHive: the default group *)

Lemma has_group_elem key (acc : list (string * list SavedLink)) :
  LinkHive.has_group key acc = true -> exists its, (key, its) ∈ acc.
Proof.
  induction acc as [|[k its] acc IH]; simpl; [discriminate|].
  intros H. apply orb_true_iff in H as [H|H].
  - apply String.eqb_eq in H. subst k. exists its. apply elem_of_cons. by left.
  - destruct (IH H) as [its' Hin]. exists its'. apply elem_of_cons. by right.
Qed.




















(** The same submission, computed. *)
Example ungrouped_form_saved :
  let w' := exec (LinkHive.handleSaveTabFormSubmit Sample.ungrouped_form
                    "b7e1" None None) Sample.logged_in in
  let link := mkSavedLink "b7e1" "Rocq manual" "https://rocq-prover.org/doc"
                "" "General" false in
  savedTabsCache w' = [link]
  /\ saved_tabs_list (dom w') = Some [GroupCard "General" [link]].
Proof. vm_compute. split; reflexivity. Qed.

(** * Further properties *)

(** ** storage.js: the saved-tabs store *)

Section AreaFacts.
Context {V : Type}.
Implicit Types (area : gmap string V) (k : string).

Lemma area_get_list ks area k :
  Storage.area_get (Storage.KeyList ks) area !! k
  = if bool_decide (k ∈ ks) then area !! k else None.
Proof.
  simpl. induction ks as [|k0 ks IH]; simpl.
  - rewrite lookup_empty. reflexivity.
  - destruct (decide (k = k0)) as [->|Hne].
    + rewrite bool_decide_eq_true_2 by (apply elem_of_cons; by left).
      destruct (area !! k0) as [v|] eqn:Hk0.
      * apply lookup_insert_eq.
      * rewrite IH. case_bool_decide; reflexivity.
    + assert (Hiff : k ∈ k0 :: ks <-> k ∈ ks).
      { rewrite elem_of_cons. tauto. }
      rewrite (bool_decide_ext _ _ Hiff).
      destruct (area !! k0) as [v|]; [|exact IH].
      rewrite lookup_insert_ne by congruence. exact IH.
Qed.

Lemma area_get_one_lookup area k k' :
  Storage.area_get (Storage.KeyOne k) area !! k'
  = if decide (k = k') then area !! k else None.
Proof.
  simpl. destruct (area !! k) as [v|] eqn:Hk.
  - case_decide as Hd.
    + subst k'. apply lookup_singleton_eq.
    + apply lookup_singleton_ne. exact Hd.
  - rewrite lookup_empty. case_decide; reflexivity.
Qed.

Lemma area_set_singleton_other area k v k' :
  k <> k' -> Storage.area_set {[ k := v ]} area !! k' = area !! k'.
Proof.
  intros Hne. apply area_set_other. apply lookup_singleton_ne. exact Hne.
Qed.

End AreaFacts.

Lemma getSavedTabs_lookup (area : gmap string Stored) :
  Storage.getSavedTabs None area
  = match area !! Storage.SAVED_TABS with
    | Some (SavedTabsObj g) => g
    | _ => ∅
    end.
Proof.
  unfold Storage.getSavedTabs, Storage.getStorageData.
  rewrite area_get_one_lookup. rewrite decide_True by reflexivity.
  reflexivity.
Qed.

Lemma getSavedTabs_written g (area : gmap string Stored) :
  Storage.getSavedTabs None
    (Storage.area_set {[ Storage.SAVED_TABS := SavedTabsObj g ]} area) = g.
Proof.
  rewrite getSavedTabs_lookup.
  rewrite (area_set_lookup _ _ _ (SavedTabsObj g)); [reflexivity|].
  apply lookup_singleton_eq.
Qed.

Lemma saveTab_run td now iso getErr (area : gmap string Stored) :
  inherited (Storage.td_group td) = false ->
  Storage.saveTab td now iso getErr None area
  = (Storage.area_set
       {[ Storage.SAVED_TABS :=
            SavedTabsObj
              (<[ Storage.td_group td :=
                    (default [] (Storage.getSavedTabs getErr area
                                 !! Storage.td_group td)
                     ++ [new_entry td now iso])%list ]>
                 (Storage.getSavedTabs getErr area)) ]} area,
     Resolved (new_entry td now iso)).
Proof.
  intros Hgroup. unfold Storage.saveTab. rewrite Hgroup.
  fold (new_entry td now iso).
  destruct (Storage.getSavedTabs getErr area !! Storage.td_group td);
    reflexivity.
Qed.

(** X1. A successful [saveTab] resolves with the entry it built (title
    and URL trimmed) and appends it to the end of its group, creating the
    group when needed; every other group and every other storage key stays
    as it was. *)
Theorem saveTab_appends td now iso (area : gmap string Stored) :
  inherited (Storage.td_group td) = false ->
  let group := Storage.td_group td in
  let old := Storage.getSavedTabs None area in
  let area' := fst (Storage.saveTab td now iso None None area) in
  snd (Storage.saveTab td now iso None None area)
  = Resolved (new_entry td now iso)
  /\ Storage.getSavedTabs None area' !! group
     = Some (default [] (old !! group) ++ [new_entry td now iso])%list
  /\ (forall g, g <> group -> Storage.getSavedTabs None area' !! g = old !! g)
  /\ (forall k, k <> Storage.SAVED_TABS -> area' !! k = area !! k).
Proof.
  intros Hgroup. cbv zeta. rewrite (saveTab_run td now iso None area Hgroup).
  cbn [fst snd]. rewrite getSavedTabs_written.
  split; [reflexivity|]. split; [apply lookup_insert_eq|]. split.
  - intros g Hg. apply lookup_insert_ne. congruence.
  - intros k Hk. apply area_set_singleton_other. congruence.
Qed.

(** X2. When the read of the saved tabs fails and the write succeeds,
    [saveTab] starts from an empty object: afterwards the store holds the
    one new tab and nothing of what was saved before. *)
Theorem saveTab_after_failed_read td now iso (e : Error)
    (area : gmap string Stored) :
  inherited (Storage.td_group td) = false ->
  Storage.getSavedTabs None
    (fst (Storage.saveTab td now iso (Some e) None area))
  = {[ Storage.td_group td := [new_entry td now iso] ]}.
Proof.
  intros Hgroup. rewrite (saveTab_run td now iso (Some e) area Hgroup).
  cbn [fst]. rewrite getSavedTabs_written.
  unfold Storage.getSavedTabs, Storage.getStorageData.
  rewrite lookup_empty. reflexivity.
Qed.

(** X3. A successful [deleteSavedTab] keeps, in their order, the tabs of
    the group whose id differs from the given one, removes the group key
    when none is left, and leaves every other group as it was. *)
Theorem deleteSavedTab_removes groupName tabId (l : list TabEntry)
    (area : gmap string Stored) :
  Storage.getSavedTabs None area !! groupName = Some l ->
  let kept := filter (fun tab => tab_id tab ≠ tabId) l in
  let area' := fst (Storage.deleteSavedTab groupName tabId None None area) in
  snd (Storage.deleteSavedTab groupName tabId None None area) = Resolved tt
  /\ Storage.getSavedTabs None area' !! groupName
     = match kept with [] => None | _ => Some kept end
  /\ (forall g, g <> groupName ->
        Storage.getSavedTabs None area' !! g
        = Storage.getSavedTabs None area !! g).
Proof.
  intros Hl. cbv zeta. unfold Storage.deleteSavedTab. rewrite Hl.
  cbn [Storage.setStorageData fst snd]. rewrite getSavedTabs_written.
  split; [reflexivity|].
  destruct (filter _ l) as [|x kept] eqn:Hkept; cbn [length Nat.eqb]; split.
  - apply lookup_delete_eq.
  - intros g Hg. apply lookup_delete_ne. congruence.
  - apply lookup_insert_eq.
  - intros g Hg. apply lookup_insert_ne. congruence.
Qed.

Lemma saveTab_appends_witness :
  Storage.getSavedTabs None store_two_tabs !! "Reading"
  = Some [ new_entry Sample.tab "1700000000000" "2023-11-14T22:13:20.000Z";
           new_entry Sample.tab "1700000000500" "2023-11-14T22:13:20.500Z" ].
Proof.
  destruct (saveTab_appends Sample.tab "1700000000500"
              "2023-11-14T22:13:20.500Z" store_one_tab)
    as (_ & H & _); [reflexivity|].
  exact H.
Defined.

Lemma saveTab_after_failed_read_witness :
  Storage.getSavedTabs None
    (fst (Storage.saveTab Sample.tab "1700000000500" "2023-11-14T22:13:20.500Z"
            (Some (error "read failed")) None store_one_tab))
  = {[ "Reading" :=
         [new_entry Sample.tab "1700000000500" "2023-11-14T22:13:20.500Z"] ]}.
Proof.
  apply (saveTab_after_failed_read Sample.tab "1700000000500"
           "2023-11-14T22:13:20.500Z" (error "read failed") store_one_tab).
  reflexivity.
Defined.

Lemma deleteSavedTab_removes_witness :
  Storage.getSavedTabs None
    (fst (Storage.deleteSavedTab "Reading" "1700000000000" None None
            store_two_tabs)) !! "Reading"
  = Some [new_entry Sample.tab "1700000000500" "2023-11-14T22:13:20.500Z"].
Proof.
  destruct (deleteSavedTab_removes "Reading" "1700000000000"
              [ new_entry Sample.tab "1700000000000" "2023-11-14T22:13:20.000Z";
                new_entry Sample.tab "1700000000500" "2023-11-14T22:13:20.500Z" ]
              store_two_tabs)
    as (_ & H & _); [vm_compute; reflexivity|].
  exact H.
Defined.

Lemma filter_all_but_last (now : string) (l : list TabEntry) (x : TabEntry) :
  Forall (fun tab => tab_id tab ≠ now) l -> tab_id x = now ->
  filter (fun tab => tab_id tab ≠ now) (l ++ [x])%list = l.
Proof.
  intros Hall Hx. rewrite filter_app.
  rewrite filter_cons_False by (intros Hne; apply Hne, Hx).
  rewrite filter_nil, app_nil_r.
  induction Hall as [|y l Hy Hall IH]; [reflexivity|].
  rewrite filter_cons_True by exact Hy. by rewrite IH.
Qed.

(** X4. Saving a tab and then deleting it by the id it was given restores
    the grouped store, provided no tab of that group already had this id
    (ids are clock readings) and no group was empty. *)
Theorem save_then_delete_restores td now iso (area : gmap string Stored) :
  Storage.saved_tabs_inv area ->
  inherited (Storage.td_group td) = false ->
  Forall (fun tab => tab_id tab ≠ now)
    (default [] (Storage.getSavedTabs None area !! Storage.td_group td)) ->
  Storage.getSavedTabs None
    (fst (Storage.deleteSavedTab (Storage.td_group td) now None None
            (fst (Storage.saveTab td now iso None None area))))
  = Storage.getSavedTabs None area.
Proof.
  intros Hinv Hgroup Hfresh.
  pose proof (getSavedTabs_nonempty None area Hinv) as Hne.
  rewrite (saveTab_run td now iso None area Hgroup). cbn [fst].
  set (g := Storage.getSavedTabs None area) in *.
  set (group := Storage.td_group td) in *.
  unfold Storage.deleteSavedTab. rewrite getSavedTabs_written.
  rewrite lookup_insert_eq.
  rewrite (filter_all_but_last now _ (new_entry td now iso) Hfresh eq_refl).
  cbn [Storage.setStorageData fst]. rewrite getSavedTabs_written.
  destruct (g !! group) as [l|] eqn:Hl; cbn [default].
  - destruct l as [|x l]; [exfalso; exact (Hne group [] Hl eq_refl)|].
    cbn [length Nat.eqb]. rewrite insert_insert_eq. apply insert_id, Hl.
  - cbn [length Nat.eqb]. rewrite delete_insert_eq. apply delete_id, Hl.
Qed.

Lemma save_then_delete_restores_witness :
  Storage.getSavedTabs None
    (fst (Storage.deleteSavedTab "Reading" "1700000000500" None None
            store_two_tabs))
  = Storage.getSavedTabs None store_one_tab.
Proof.
  apply (save_then_delete_restores Sample.tab "1700000000500"
           "2023-11-14T22:13:20.500Z" store_one_tab).
  - apply saveTab_inv. vm_compute. exact I.
  - reflexivity.
  - vm_compute. repeat constructor; discriminate.
Defined.

(** ** storage.js: group names *)

Lemma insert_name_perm x (l : list string) :
  Prefs.insert_name x l ≡ₚ x :: l.
Proof.
  induction l as [|y l IH]; simpl; [reflexivity|].
  destruct (String.leb x y); [reflexivity|].
  rewrite IH. apply Permutation_swap.
Qed.

Lemma sort_names_perm (l : list string) : Prefs.sort_names l ≡ₚ l.
Proof.
  induction l as [|x l IH]; simpl; [reflexivity|].
  rewrite insert_name_perm. by rewrite IH.
Qed.

Lemma insert_name_hd (a x : string) (l : list string) :
  name_le a x -> HdRel name_le a l -> HdRel name_le a (Prefs.insert_name x l).
Proof.
  intros Hax Hal. destruct l as [|y l]; simpl.
  - constructor. exact Hax.
  - destruct (String.leb x y); constructor; [exact Hax|].
    inversion Hal; assumption.
Qed.

Lemma insert_name_sorted x (l : list string) :
  Sorted name_le l -> Sorted name_le (Prefs.insert_name x l).
Proof.
  induction 1 as [|y l Hl IH Hy]; simpl.
  - repeat constructor.
  - destruct (String.leb x y) eqn:Hxy.
    + constructor; [constructor; assumption|]. constructor. exact Hxy.
    + constructor; [exact IH|]. apply insert_name_hd; [|exact Hy].
      destruct (String.leb_total x y) as [H|H]; [congruence | exact H].
Qed.

Lemma sort_names_sorted (l : list string) :
  Sorted name_le (Prefs.sort_names l).
Proof.
  induction l as [|x l IH]; simpl; [constructor|].
  apply insert_name_sorted, IH.
Qed.

(** X5. [getTabGroups] lists the names of the groups that hold tabs: in
    ascending order, each name once, and exactly the keys of the grouped
    store; when the read fails the list is empty. *)
Theorem getTabGroups_sorted_keys getErr (e : Error)
    (area : gmap string Stored) :
  let names := Prefs.getTabGroups getErr area in
  Sorted name_le names
  /\ NoDup names
  /\ (forall g, g ∈ names <-> is_Some (Storage.getSavedTabs getErr area !! g))
  /\ Prefs.getTabGroups (Some e) area = [].
Proof.
  cbv zeta. unfold Prefs.getTabGroups. split; [apply sort_names_sorted|].
  split; [|split].
  - rewrite sort_names_perm. apply NoDup_fst_map_to_list.
  - intros g. rewrite sort_names_perm. rewrite list_elem_of_fmap. split.
    + intros ([k l] & -> & Hin). apply elem_of_map_to_list in Hin.
      exists l. exact Hin.
    + intros [l Hl]. exists (g, l). split; [reflexivity|].
      apply elem_of_map_to_list. exact Hl.
  - unfold Storage.getSavedTabs, Storage.getStorageData.
    rewrite map_to_list_empty. reflexivity.
Qed.

(** X6. [clearAllSavedTabs] removes the grouped store, so that no group
    name is listed afterwards, and leaves every other key alone: starred
    tasks and settings are read as before. *)
Theorem clearAllSavedTabs_only_saved_tabs getErr (area : gmap string Stored) :
  let area' := fst (Storage.clearAllSavedTabs None area) in
  Storage.getSavedTabs getErr area' = ∅
  /\ Prefs.getTabGroups getErr area' = []
  /\ (forall k, k <> Storage.SAVED_TABS -> area' !! k = area !! k)
  /\ Prefs.getStarredTasks getErr area' = Prefs.getStarredTasks getErr area
  /\ Prefs.getUserSettings getErr area' = Prefs.getUserSettings getErr area.
Proof.
  cbv zeta. cbn [Storage.clearAllSavedTabs Storage.removeStorageData fst
                 Storage.area_remove foldr].
  assert (Hgone : Storage.getSavedTabs getErr (delete Storage.SAVED_TABS area) = ∅).
  { destruct getErr as [e|]; [reflexivity|].
    rewrite getSavedTabs_lookup, lookup_delete_eq. reflexivity. }
  split; [exact Hgone|]. split.
  { unfold Prefs.getTabGroups. rewrite Hgone, map_to_list_empty. reflexivity. }
  split; [intros k Hk; apply lookup_delete_ne; congruence|].
  split.
  - unfold Prefs.getStarredTasks, Storage.getStorageData.
    destruct getErr; [reflexivity|]. rewrite !area_get_one_lookup.
    rewrite !decide_True by reflexivity.
    rewrite lookup_delete_ne by discriminate. reflexivity.
  - unfold Prefs.getUserSettings, Storage.getStorageData.
    destruct getErr; [reflexivity|]. rewrite !area_get_list.
    rewrite !lookup_delete_ne by discriminate. reflexivity.
Qed.

(** ** storage.js: starred tasks and settings *)

(** X7. Starred tasks written by [saveStarredTasks] are read back by
    [getStarredTasks] as the same set, and the write leaves every other
    key alone. *)
Theorem starred_tasks_round_trip (starred : gset string)
    (area : gmap string Stored) :
  let area' := fst (Prefs.saveStarredTasks starred None area) in
  Prefs.getStarredTasks None area' = starred
  /\ (forall k, k <> Storage.STARRED_TASKS -> area' !! k = area !! k).
Proof.
  cbv zeta. cbn [Prefs.saveStarredTasks Storage.setStorageData fst]. split.
  - unfold Prefs.getStarredTasks, Storage.getStorageData.
    rewrite area_get_one_lookup, decide_True by reflexivity.
    rewrite (area_set_lookup _ _ _ (StrArray (elements starred)))
      by apply lookup_singleton_eq.
    apply list_to_set_elements_L.
  - intros k Hk. apply area_set_singleton_other. congruence.
Qed.



Lemma put_if_truthy_lookup key value (data : gmap string Stored) k :
  Prefs.put_if_truthy key value data !! k
  = match value with
    | Some s => if truthy s && bool_decide (key = k) then Some (Str s)
                else data !! k
    | None => data !! k
    end.
Proof.
  unfold Prefs.put_if_truthy. destruct value as [s|]; [|reflexivity].
  destruct (truthy s); simpl; [|reflexivity].
  case_bool_decide as Hk.
  - subst k. apply lookup_insert_eq.
  - apply lookup_insert_ne, Hk.
Qed.

(** X9. Settings saved with a theme and a time format that are not empty
    are read back unchanged. *)
Theorem settings_round_trip (t f : string) (area : gmap string Stored) :
  truthy t = true -> truthy f = true ->
  Prefs.getUserSettings None
    (fst (Prefs.saveUserSettings (Some t) (Some f) None area))
  = Prefs.mkUserSettings (Str t) (Str f).
Proof.
  intros Ht Hf.
  unfold Prefs.getUserSettings, Prefs.saveUserSettings, Storage.getStorageData.
  cbn [Storage.setStorageData fst]. rewrite !area_get_list.
  rewrite !bool_decide_eq_true_2 by set_solver.
  rewrite (area_set_lookup _ _ Prefs.THEME (Str t)).
  2:{ rewrite !put_if_truthy_lookup, Ht, Hf. reflexivity. }
  rewrite (area_set_lookup _ _ Prefs.TIME_FORMAT (Str f)).
  2:{ rewrite !put_if_truthy_lookup, Hf. reflexivity. }
  simpl. rewrite Ht, Hf. reflexivity.
Qed.

Lemma settings_round_trip_witness :
  Prefs.getUserSettings None
    (fst (Prefs.saveUserSettings (Some "dark") (Some "24h") None
            store_one_tab))
  = Prefs.mkUserSettings (Str "dark") (Str "24h").
Proof.
  apply (settings_round_trip "dark" "24h" store_one_tab); reflexivity.
Defined.

(** X10. A field that [saveUserSettings] is not given, or is given as the
    empty string, is not written: the stored theme is read as before, while
    the time format given with it is saved. *)
Theorem saveUserSettings_skips_empty (t : option string) (f : string)
    (area : gmap string Stored) :
  falsy t -> truthy f = true ->
  let area' := fst (Prefs.saveUserSettings t (Some f) None area) in
  area' !! Prefs.THEME = area !! Prefs.THEME
  /\ Prefs.theme (Prefs.getUserSettings None area')
     = Prefs.theme (Prefs.getUserSettings None area)
  /\ Prefs.timeFormat (Prefs.getUserSettings None area') = Str f.
Proof.
  intros Hfalsy Hf. cbv zeta.
  unfold Prefs.saveUserSettings. cbn [Storage.setStorageData fst].
  assert (Hth : Storage.area_set
                  (Prefs.put_if_truthy Prefs.TIME_FORMAT (Some f)
                     (Prefs.put_if_truthy Prefs.THEME t ∅)) area
                !! Prefs.THEME = area !! Prefs.THEME).
  { apply area_set_other. rewrite !put_if_truthy_lookup, Hf.
    destruct Hfalsy as [->| ->]; reflexivity. }
  assert (Htf : Storage.area_set
                  (Prefs.put_if_truthy Prefs.TIME_FORMAT (Some f)
                     (Prefs.put_if_truthy Prefs.THEME t ∅)) area
                !! Prefs.TIME_FORMAT = Some (Str f)).
  { apply area_set_lookup. rewrite !put_if_truthy_lookup, Hf. reflexivity. }
  split; [exact Hth|].
  unfold Prefs.getUserSettings, Storage.getStorageData.
  cbn [Prefs.theme Prefs.timeFormat]. rewrite !area_get_list.
  rewrite !bool_decide_eq_true_2 by set_solver.
  rewrite Hth, Htf. simpl. rewrite Hf. split; reflexivity.
Qed.

Lemma saveUserSettings_skips_empty_witness :
  Prefs.theme
    (Prefs.getUserSettings None
       (fst (Prefs.saveUserSettings (Some "") (Some "24h") None store_one_tab)))
  = Prefs.theme (Prefs.getUserSettings None store_one_tab).
Proof.
  destruct (saveUserSettings_skips_empty (Some "") "24h" store_one_tab)
    as (_ & H & _); [right; reflexivity | reflexivity |].
  exact H.
Defined.

(** ** background.js: the context-menu helpers *)

Lemma context_saved_tabs (area : gmap string Stored) :
  ContextMenu.saved_tabs_of
    (Storage.area_get (Storage.KeyList ["savedTabs"]) area)
  = Storage.getSavedTabs None area.
Proof.
  unfold ContextMenu.saved_tabs_of. rewrite area_get_list.
  rewrite bool_decide_eq_true_2 by set_solver.
  rewrite getSavedTabs_lookup. reflexivity.
Qed.

(** X11. The context-menu helpers do what [saveTab] and [getTabGroups] of
    storage.js do as long as the read succeeds. They part on a failed
    read: [saveTabToStorage] rejects with the error and writes nothing,
    where [saveTab] goes on with an empty object. *)
Theorem context_menu_helpers td now iso setErr (e : Error)
    (area : gmap string Stored) :
  ContextMenu.saveTabToStorage td now iso None setErr area
  = Storage.saveTab td now iso None setErr area
  /\ ContextMenu.getTabGroupsFromStorage None area
     = Prefs.getTabGroups None area
  /\ ContextMenu.saveTabToStorage td now iso (Some e) setErr area
     = (area, Rejected e).
Proof.
  split; [|split]; [| |reflexivity].
  - unfold ContextMenu.saveTabToStorage, Storage.saveTab.
    cbn [Storage.getStorageData]. rewrite context_saved_tabs. reflexivity.
  - unfold ContextMenu.getTabGroupsFromStorage, Prefs.getTabGroups.
    cbn [Storage.getStorageData]. rewrite context_saved_tabs. reflexivity.
Qed.

(** ** background.js: signing out and answering messages *)

Lemma getToken_total interactive env w :
  exists r w', Background.getToken interactive env w = (Normal r, w').
Proof.
  eff_unfold. simpl. unfold Background.getToken_callback.
  destruct (tokenCache w) as [t|]; simpl.
  - destruct (truthy t); simpl; eauto.
  - destruct (mint env interactive) as [[e|] [t|]]; simpl; eauto.
    destruct (truthy t); simpl; eauto.
Qed.

Lemma signOut_total env w : outcome (Background.signOut env) w = Normal tt.
Proof.
  unfold outcome, Background.signOut.
  destruct (getToken_total false env w) as (r & w' & Htok).
  rewrite (bind_normal _ _ _ _ _ Htok). destruct r as [t|]; [|reflexivity].
  eff_unfold. simpl. destruct (net env _); reflexivity.
Qed.

Lemma handleLogout_total env w :
  outcome (Background.handleLogout env) w = Normal Background.succeeded.
Proof.
  pose proof (signOut_total env w) as H. unfold outcome in *.
  unfold Background.handleLogout, try_catch, bind.
  destruct (Background.signOut env w) as [[u|e] w']; simpl in *.
  - reflexivity.
  - discriminate.
Qed.

(** X12. [signOut] never throws, whatever the identity service and the
    network answer, so the logout handler of the service worker always
    answers with success. With a token in the cache, [signOut] asks for it
    silently, sends the revocation request and removes the token from the
    cache, in this order and also when the revocation request fails.
    Without a token it stops after the silent acquisition: no request is
    sent and nothing is removed. *)
Theorem signOut_effects (env : Env) (w : World) (t : string) :
  outcome (Background.signOut env) w = Normal tt
  /\ outcome (Background.handleLogout env) w = Normal Background.succeeded
  /\ (tokenCache w = Some t -> truthy t = true ->
   exec (Background.signOut env) w
   = set_tokenCache None
       (add_log (RemoveCachedAuthToken t)
          (add_log (Fetch "GET" (revoke_url t))
             (add_log (GetAuthToken false) w))))
  /\ (tokenCache w = None ->
      SidePanel.usable_token (mint env false) = None ->
      exec (Background.signOut env) w = add_log (GetAuthToken false) w).
Proof.
  split; [apply signOut_total|]. split; [apply handleLogout_total|].
  split.
  - intros Hc Ht. unfold exec, Background.signOut.
    rewrite (bind_normal _ _ _ _ _ (getToken_cached false env w t Hc Ht)).
    destruct w as [a cts ces st c d tok loc syn lg]. simpl in Hc. subst tok.
    eff_unfold. simpl. unfold revoke_url.
    destruct (net env _); simpl; rewrite decide_True by reflexivity;
      reflexivity.
  - intros Hc Hu. unfold exec, Background.signOut.
    rewrite (bind_normal _ _ _ _ _ (getToken_none false env w Hc Hu)).
    reflexivity.
Qed.

Lemma signOut_effects_witness :
  exec (Background.signOut Sample.expired_env) Sample.logged_in
  = set_tokenCache None
      (add_log (RemoveCachedAuthToken "ya29.token")
         (add_log (Fetch "GET" (revoke_url "ya29.token"))
            (add_log (GetAuthToken false) Sample.logged_in)))
  /\ exec (Background.signOut Sample.expired_env) Sample.logged_out
     = add_log (GetAuthToken false) Sample.logged_out.
Proof.
  split.
  - apply (signOut_effects Sample.expired_env Sample.logged_in "ya29.token");
      reflexivity.
  - apply (signOut_effects Sample.expired_env Sample.logged_out "");
      reflexivity.
Defined.

Lemma try_catch_answers {A : Type} (m : Eff A) (f : A -> Background.Message)
    (g : Error -> Background.Message) w :
  exists msg,
    outcome (try_catch (x <- m;; ret (f x)) (fun e => ret (g e))) w = Normal msg.
Proof.
  unfold outcome, try_catch, bind, ret.
  destruct (m w) as [[a|e] w']; simpl; eauto.
Qed.

(** X13. The message listener of the service worker answers every
    message: no action, payload, platform answer or state makes a handler
    throw, and an action it does not know is answered with the
    "Unknown action" failure without anything being done. *)
Theorem onMessage_always_answers (action : string) (data : Payload)
    (env : Env) (w : World) :
  (exists msg, outcome (Background.onMessage action data env) w = Normal msg)
  /\ (action ∉ known_actions ->
      Background.onMessage action data env w
      = (Normal (Background.failed "Unknown action"), w)).
Proof.
  split.
  - unfold Background.onMessage.
    repeat (match goal with
            | |- context [if String.eqb ?a ?b then _ else _] =>
                destruct (String.eqb a b)
            end);
      try (eexists; reflexivity).
    + apply (try_catch_answers (Background.isAuthenticated env)
               (fun a => Background.mkMessage true None (Some a) None None None)).
    + unfold Background.handleAuthenticate, outcome, try_catch.
      destruct (getToken_total true env w) as (r & w' & Htok).
      rewrite (bind_normal _ _ _ _ _ Htok). destruct r; simpl; eauto.
    + exists Background.succeeded. apply handleLogout_total.
    + apply (try_catch_answers (Background.getTasks env)
               (fun ts => Background.mkMessage true None None (Some ts) None None)).
    + apply (try_catch_answers (Background.createTask (whole data) env)
               (fun t => Background.mkMessage true None None None None (Some t))).
    + apply (try_catch_answers
               (Background.updateTask (taskId data) (taskData data) env)
               (fun t => Background.mkMessage true None None None None (Some t))).
    + apply (try_catch_answers (Background.deleteTask (taskId data) env)
               (fun _ => Background.succeeded)).
    + apply (try_catch_answers (Background.getCalendarEvents 50 env)
               (fun es => Background.mkMessage true None None None (Some es) None)).
    + apply (try_catch_answers (Background.createCalendarEvent (whole data) env)
               (fun ev => Background.mkMessage true None None None None (Some ev))).
  - intros Hunknown. unfold Background.onMessage.
    repeat (match goal with
            | |- context [if String.eqb ?a ?b then _ else _] =>
                destruct (String.eqb_spec a b) as [->|?];
                [exfalso; apply Hunknown; unfold known_actions; set_solver|]
            end).
    reflexivity.
Qed.

Lemma onMessage_always_answers_witness :
  Background.onMessage "syncAll" SidePanel.no_payload Sample.expired_env
    Sample.logged_in
  = (Normal (Background.failed "Unknown action"), Sample.logged_in).
Proof.
  apply (onMessage_always_answers "syncAll" SidePanel.no_payload
           Sample.expired_env Sample.logged_in).
  vm_compute. intros H. repeat (inversion H as [|? ? ? H']; clear H; rename H' into H).
Defined.

Lemma getToken_silent env w :
  Background.getToken false env w
  = (Normal (silent_token env w),
     match tokenCache w with
     | Some _ => add_log (GetAuthToken false) w
     | None =>
         match lastError (mint env false), token (mint env false) with
         | None, Some t =>
             set_tokenCache (if truthy t then Some t else None)
               (add_log (GetAuthToken false) w)
         | _, _ => add_log (GetAuthToken false) w
         end
     end).
Proof.
  unfold silent_token. eff_unfold. simpl.
  unfold Background.getToken_callback, SidePanel.usable_token.
  destruct (tokenCache w) as [t|]; simpl.
  - destruct (truthy t); reflexivity.
  - destruct (mint env false) as [[e|] [t|]]; simpl; try reflexivity.
    destruct (truthy t); reflexivity.
Qed.

(** X14. The authentication check of the service worker is silent: it
    calls the identity service once, in non-interactive mode, sends nothing
    to the network, and reports as authenticated exactly the sessions for
    which a silent acquisition yields a token. *)
Theorem handleCheckAuth_silent (env : Env) (w : World) :
  outcome (Background.handleCheckAuth env) w
  = Normal (Background.mkMessage true None
              (Some (bool_decide (is_Some (silent_token env w))))
              None None None)
  /\ log (exec (Background.handleCheckAuth env) w)
     = (log w ++ [GetAuthToken false])%list.
Proof.
  unfold outcome, exec, Background.handleCheckAuth, Background.isAuthenticated,
    try_catch.
  unfold bind at 1 3. unfold bind at 1 2.
  rewrite (getToken_silent env w). cbn [fst snd].
  split.
  - unfold ret. cbn [fst]. destruct (silent_token env w); reflexivity.
  - unfold ret.
    destruct (silent_token env w); cbn [snd];
      destruct (tokenCache w); try reflexivity;
      destruct (lastError (mint env false)), (token (mint env false));
      reflexivity.
Qed.

(** ** The side panel script: apiRequest *)

#[local] Hint Unfold
  Panel.updateGoogleAccountUI Panel.updateAuthUI
  Panel.checkAuthenticationStatus_start
  Panel.checkAuthenticationStatus_onResponse Panel.checkAuthenticationStatus
  Panel.loadStarredTasks Panel.saveStarredTasks_writes Panel.saveStarredTasks
  Panel.isTaskStarred Panel.toggleTaskStar
  Panel.toggleTaskCompletion_start Panel.toggleTaskCompletion_onResponse
  Panel.deleteTaskById_start Panel.deleteTaskById_onResponse : session_code.

Lemma apiRequest_ok action payload env w t m u b (r : Response) :
  tokenCache w = Some t -> truthy t = true ->
  SidePanel.request_of action payload env = Some (m, u, b) ->
  net env (mkRequest m u (Some t) b) = Responded r ->
  ok r = true ->
  SidePanel.apiRequest action payload env w
  = (if String.eqb m "DELETE" then ret DeleteOk else response_json r)
      (add_log (Fetch m u) (add_log (GetAuthToken false) w)).
Proof.
  intros Hc Ht Hreq Hnet Hok.
  unfold SidePanel.apiRequest, chrome_identity_getAuthToken, fetch,
    bind, emit, modify, read, ret, throw. simpl.
  rewrite Hc. simpl. unfold SidePanel.usable_token. simpl.
  rewrite Ht, Hreq. simpl. rewrite Hnet. simpl. rewrite Hok. reflexivity.
Qed.

(** X15. A successful DELETE through [apiRequest] resolves without the
    body being parsed, so an empty body is a success; the same empty body
    on a successful list request makes the call reject. *)
Theorem apiRequest_delete_needs_no_body (payload : Payload) (env : Env)
    (w : World) (t : string) (r : Response) :
  tokenCache w = Some t -> truthy t = true ->
  ok r = true -> json r = None ->
  (net env (delete_task_request payload t) = Responded r ->
   outcome (SidePanel.apiRequest "deleteTask" payload env) w = Normal DeleteOk)
  /\ (net env (tasks_request t) = Responded r ->
      exists e, outcome (SidePanel.apiRequest "getTasks" payload env) w
                = Throw e).
Proof.
  intros Hc Ht Hok Hjson. split; intros Hnet; unfold outcome.
  - rewrite (apiRequest_ok "deleteTask" payload env w t "DELETE"
               (url (delete_task_request payload t)) None r Hc Ht eq_refl
               Hnet Hok).
    reflexivity.
  - rewrite (apiRequest_ok "getTasks" payload env w t "GET"
               SidePanel.TASKS_URL None r Hc Ht eq_refl Hnet Hok).
    unfold response_json. rewrite Hjson. simpl. eauto.
Qed.

Lemma apiRequest_delete_needs_no_body_witness :
  outcome (SidePanel.apiRequest "deleteTask" SidePanel.no_payload
             (mkEnv (mint Sample.expired_env)
                (fun _ => Responded (mkResponse 204 "No Content" None))
                (now Sample.expired_env) (in_three_months Sample.expired_env)))
    Sample.logged_in
  = Normal DeleteOk.
Proof.
  apply (apiRequest_delete_needs_no_body SidePanel.no_payload _
           Sample.logged_in "ya29.token" (mkResponse 204 "No Content" None));
    reflexivity.
Defined.

(** X16. An action [apiRequest] does not know is rejected as unknown
    after the credential was obtained and before any request is sent: the
    only call that left the script is the one to the identity service. *)
Theorem apiRequest_unknown_action (action : string) (payload : Payload)
    (env : Env) (w : World) (t : string) :
  tokenCache w = Some t -> truthy t = true ->
  SidePanel.request_of action payload env = None ->
  SidePanel.apiRequest action payload env w
  = (Throw (error ("Unknown action: " +:+ action)),
     add_log (GetAuthToken false) w).
Proof.
  intros Hc Ht Hreq.
  unfold SidePanel.apiRequest, chrome_identity_getAuthToken,
    bind, emit, modify, read, ret, throw. simpl.
  rewrite Hc. simpl. unfold SidePanel.usable_token. simpl.
  rewrite Ht, Hreq. reflexivity.
Qed.

Lemma apiRequest_unknown_action_witness :
  SidePanel.apiRequest "deleteEvent" SidePanel.no_payload Sample.expired_env
    Sample.logged_in
  = (Throw (error "Unknown action: deleteEvent"),
     add_log (GetAuthToken false) Sample.logged_in).
Proof.
  apply (apiRequest_unknown_action "deleteEvent" SidePanel.no_payload
           Sample.expired_env Sample.logged_in "ya29.token"); reflexivity.
Defined.

(** ** The side panel script: what a fetch may do to the session *)

(** X17. A panel that is not authenticated sends nothing: asking for the
    tasks or the events, or ticking a task, leaves the log of outgoing
    calls, the caches and the flag as they were (the service worker and the
    identity service are not even asked). *)
Theorem logged_out_panel_sends_nothing (env : Env) (w : World)
    (taskId : string) (completed : bool) :
  isAuthenticated w = false ->
  let wt := exec (SidePanel.getTasks env) w in
  let we := exec (SidePanel.getEvents env) w in
  let wc := exec (Panel.toggleTaskCompletion_start taskId completed) w in
  (log wt = log w /\ session wt = session w)
  /\ (log we = log w /\ session we = session w)
  /\ (log wc = log w /\ session wc = session w).
Proof.
  intros Ha. destruct w as [a cts ces st c d tok loc syn lg].
  destruct d as [tl el nem dot lbl sm stl tc]. simpl in Ha. subst a.
  unfold session. eff_unfold. simpl.
  destruct tl, el, nem, sm; simpl; repeat split.
Qed.

Lemma logged_out_panel_sends_nothing_witness :
  log (exec (SidePanel.getTasks Sample.consenting_env) Sample.logged_out) = []
  /\ log (exec (SidePanel.getEvents Sample.consenting_env) Sample.logged_out)
     = [].
Proof.
  destruct (logged_out_panel_sends_nothing Sample.consenting_env
              Sample.logged_out "t1" true)
    as ((H1 & _) & (H2 & _) & _); [reflexivity|].
  exact (conj H1 H2).
Defined.

Lemma showError_session message w :
  session (exec (SidePanel.showError message) w) = session w.
Proof.
  destruct w as [a cts ces st c d tok loc syn lg].
  destruct d as [tl el nem dot lbl sm stl tc].
  eff_unfold. simpl. destruct sm; reflexivity.
Qed.

Lemma showEventsError_session message w :
  session (exec (SidePanel.showEventsError message) w) = session w.
Proof.
  destruct w as [a cts ces st c d tok loc syn lg].
  destruct d as [tl el nem dot lbl sm stl tc].
  eff_unfold. simpl. destruct el, nem; reflexivity.
Qed.

Lemma showError_then_list_session message h w :
  session (exec (bind (SidePanel.showError message)
                   (fun _ => SidePanel.write_tasks_list h)) w)
  = session w.
Proof.
  destruct w as [a cts ces st c d tok loc syn lg].
  destruct d as [tl el nem dot lbl sm stl tc].
  eff_unfold. simpl. destruct sm; simpl; [destruct tl|]; reflexivity.
Qed.

Lemma getTasks_failure_session w response :
  reports_failure response ->
  SidePanel.looks_expired (SidePanel.error_of response) = false ->
  session (exec (SidePanel.getTasks_onResponse None response) w) = session w.
Proof.
  intros Hfail Hexp. unfold SidePanel.getTasks_onResponse.
  assert (Hs : match response with
               | Some r => Background.success r
               | None => false
               end = false).
  { destruct response as [r|]; [exact Hfail | reflexivity]. }
  rewrite Hs, Hexp.
  repeat match goal with
         | |- context [if ?b then _ else _] => destruct b
         end; apply showError_then_list_session.
Qed.

Lemma getEvents_rejected_session w e :
  SidePanel.looks_expired (or_else (err_message e) "Unknown error") = false ->
  session (exec (SidePanel.getEvents_resume (Rejected e)) w) = session w.
Proof.
  intros Hexp. unfold SidePanel.getEvents_resume. rewrite Hexp.
  repeat match goal with
         | |- context [if ?b then _ else _] => destruct b
         end; apply showEventsError_session.
Qed.

(** X18. A failed fetch that does not look like an expired login changes
    neither the flag nor the caches: the handlers of [getTasks] and
    [getEvents] only show a message. *)
Theorem other_failures_keep_session (w : World)
    (response : option Background.Message) (e : Error) :
  (reports_failure response ->
   SidePanel.looks_expired (SidePanel.error_of response) = false ->
   session (exec (SidePanel.getTasks_onResponse None response) w) = session w)
  /\ (SidePanel.looks_expired (or_else (err_message e) "Unknown error") = false ->
      session (exec (SidePanel.getEvents_resume (Rejected e)) w) = session w).
Proof.
  split.
  - apply getTasks_failure_session.
  - apply getEvents_rejected_session.
Qed.

Lemma other_failures_keep_session_witness :
  session (exec (SidePanel.getTasks_onResponse None
                   (Some (Background.failed "Tasks API error: 403 Forbidden")))
             Sample.logged_in)
  = session Sample.logged_in.
Proof.
  apply (other_failures_keep_session Sample.logged_in
           (Some (Background.failed "Tasks API error: 403 Forbidden"))
           (error "")); reflexivity.
Defined.

Lemma refused_not_expired (r : Response) :
  refused_or_unavailable (status r) ->
  SidePanel.looks_expired
    (or_else (err_message (SidePanel.http_error r)) "Unknown error") = false.
Proof.
  unfold refused_or_unavailable, SidePanel.http_error, SidePanel.errorMessage.
  simpl. intros Hs.
  destruct (Z.eqb_spec (status r) 401) as [E|_]; [lia|].
  destruct (Z.eqb_spec (status r) 403) as [_|N3]; [reflexivity|].
  destruct (Z.eqb_spec (status r) 404) as [_|N4]; [reflexivity|].
  destruct (Z.eqb_spec (status r) 429) as [_|N9]; [reflexivity|].
  destruct (Z.leb_spec 500 (status r)) as [_|L]; [reflexivity|lia].
Qed.

(** X19. A calendar fetch that is answered with a status of 403, 404, 429
    or 500 and above never logs the user out and never touches the
    caches: of all the statuses [apiRequest] names, only 401 ends the
    session of the panel. *)
Theorem refused_calendar_fetch_keeps_session (env : Env) (w : World)
    (t : string) (r : Response) :
  isAuthenticated w = true ->
  tokenCache w = Some t -> truthy t = true ->
  net env (events_request env t) = Responded r ->
  ok r = false ->
  refused_or_unavailable (status r) ->
  session (exec (SidePanel.getEvents env) w) = session w.
Proof.
  intros Ha Hc Ht Hnet Hok Hs.
  unfold exec, SidePanel.getEvents.
  assert (Hstart : exists w1,
             SidePanel.getEvents_start w = (Normal true, w1)
             /\ tokenCache w1 = tokenCache w /\ session w1 = session w).
  { destruct w as [a cts ces st c d tok loc syn lg].
    destruct d as [tl el nem dot lbl sm stl tc]. simpl in Ha. subst a.
    eff_unfold. simpl. destruct el, nem; simpl; eauto. }
  destruct Hstart as (w1 & Hstart & Htok & Hsess).
  rewrite (bind_normal _ _ _ _ _ Hstart).
  assert (Hc1 : tokenCache w1 = Some t) by (rewrite Htok; exact Hc).
  rewrite (bind_normal _ _ _ _ _
             (settle_throw _ _ _ _
                (apiRequest_not_ok "getEvents" SidePanel.no_payload env w1 t
                   "GET" (url (events_request env t)) None r Hc1 Ht eq_refl
                   Hnet Hok))).
  pose proof (getEvents_rejected_session
                (add_log (Fetch "GET" (url (events_request env t)))
                   (add_log (GetAuthToken false) w1))
                (SidePanel.http_error r) (refused_not_expired r Hs)) as H.
  unfold exec in H. rewrite H. rewrite <- Hsess. reflexivity.
Qed.

Lemma refused_calendar_fetch_keeps_session_witness :
  session (exec (SidePanel.getEvents
                   (mkEnv (mint Sample.expired_env)
                      (fun _ => Responded
                                  (mkResponse 503 "Service Unavailable" None))
                      (now Sample.expired_env)
                      (in_three_months Sample.expired_env)))
             Sample.logged_in)
  = session Sample.logged_in.
Proof.
  apply (refused_calendar_fetch_keeps_session _ Sample.logged_in "ya29.token"
           (mkResponse 503 "Service Unavailable" None));
    try reflexivity.
  right; right; right. simpl. lia.
Defined.

(** ** The side panel script: login and start-up *)

#[local] Hint Unfold Panel.deleteTaskById : session_code.

(** X20. When the service worker obtains no token, the login of the panel
    ends logged out with the generic notice: the message of the worker
    ("Authentication cancelled or failed") matches neither of the strings
    the panel tests for a cancelled login. Nothing is sent to the network
    and the caches stay as they were. *)
Theorem login_without_token (env : Env) (w : World) :
  tokenCache w = None ->
  SidePanel.usable_token (mint env true) = None ->
  is_Some (notice w) ->
  let w' := exec (SidePanel.handleLogin env) w in
  isAuthenticated w' = false
  /\ notice w' = Some [("Unable to login to Google. Please try again.", "error")]
  /\ log w' = (log w ++ [SendMessage "authenticate"; GetAuthToken true])%list
  /\ (currentTasks w', currentEvents w') = (currentTasks w, currentEvents w).
Proof.
  intros Hc Hu [sm0 Hsm]. cbv zeta.
  destruct w as [a cts ces st c d tok loc syn lg].
  destruct d as [tl el nem dot lbl sm stl tc].
  unfold notice in *. simpl in Hc, Hsm. subst tok sm.
  unfold SidePanel.usable_token in Hu.
  eff_unfold. simpl. unfold Background.getToken_callback.
  destruct (mint env true) as [[e|] [t|]]; simpl in *;
    try destruct (truthy t); try discriminate; simpl;
    destruct dot, lbl; simpl; rewrite <- ?app_assoc; repeat split.
Qed.

Lemma login_without_token_witness :
  isAuthenticated (exec (SidePanel.handleLogin Sample.expired_env)
                     Sample.logged_out) = false
  /\ notice (exec (SidePanel.handleLogin Sample.expired_env) Sample.logged_out)
     = Some [("Unable to login to Google. Please try again.", "error")].
Proof.
  destruct (login_without_token Sample.expired_env Sample.logged_out)
    as (H1 & H2 & _); [reflexivity | reflexivity | eexists; reflexivity |].
  exact (conj H1 H2).
Defined.

Lemma evolves_trans l1 l2 w w1 w2 :
  evolves l1 w w1 -> evolves l2 w1 w2 -> evolves (l1 ++ l2) w w2.
Proof.
  intros (A1 & T1 & L1 & C1 & S1) (A2 & T2 & L2 & C2 & S2).
  unfold evolves. rewrite A2, T2, L2, C2, A1, T1, L1, C1, app_assoc.
  repeat split. auto.
Qed.

Lemma updateFooterAuthStatus_run w :
  exists w', SidePanel.updateFooterAuthStatus w = (Normal tt, w')
             /\ evolves [] w w'.
Proof.
  destruct w as [a cts ces st c d tok loc syn lg].
  destruct d as [tl el nem dot lbl sm stl tc].
  eff_unfold. simpl. eexists. split; [reflexivity|].
  unfold evolves. simpl. rewrite app_nil_r.
  destruct dot, lbl; simpl; repeat split; auto.
Qed.

Lemma getTasks_start_run w :
  isAuthenticated w = true ->
  exists w', SidePanel.getTasks_start w = (Normal true, w')
             /\ evolves [SendMessage "getTasks"] w w'.
Proof.
  intros Ha. destruct w as [a cts ces st c d tok loc syn lg].
  destruct d as [tl el nem dot lbl sm stl tc]. simpl in Ha. subst a.
  eff_unfold. simpl. eexists. split; [reflexivity|].
  unfold evolves. simpl. destruct tl; simpl; repeat split; auto.
Qed.

Lemma getEvents_start_run w :
  isAuthenticated w = true ->
  exists w', SidePanel.getEvents_start w = (Normal true, w')
             /\ evolves [] w w'.
Proof.
  intros Ha. destruct w as [a cts ces st c d tok loc syn lg].
  destruct d as [tl el nem dot lbl sm stl tc]. simpl in Ha. subst a.
  eff_unfold. simpl. eexists. split; [reflexivity|].
  unfold evolves. simpl. rewrite app_nil_r.
  destruct el, nem; simpl; repeat split; auto.
Qed.

Lemma showTab_todo_run w :
  isAuthenticated w = true ->
  exists w', SidePanel.showTab_todo w = (Normal tt, w')
             /\ isAuthenticated w' = isAuthenticated w
             /\ tokenCache w' = tokenCache w
             /\ log w' = (log w ++ todo_tab_requests (dom w))%list.
Proof.
  intros Ha. destruct w as [a cts ces st c d tok loc syn lg].
  destruct d as [tl el nem dot lbl sm stl tc]. simpl in Ha. subst a.
  unfold todo_tab_requests. eff_unfold. simpl.
  destruct tc; simpl.
  - eexists. split; [reflexivity|]. destruct tl; simpl; repeat split.
  - eexists. split; [reflexivity|]. simpl. rewrite app_nil_r. repeat split.
Qed.

Lemma evolves_flag l w w' :
  evolves l w w' -> isAuthenticated w = true -> isAuthenticated w' = true.
Proof. intros (A & _) H. rewrite A. exact H. Qed.

(** The part the login and the start-up share once the panel knows it is
    authenticated: the task list, the events, the footer when [footer] is
    set, and the to-do tab. *)
Lemma load_user_data_run (footer : bool) w :
  isAuthenticated w = true ->
  exists w',
    (_ <- SidePanel.getTasks_start;;
     _ <- SidePanel.getEvents_start;;
     (if footer then SidePanel.updateFooterAuthStatus else ret tt);;
     SidePanel.showTab_todo) w = (Normal tt, w')
    /\ isAuthenticated w' = true
    /\ tokenCache w' = tokenCache w
    /\ log w' = (log w ++ SendMessage "getTasks"
                   :: todo_tab_requests (dom w))%list.
Proof.
  intros Ha.
  destruct (getTasks_start_run w Ha) as (w1 & R1 & E1).
  rewrite (bind_normal _ _ _ _ _ R1).
  pose proof (evolves_flag _ _ _ E1 Ha) as Ha1.
  destruct (getEvents_start_run w1 Ha1) as (w2 & R2 & E2).
  rewrite (bind_normal _ _ _ _ _ R2).
  pose proof (evolves_flag _ _ _ E2 Ha1) as Ha2.
  assert (R3 : exists w3,
             (if footer then SidePanel.updateFooterAuthStatus else ret tt) w2
             = (Normal tt, w3) /\ evolves [] w2 w3).
  { destruct footer.
    - apply updateFooterAuthStatus_run.
    - exists w2. split; [reflexivity|].
      unfold evolves. rewrite app_nil_r. repeat split; auto. }
  destruct R3 as (w3 & R3 & E3).
  rewrite (bind_normal _ _ _ _ _ R3).
  pose proof (evolves_flag _ _ _ E3 Ha2) as Ha3.
  destruct (showTab_todo_run w3 Ha3) as (w4 & R4 & A4 & T4 & L4).
  exists w4. split; [exact R4|].
  destruct (evolves_trans _ _ _ _ _ (evolves_trans _ _ _ _ _ E1 E2) E3)
    as (_ & T & L & C & _).
  rewrite A4, T4, L4, T, L. unfold todo_tab_requests. rewrite C.
  simpl. rewrite <- app_assoc. simpl. repeat split. exact Ha3.
Qed.

Lemma messages_app l1 l2 : messages (l1 ++ l2) = (messages l1 ++ messages l2)%list.
Proof. apply omap_app. Qed.

Lemma consent_prompts_app l1 l2 :
  consent_prompts (l1 ++ l2)
  = (consent_prompts l1 ++ consent_prompts l2)%list.
Proof. apply omap_app. Qed.

Lemma handleAuthenticate_minted env w t :
  tokenCache w = None ->
  SidePanel.usable_token (mint env true) = Some t ->
  Background.handleAuthenticate env w
  = (Normal (Background.mkMessage true None (Some true) None None None),
     set_tokenCache (Some t) (add_log (GetAuthToken true) w)).
Proof.
  intros Hc Hu. destruct w as [a cts ces st c d tok loc syn lg].
  simpl in Hc. subst tok. unfold SidePanel.usable_token in Hu.
  eff_unfold. simpl. unfold Background.getToken_callback.
  destruct (mint env true) as [[e|] [t'|]]; simpl in *; try discriminate.
  destruct (truthy t') eqn:Ht; [|discriminate].
  injection Hu as ->. reflexivity.
Qed.

Lemma handleLogin_start_run w :
  is_Some (notice w) ->
  exists w', SidePanel.handleLogin_start w = (Normal tt, w')
             /\ evolves [SendMessage "authenticate"] w w'.
Proof.
  intros [sm0 Hsm]. destruct w as [a cts ces st c d tok loc syn lg].
  destruct d as [tl el nem dot lbl sm stl tc].
  unfold notice in Hsm. simpl in Hsm. subst sm.
  eff_unfold. simpl. eexists. split; [reflexivity|].
  unfold evolves. simpl. repeat split; eauto.
Qed.

Lemma login_confirmed_run w :
  is_Some (notice w) ->
  exists w',
    SidePanel.handleLogin_onResponse None
      (Some (Background.mkMessage true None (Some true) None None None)) w
    = (Normal tt, w')
    /\ isAuthenticated w' = true
    /\ tokenCache w' = tokenCache w
    /\ log w' = (log w ++ SendMessage "getTasks"
                   :: todo_tab_requests (dom w))%list.
Proof.
  intros [sm0 Hsm].
  unfold SidePanel.handleLogin_onResponse. cbn [Background.success].
  assert (R0 : exists w0,
             SidePanel.showStatus "Login successful!" "success" w
             = (Normal tt, w0) /\ evolves [] w w0).
  { destruct w as [a cts ces st c d tok loc syn lg].
    destruct d as [tl el nem dot lbl sm stl tc].
    unfold notice in Hsm. simpl in Hsm. subst sm.
    eff_unfold. simpl. eexists. split; [reflexivity|].
    unfold evolves. simpl. rewrite app_nil_r. repeat split; eauto. }
  destruct R0 as (w0 & R0 & E0).
  rewrite (bind_normal _ _ _ _ _ R0).
  rewrite (bind_normal (modify (set_isAuthenticated true)) _ w0 tt
             (set_isAuthenticated true w0) eq_refl).
  set (w1 := set_isAuthenticated true w0).
  destruct (updateFooterAuthStatus_run w1) as (w2 & R2 & E2).
  rewrite (bind_normal _ _ _ _ _ R2).
  assert (Ha2 : isAuthenticated w2 = true)
    by (destruct E2 as (A & _); rewrite A; reflexivity).
  destruct (load_user_data_run false w2 Ha2) as (w3 & R3 & A3 & T3 & L3).
  assert (R3' : (_ <- SidePanel.getTasks_start;;
                 _ <- SidePanel.getEvents_start;;
                 SidePanel.showTab_todo) w2 = (Normal tt, w3)).
  { rewrite <- R3. unfold bind.
    destruct (SidePanel.getTasks_start w2) as [[b1|e1] u1]; [|reflexivity].
    destruct (SidePanel.getEvents_start u1) as [[b2|e2] u2]; reflexivity. }
  exists w3. split; [exact R3'|].
  destruct E0 as (_ & T0 & L0 & C0 & _), E2 as (_ & T2 & L2 & C2 & _).
  rewrite A3, T3, L3, T2, L2. unfold todo_tab_requests. rewrite C2.
  subst w1. simpl. rewrite T0, L0, C0, !app_nil_r.
  repeat split.
Qed.

(** X21. A login for which the consent window yields a token ends logged
    in, with the token cached, and asks the service worker for the task
    list twice: once directly and once more through the switch to the
    to-do tab. *)
Theorem login_requests_tasks_twice (env : Env) (w : World) (t : string) :
  tokenCache w = None ->
  SidePanel.usable_token (mint env true) = Some t ->
  is_Some (notice w) ->
  is_Some (todo_content (dom w)) ->
  let w' := exec (SidePanel.handleLogin env) w in
  isAuthenticated w' = true
  /\ tokenCache w' = Some t
  /\ messages (log w')
     = (messages (log w) ++ ["authenticate"; "getTasks"; "getTasks"])%list.
Proof.
  intros Hc Hu Hsm [tc0 Htc]. cbv zeta.
  unfold exec, SidePanel.handleLogin.
  destruct (handleLogin_start_run w Hsm) as (w1 & R1 & A1 & T1 & L1 & C1 & S1).
  rewrite (bind_normal _ _ _ _ _ R1).
  assert (Hc1 : tokenCache w1 = None) by (rewrite T1; exact Hc).
  rewrite (bind_normal _ _ _ _ _ (handleAuthenticate_minted env w1 t Hc1 Hu)).
  set (w2 := set_tokenCache (Some t) (add_log (GetAuthToken true) w1)).
  assert (Hsm2 : is_Some (notice w2)) by (apply S1, Hsm).
  destruct (login_confirmed_run w2 Hsm2) as (w3 & R3 & A3 & T3 & L3).
  rewrite R3. cbn [snd]. rewrite A3, T3, L3.
  unfold todo_tab_requests. subst w2. simpl. rewrite C1, Htc, L1.
  rewrite !messages_app. simpl. rewrite <- !app_assoc. repeat split.
Qed.

Lemma login_requests_tasks_twice_witness :
  messages (log (exec (SidePanel.handleLogin Sample.consenting_env)
                   Sample.logged_out))
  = ["authenticate"; "getTasks"; "getTasks"].
Proof.
  destruct (login_requests_tasks_twice Sample.consenting_env Sample.logged_out
              "ya29.fresh")
    as (_ & _ & H);
    [reflexivity | reflexivity | eexists; reflexivity | eexists; reflexivity |].
  exact H.
Defined.

Lemma handleCheckAuth_run env w :
  exists w1,
    Background.handleCheckAuth env w
    = (Normal (Background.mkMessage true None
                 (Some (bool_decide (is_Some (silent_token env w))))
                 None None None), w1)
    /\ dom w1 = dom w
    /\ log w1 = (log w ++ [GetAuthToken false])%list.
Proof.
  unfold Background.handleCheckAuth, Background.isAuthenticated, try_catch.
  unfold bind at 1 2. rewrite (getToken_silent env w). cbn [fst snd].
  unfold ret. eexists. split.
  - destruct (silent_token env w); reflexivity.
  - destruct (tokenCache w); [split; reflexivity|].
    destruct (lastError (mint env false)), (token (mint env false));
      split; reflexivity.
Qed.

Lemma showLoginPrompt_run w :
  exists w', SidePanel.showLoginPrompt w = (Normal tt, w') /\ evolves [] w w'.
Proof.
  destruct w as [a cts ces st c d tok loc syn lg].
  destruct d as [tl el nem dot lbl sm stl tc].
  eff_unfold. simpl. eexists. split; [reflexivity|].
  unfold evolves. simpl. rewrite app_nil_r.
  destruct tl, el; simpl; repeat split; auto.
Qed.

Lemma checkAuth_answered (a : bool) (w : World) :
  exists w',
    Panel.checkAuthenticationStatus_onResponse None
      (Some (Background.mkMessage true None (Some a) None None None)) w
    = (Normal tt, w')
    /\ isAuthenticated w' = a
    /\ log w' = (log w ++ if a then SendMessage "getTasks"
                                     :: todo_tab_requests (dom w)
                          else [])%list.
Proof.
  unfold Panel.checkAuthenticationStatus_onResponse.
  cbn [Background.success Background.authenticated default].
  rewrite (bind_normal (modify (set_isAuthenticated a)) _ w tt
             (set_isAuthenticated a w) eq_refl).
  set (w0 := set_isAuthenticated a w).
  unfold Panel.updateAuthUI, Panel.updateGoogleAccountUI.
  assert (R1 : exists w1,
             (a0 <- read isAuthenticated;;
              SidePanel.updateFooterAuthStatus;;
              SidePanel.updateFooterAuthStatus) w0 = (Normal tt, w1)
             /\ evolves [] w0 w1).
  { destruct (updateFooterAuthStatus_run w0) as (u1 & Q1 & F1).
    destruct (updateFooterAuthStatus_run u1) as (u2 & Q2 & F2).
    exists u2. split.
    - unfold bind at 1. unfold read. rewrite (bind_normal _ _ _ _ _ Q1).
      exact Q2.
    - exact (evolves_trans _ _ _ _ _ F1 F2). }
  destruct R1 as (w1 & R1 & E1).
  rewrite (bind_normal _ _ _ _ _ R1).
  assert (Ha1 : isAuthenticated w1 = a)
    by (destruct E1 as (A & _); rewrite A; reflexivity).
  unfold bind at 1. unfold read. rewrite Ha1.
  destruct E1 as (_ & _ & L1 & C1 & _).
  destruct a.
  - destruct (load_user_data_run true w1 Ha1) as (w2 & R2 & A2 & _ & L2).
    exists w2. split; [exact R2|].
    rewrite A2, L2, L1. unfold todo_tab_requests. rewrite C1.
    subst w0. simpl. rewrite app_nil_r. split; reflexivity.
  - destruct (updateFooterAuthStatus_run w1) as (w2 & R2 & E2).
    rewrite (bind_normal _ _ _ _ _ R2).
    destruct (showLoginPrompt_run w2) as (w3 & R3 & E3).
    exists w3. split; [exact R3|].
    destruct E2 as (A2 & _ & L2 & _), E3 as (A3 & _ & L3 & _).
    rewrite A3, A2, L3, L2, L1. subst w0. simpl. rewrite !app_nil_r.
    split; [exact Ha1 | reflexivity].
Qed.

(** X22. The start-up check never throws and never opens the consent
    window: the panel comes up authenticated exactly when a silent
    acquisition yields a token, and only then asks the service worker for
    the task list. *)
Theorem startup_is_silent (env : Env) (w : World) :
  let w' := exec (Panel.checkAuthenticationStatus env) w in
  let a := bool_decide (is_Some (silent_token env w)) in
  outcome (Panel.checkAuthenticationStatus env) w = Normal tt
  /\ isAuthenticated w' = a
  /\ messages (log w')
     = (messages (log w) ++ "checkAuth" :: startup_messages a (dom w))%list
  /\ consent_prompts (log w') = consent_prompts (log w).
Proof.
  cbv zeta.
  set (w0 := add_log (SendMessage "checkAuth") w).
  assert (Hs : silent_token env w0 = silent_token env w) by reflexivity.
  destruct (handleCheckAuth_run env w0) as (w1 & Hrun & Hdom & Hlog).
  rewrite Hs in Hrun.
  destruct (checkAuth_answered (bool_decide (is_Some (silent_token env w))) w1)
    as (w2 & R2 & A2 & L2).
  assert (Hstep : Panel.checkAuthenticationStatus env w = (Normal tt, w2)).
  { unfold Panel.checkAuthenticationStatus,
      Panel.checkAuthenticationStatus_start.
    unfold bind at 1. unfold emit, modify. fold w0.
    rewrite (bind_normal _ _ _ _ _ Hrun). exact R2. }
  unfold outcome, exec. rewrite Hstep. cbn [fst snd].
  rewrite A2, L2, Hlog, Hdom.
  unfold startup_messages, todo_tab_requests. subst w0. simpl.
  rewrite !messages_app, !consent_prompts_app. simpl.
  destruct (bool_decide (is_Some (silent_token env w)));
    [destruct (todo_content (dom w))|]; simpl;
    rewrite <- ?app_assoc, ?app_nil_r; repeat split.
Qed.

(** ** The side panel script: starred tasks *)

Lemma starred_in_written (l : list string) (area : gmap string Stored) :
  Panel.starred_in
    (Storage.area_set {[ Panel.STARRED_KEY := StrArray l ]} area)
  = list_to_set l.
Proof.
  unfold Panel.starred_in.
  rewrite (area_set_lookup _ _ Panel.STARRED_KEY (StrArray l));
    [reflexivity | apply lookup_singleton_eq].
Qed.

(** X23. Saving the starred tasks and loading them again gives the same
    set as long as both go to the same storage area. When the save had to
    fall back to the local area and the next load reads the synced area
    without error, the saved set is not read back: the load yields the
    identifiers the synced area held before. *)
Theorem starred_save_then_load (w : World) (e e' : Error)
    (le le' : option Error) (old : list string) :
  let reload save load := starredTasks (exec (save;; load) w) in
  reload (Panel.saveStarredTasks None le) (Panel.loadStarredTasks None le')
  = starredTasks w
  /\ reload (Panel.saveStarredTasks (Some e) None)
       (Panel.loadStarredTasks (Some e') None)
     = starredTasks w
  /\ (sync w !! Panel.STARRED_KEY = Some (StrArray old) ->
      reload (Panel.saveStarredTasks (Some e) None)
        (Panel.loadStarredTasks None le')
      = list_to_set old).
Proof.
  cbv zeta. destruct w as [a cts ces st c d tok loc syn lg].
  eff_unfold. simpl. rewrite !starred_in_written.
  rewrite list_to_set_elements_L. repeat split.
  intros Hold. unfold Panel.starred_in. rewrite Hold. reflexivity.
Qed.

Lemma starred_save_then_load_witness :
  starredTasks
    (exec (Panel.saveStarredTasks (Some (error "QUOTA_BYTES")) None;;
           Panel.loadStarredTasks None None)
       (Panel.set_sync {[ "starredTasks" := StrArray ["t0"] ]}
          Sample.logged_in))
  = list_to_set ["t0"].
Proof.
  apply (starred_save_then_load
           (Panel.set_sync {[ "starredTasks" := StrArray ["t0"] ]}
              Sample.logged_in)
           (error "QUOTA_BYTES") (error "") None None ["t0"]).
  reflexivity.
Defined.

Lemma toggleTaskStar_run taskId le w :
  is_Some (notice w) ->
  exists w',
    Panel.toggleTaskStar taskId None le w = (Normal tt, w')
    /\ starredTasks w'
       = (if bool_decide (taskId ∈ starredTasks w)
          then starredTasks w ∖ {[ taskId ]}
          else starredTasks w ∪ {[ taskId ]})
    /\ sync w'
       = Storage.area_set
           {[ Panel.STARRED_KEY := StrArray (elements (starredTasks w')) ]}
           (sync w)
    /\ is_Some (notice w').
Proof.
  intros [sm0 Hsm]. destruct w as [a cts ces st c d tok loc syn lg].
  destruct d as [tl el nem dot lbl sm stl tc].
  unfold notice in *. simpl in Hsm. subst sm.
  eff_unfold. simpl.
  destruct (bool_decide (taskId ∈ st)); simpl;
    destruct tl; simpl; eexists; (split; [reflexivity|]); simpl;
    repeat split; eauto.
Qed.

(** X24. [toggleTaskStar] flips the membership of the task in the starred
    set and of no other task, and the synced area then holds the new set.
    Toggling twice gives back the set. *)
Theorem toggleTaskStar_flips (taskId : string) (w : World)
    (le : option Error) :
  is_Some (notice w) ->
  let w' := exec (Panel.toggleTaskStar taskId None le) w in
  (forall x, x ∈ starredTasks w' <->
             (if decide (x = taskId) then x ∉ starredTasks w
              else x ∈ starredTasks w))
  /\ Panel.starred_in (sync w') = starredTasks w'
  /\ starredTasks (exec (Panel.toggleTaskStar taskId None le) w')
     = starredTasks w.
Proof.
  intros Hsm. cbv zeta. unfold exec.
  destruct (toggleTaskStar_run taskId le w Hsm) as (w1 & R1 & S1 & Y1 & N1).
  destruct (toggleTaskStar_run taskId le w1 N1) as (w2 & R2 & S2 & _).
  rewrite R1. cbn [snd]. rewrite R2. cbn [snd].
  rewrite Y1, starred_in_written, list_to_set_elements_L, S2, S1.
  destruct (decide (taskId ∈ starredTasks w)) as [Hin|Hout].
  - rewrite (bool_decide_eq_true_2 _ Hin).
    assert (Hnot : taskId ∉ starredTasks w ∖ {[taskId]}) by set_solver.
    rewrite (bool_decide_eq_false_2 _ Hnot).
    split; [|split; [reflexivity|]].
    + intros x. destruct (decide (x = taskId)); set_solver.
    + apply set_eq. intros x. destruct (decide (x = taskId)); set_solver.
  - rewrite (bool_decide_eq_false_2 _ Hout).
    assert (Hnow : taskId ∈ starredTasks w ∪ {[taskId]}) by set_solver.
    rewrite (bool_decide_eq_true_2 _ Hnow).
    split; [|split; [reflexivity|]].
    + intros x. destruct (decide (x = taskId)); set_solver.
    + apply set_eq. intros x. destruct (decide (x = taskId)); set_solver.
Qed.

Lemma toggleTaskStar_flips_witness :
  Panel.starred_in
    (sync (exec (Panel.toggleTaskStar "t1" None None) Sample.logged_in))
  = starredTasks (exec (Panel.toggleTaskStar "t1" None None) Sample.logged_in).
Proof.
  destruct (toggleTaskStar_flips "t1" Sample.logged_in None)
    as (_ & H & _); [eexists; reflexivity|].
  exact H.
Defined.

(** ** The side panel script: deleting and completing a task *)

Lemma handleDeleteTask_run tid env w t (r : Response) :
  tokenCache w = Some t -> truthy t = true ->
  net env (worker_delete_request tid t) = Responded r ->
  Background.handleDeleteTask (mkPayload tid "" "" "" "") env w
  = (Normal (if ok r then Background.succeeded
             else Background.failure (Background.api_error "Tasks" r)),
     add_log (Fetch "DELETE" (url (worker_delete_request tid t)))
       (add_log (GetAuthToken true) w)).
Proof.
  intros Hc Ht Hnet.
  assert (Hdel : Background.deleteTask tid env w
                 = (if ok r then Normal tt
                    else Throw (Background.api_error "Tasks" r),
                    add_log (Fetch "DELETE"
                               (url (worker_delete_request tid t)))
                      (add_log (GetAuthToken true) w))).
  { unfold Background.deleteTask.
    rewrite (bind_normal _ _ _ _ _ (getToken_cached true env w t Hc Ht)).
    unfold fetch, bind, emit, modify, ret, throw. simpl.
    unfold worker_delete_request in Hnet. rewrite Hnet.
    destruct (ok r); reflexivity. }
  unfold Background.handleDeleteTask, try_catch, bind. cbn [taskId].
  rewrite Hdel. destruct (ok r); reflexivity.
Qed.

(** X25. [deleteTaskById] does not look at the login flag: the message
    is sent in any case and the service worker asks for the token in
    interactive mode. The task leaves the cache when the network accepts
    the deletion; when it refuses, the cache keeps the task and the notice
    carries the error of the service worker. *)
Theorem deleteTaskById_updates_cache (taskId : string) (env : Env) (w : World)
    (t : string) (r : Response) :
  tokenCache w = Some t -> truthy t = true ->
  net env (worker_delete_request taskId t) = Responded r ->
  is_Some (notice w) ->
  let w' := exec (Panel.deleteTaskById taskId env) w in
  log w' = (log w ++ [SendMessage "deleteTask"; GetAuthToken true;
                      Fetch "DELETE" (url (worker_delete_request taskId t))])%list
  /\ (ok r = true ->
      currentTasks w'
      = filter (fun x => task_id x ≠ taskId) (currentTasks w))
  /\ (ok r = false ->
      currentTasks w' = currentTasks w
      /\ notice w'
         = Some [("Failed to delete task: "
                  +:+ err_message (Background.api_error "Tasks" r), "error")]).
Proof.
  intros Hc Ht Hnet [sm0 Hsm]. cbv zeta.
  set (w0 := add_log (SendMessage "deleteTask") w).
  assert (Hrun : Panel.deleteTaskById taskId env w
                 = Panel.deleteTaskById_onResponse taskId
                     (Some (if ok r then Background.succeeded
                            else Background.failure
                                   (Background.api_error "Tasks" r)))
                     (add_log (Fetch "DELETE"
                                 (url (worker_delete_request taskId t)))
                        (add_log (GetAuthToken true) w0))).
  { unfold Panel.deleteTaskById, Panel.deleteTaskById_start.
    unfold bind at 1. unfold emit, modify. fold w0.
    rewrite (bind_normal _ _ _ _ _
               (handleDeleteTask_run taskId env w0 t r Hc Ht Hnet)).
    reflexivity. }
  unfold exec. rewrite Hrun. clear Hrun.
  unfold Panel.deleteTaskById_onResponse.
  destruct w as [a cts ces st c d tok loc syn lg].
  destruct d as [tl el nem dot lbl sm stl tc].
  unfold notice in *. simpl in Hsm. subst sm.
  destruct (ok r); subst w0; eff_unfold; simpl.
  - destruct tl; simpl; rewrite <- !app_assoc;
      (split; [reflexivity|]);
      (split; [intros _; reflexivity | discriminate]).
  - rewrite <- !app_assoc.
    split; [reflexivity|]. split; [discriminate|]. split; reflexivity.
Qed.

Lemma deleteTaskById_updates_cache_witness :
  currentTasks
    (exec (Panel.deleteTaskById "t1"
             (mkEnv (mint Sample.expired_env)
                (fun _ => Responded (mkResponse 204 "No Content" None))
                (now Sample.expired_env) (in_three_months Sample.expired_env)))
       (set_isAuthenticated false Sample.logged_in))
  = [].
Proof.
  destruct (deleteTaskById_updates_cache "t1"
              (mkEnv (mint Sample.expired_env)
                 (fun _ => Responded (mkResponse 204 "No Content" None))
                 (now Sample.expired_env) (in_three_months Sample.expired_env))
              (set_isAuthenticated false Sample.logged_in) "ya29.token"
              (mkResponse 204 "No Content" None))
    as (_ & H & _);
    [reflexivity | reflexivity | reflexivity | eexists; reflexivity |].
  apply H. reflexivity.
Defined.

Lemma mark_first_ids taskId b (l : list Task) :
  task_id <$> Panel.mark_first taskId b l = task_id <$> l.
Proof.
  induction l as [|x l IH]; [reflexivity|]. cbn [Panel.mark_first].
  destruct (String.eqb (task_id x) taskId); rewrite !fmap_cons;
    [reflexivity | rewrite IH; reflexivity].
Qed.

Lemma mark_first_others taskId b (l : list Task) i x :
  l !! i = Some x -> task_id x ≠ taskId ->
  Panel.mark_first taskId b l !! i = Some x.
Proof.
  revert i. induction l as [|y l IH]; intros i Hi Hne; simpl.
  - exact Hi.
  - destruct (String.eqb_spec (task_id y) taskId) as [He|Hn].
    + destruct i as [|i]; simpl in *; [|exact Hi].
      injection Hi as ->. contradiction.
    + destruct i as [|i]; simpl in *; [exact Hi|]. apply IH; assumption.
Qed.

Lemma mark_first_marked taskId b (l : list Task) x :
  NoDup (task_id <$> l) ->
  x ∈ Panel.mark_first taskId b l -> task_id x = taskId ->
  task_completed x = b.
Proof.
  induction l as [|y l IH]; simpl; intros Hnd Hin Hid.
  - apply elem_of_nil in Hin. contradiction.
  - apply NoDup_cons in Hnd as [Hy Hnd].
    destruct (String.eqb_spec (task_id y) taskId) as [He|Hn].
    + apply elem_of_cons in Hin as [->|Hin]; [reflexivity|].
      exfalso. apply Hy. rewrite He, <- Hid.
      apply list_elem_of_fmap. exists x. split; [reflexivity | exact Hin].
    + apply elem_of_cons in Hin as [->|Hin]; [contradiction|].
      apply IH; assumption.
Qed.

Lemma toggleTaskCompletion_cache taskId completed response w :
  let w' := exec (Panel.toggleTaskCompletion_onResponse taskId completed
                    response) w in
  isAuthenticated w' = isAuthenticated w
  /\ currentEvents w' = currentEvents w
  /\ currentTasks w'
     = if match response with
          | Some r => Background.success r
          | None => false
          end
       then Panel.mark_first taskId completed (currentTasks w)
       else currentTasks w.
Proof.
  cbv zeta. unfold Panel.toggleTaskCompletion_onResponse.
  destruct (match response with
            | Some r => Background.success r
            | None => false
            end).
  - destruct w as [a cts ces st c d tok loc syn lg].
    destruct d as [tl el nem dot lbl sm stl tc].
    eff_unfold. simpl. destruct tl, sm; simpl; repeat split.
  - assert (Hs : forall m, session (exec (SidePanel.showError m) w) = session w)
      by (intros m; apply showError_session).
    repeat match goal with
           | |- context [if ?b then _ else _] => destruct b
           end;
      match goal with
      | |- context [SidePanel.showError ?m] =>
          specialize (Hs m); unfold session in Hs;
          injection Hs as -> -> ->; repeat split
      end.
Qed.

(** X26. The answer to a completion request never changes the login flag
    or the cached events, not even when the error reads as an expired
    login. A failure leaves the cached tasks as they are; a success keeps
    their identifiers and order, sets the status of the task with the
    given identifier and leaves every other task untouched. *)
Theorem toggleTaskCompletion_marks_one (taskId : string) (completed : bool)
    (response : option Background.Message) (w : World) :
  NoDup (task_id <$> currentTasks w) ->
  let w' := exec (Panel.toggleTaskCompletion_onResponse taskId completed
                    response) w in
  isAuthenticated w' = isAuthenticated w
  /\ currentEvents w' = currentEvents w
  /\ task_id <$> currentTasks w' = task_id <$> currentTasks w
  /\ (forall i x, currentTasks w !! i = Some x -> task_id x ≠ taskId ->
                  currentTasks w' !! i = Some x)
  /\ (reports_failure response -> currentTasks w' = currentTasks w)
  /\ (~ reports_failure response ->
      forall x, x ∈ currentTasks w' -> task_id x = taskId ->
                task_completed x = completed).
Proof.
  intros Hnd. cbv zeta.
  destruct (toggleTaskCompletion_cache taskId completed response w)
    as (HA & HE & HT).
  rewrite HA, HE, HT. clear HA HE HT.
  split; [reflexivity|]. split; [reflexivity|].
  destruct response as [r|]; unfold reports_failure.
  - destruct (Background.success r).
    + split; [apply mark_first_ids|].
      split; [intros i x; apply mark_first_others|].
      split; [discriminate|].
      intros _ x. apply mark_first_marked, Hnd.
    + repeat split; auto. intros H. contradiction.
  - repeat split; auto. intros H. contradiction.
Qed.

Lemma toggleTaskCompletion_marks_one_witness :
  task_id <$> currentTasks
                (exec (Panel.toggleTaskCompletion_onResponse "t1" true
                         (Some Background.succeeded)) Sample.logged_in)
  = task_id <$> currentTasks Sample.logged_in.
Proof.
  destruct (toggleTaskCompletion_marks_one "t1" true
              (Some Background.succeeded) Sample.logged_in)
    as (_ & _ & H & _).
  - simpl. apply NoDup_singleton.
  - exact H.
Defined.

(** ** LinkHive: grouping, sorting, starring and deleting *)

#[local] Hint Unfold
  LinkHive.storage_local_set LinkHive.storage_local_remove
  LinkHive.setSavedTabsArray LinkHive.renderSavedTabs
  LinkHive.onToggleStar LinkHive.onDeleteSavedTab : session_code.

Lemma insert_sorted_starred x (l : list SavedLink) :
  link_starred x = true -> LinkHive.insert_sorted x l = x :: l.
Proof.
  intros Hx. destruct l as [|y l]; simpl; [reflexivity|].
  unfold LinkHive.by_star. rewrite Hx.
  destruct (link_starred y); reflexivity.
Qed.

Lemma insert_sorted_unstarred x (A B : list SavedLink) :
  link_starred x = false ->
  Forall (fun it => link_starred it = true) A ->
  Forall (fun it => link_starred it = false) B ->
  LinkHive.insert_sorted x (A ++ B) = (A ++ x :: B)%list.
Proof.
  intros Hx HA HB. induction HA as [|a A Ha HA IH]; simpl.
  - destruct HB as [|b B Hb HB]; simpl; [reflexivity|].
    unfold LinkHive.by_star. rewrite Hx, Hb. reflexivity.
  - unfold LinkHive.by_star. rewrite Hx, Ha. simpl. rewrite IH. reflexivity.
Qed.

Lemma Forall_filter_holds {A : Type} (P : A -> Prop)
    `{forall x, Decision (P x)} (l : list A) :
  Forall P (filter P l).
Proof.
  induction l as [|x l IH]; [constructor|].
  destruct (decide (P x)) as [Hx|Hx].
  - rewrite filter_cons_True by exact Hx. constructor; assumption.
  - rewrite filter_cons_False by exact Hx. exact IH.
Qed.

(** X27. The sort [renderSavedTabs] applies to the links of a group puts
    the starred links first and keeps the order of the cache within the
    starred and within the other links. *)
Theorem sort_by_star_is_stable (l : list SavedLink) :
  LinkHive.sort_by_star l = starred_first l.
Proof.
  unfold starred_first. induction l as [|x l IH]; [reflexivity|].
  cbn [LinkHive.sort_by_star]. rewrite IH.
  destruct (link_starred x) eqn:Hx.
  - rewrite (insert_sorted_starred _ _ Hx).
    rewrite filter_cons_True by exact Hx.
    rewrite filter_cons_False by (rewrite Hx; discriminate).
    reflexivity.
  - rewrite (insert_sorted_unstarred x _ _ Hx
               (Forall_filter_holds _ l) (Forall_filter_holds _ l)).
    rewrite filter_cons_False by (rewrite Hx; discriminate).
    rewrite filter_cons_True by exact Hx.
    reflexivity.
Qed.

Lemma has_group_keys key (acc : list (string * list SavedLink)) :
  LinkHive.has_group key acc = true <-> key ∈ acc.*1.
Proof.
  induction acc as [|[k its] acc IH]; simpl.
  - split; [discriminate | intros H; apply elem_of_nil in H; contradiction].
  - rewrite orb_true_iff, IH, elem_of_cons, String.eqb_eq.
    split; intros [H|H]; auto.
Qed.

Lemma push_group_keys key it (acc : list (string * list SavedLink)) :
  (LinkHive.push_group key it acc).*1
  = if LinkHive.has_group key acc then acc.*1 else (acc.*1 ++ [key])%list.
Proof.
  unfold LinkHive.has_group.
  induction acc as [|[k its] acc IH]; [reflexivity|].
  cbn [LinkHive.push_group existsb fst].
  destruct (String.eqb k key); rewrite !fmap_cons; cbn [orb fst];
    [reflexivity|].
  rewrite IH. destruct (existsb _ acc); reflexivity.
Qed.

Lemma push_group_elem key it (acc : list (string * list SavedLink)) k its :
  NoDup acc.*1 ->
  (k, its) ∈ LinkHive.push_group key it acc ->
  (k ≠ key /\ (k, its) ∈ acc)
  \/ (k = key
      /\ exists its0, its = (its0 ++ [it])%list
         /\ ((key, its0) ∈ acc \/ (its0 = [] /\ key ∉ acc.*1))).
Proof.
  induction acc as [|[k0 its0] acc IH]; simpl; intros Hnd Hin.
  - apply list_elem_of_singleton in Hin. injection Hin as -> ->.
    right. split; [reflexivity|]. exists []. split; [reflexivity|].
    right. split; [reflexivity | apply not_elem_of_nil].
  - apply NoDup_cons in Hnd as [Hk0 Hnd].
    destruct (String.eqb_spec k0 key) as [->|Hne].
    + apply elem_of_cons in Hin as [Heq|Hin].
      * injection Heq as -> ->. right. split; [reflexivity|].
        exists its0. split; [reflexivity|]. left. apply elem_of_cons. by left.
      * left. split.
        -- intros ->. apply Hk0. apply list_elem_of_fmap.
           exists (key, its). split; [reflexivity | exact Hin].
        -- apply elem_of_cons. by right.
    + apply elem_of_cons in Hin as [Heq|Hin].
      * injection Heq as -> ->. left. split; [exact Hne|].
        apply elem_of_cons. by left.
      * destruct (IH Hnd Hin) as [[Hk Hacc]|[Hk (its1 & Hits & Hwhere)]].
        -- left. split; [exact Hk|]. apply elem_of_cons. by right.
        -- right. split; [exact Hk|]. exists its1. split; [exact Hits|].
           destruct Hwhere as [Hacc|[Hnil Hnot]].
           ++ left. apply elem_of_cons. by right.
           ++ right. split; [exact Hnil|].
              intros Hin'. apply elem_of_cons in Hin' as [Heq'|Hin'];
                [congruence | contradiction].
Qed.

Lemma in_group_snoc k (seen : list SavedLink) it :
  in_group k (seen ++ [it])
  = (in_group k seen
     ++ if decide (LinkHive.group_key it = k) then [it] else [])%list.
Proof.
  unfold in_group. rewrite filter_app. reflexivity.
Qed.

Lemma in_group_none k (seen : list SavedLink) :
  (forall it, it ∈ seen -> LinkHive.group_key it ≠ k) -> in_group k seen = [].
Proof.
  unfold in_group. induction seen as [|x seen IH]; intros H; [reflexivity|].
  rewrite filter_cons_False by (apply H, elem_of_cons; by left).
  apply IH. intros it Hit. apply H, elem_of_cons. by right.
Qed.

Lemma filed_push it (acc : list (string * list SavedLink)) seen :
  filed acc seen ->
  inherited (LinkHive.group_key it) = false ->
  filed (LinkHive.push_group (LinkHive.group_key it) it acc)
    (seen ++ [it])%list.
Proof.
  intros (Hnd & Hinh & Hgrp & Hall) Hit.
  set (key := LinkHive.group_key it) in *.
  assert (Hkeys : forall k, k ∈ (LinkHive.push_group key it acc).*1
                            <-> k ∈ acc.*1 \/ k = key).
  { intros k. rewrite push_group_keys.
    destruct (LinkHive.has_group key acc) eqn:Hhas.
    - apply has_group_keys in Hhas. split; [auto|].
      intros [H| ->]; assumption.
    - rewrite elem_of_app, list_elem_of_singleton. reflexivity. }
  split; [|split; [|split]].
  - rewrite push_group_keys.
    destruct (LinkHive.has_group key acc) eqn:Hhas; [exact Hnd|].
    apply NoDup_app. split; [exact Hnd|]. split; [|apply NoDup_singleton].
    intros k Hk Hk'. apply list_elem_of_singleton in Hk'. subst k.
    apply has_group_keys in Hk. congruence.
  - intros k Hk. apply Hkeys in Hk as [Hk| ->]; [apply Hinh, Hk | exact Hit].
  - intros k its Hin.
    destruct (push_group_elem key it acc k its Hnd Hin)
      as [[Hk Hacc]|[-> (its0 & -> & Hwhere)]].
    + destruct (Hgrp k its Hacc) as [Hits Hne]. split; [|exact Hne].
      rewrite in_group_snoc.
      destruct (decide (LinkHive.group_key it = k)) as [E|_];
        [fold key in E; congruence|].
      rewrite app_nil_r. exact Hits.
    + split; [|intros H; apply app_eq_nil in H as [_ H]; discriminate].
      rewrite in_group_snoc. fold key.
      destruct (decide (key = key)) as [_|N]; [|contradiction].
      f_equal. destruct Hwhere as [Hacc|[-> Hnot]].
      * apply (Hgrp key its0 Hacc).
      * symmetry. apply in_group_none. intros x Hx Hkx.
        apply Hnot. rewrite <- Hkx. apply Hall, Hx.
  - intros x Hx. apply Hkeys.
    apply elem_of_app in Hx as [Hx|Hx]; [left; apply Hall, Hx|].
    apply list_elem_of_singleton in Hx. subst x. right. reflexivity.
Qed.

Lemma group_from_filed (items : list SavedLink) :
  forall acc seen,
  filed acc seen ->
  match LinkHive.group_from acc items with
  | Normal groups =>
      filed groups (seen ++ items)%list /\ Forall (fun it => ~ clashes it) items
  | Throw _ => Exists clashes items
  end.
Proof.
  induction items as [|it items IH]; intros acc seen Hf; simpl.
  - rewrite app_nil_r. split; [exact Hf | constructor].
  - unfold LinkHive.group_step.
    destruct (LinkHive.has_group (LinkHive.group_key it) acc) eqn:Hhas.
    + assert (Hit : inherited (LinkHive.group_key it) = false).
      { destruct Hf as (_ & Hinh & _). apply Hinh, has_group_keys, Hhas. }
      specialize (IH _ _ (filed_push it acc seen Hf Hit)).
      rewrite <- app_assoc in IH. simpl in IH.
      destruct (LinkHive.group_from _ items).
      * destruct IH as [H1 H2]. split; [exact H1|].
        constructor; [unfold clashes; rewrite Hit; discriminate | exact H2].
      * apply Exists_cons_tl, IH.
    + destruct (inherited (LinkHive.group_key it)) eqn:Hit.
      * apply Exists_cons_hd. exact Hit.
      * specialize (IH _ _ (filed_push it acc seen Hf Hit)).
        rewrite <- app_assoc in IH. simpl in IH.
        destruct (LinkHive.group_from _ items).
        -- destruct IH as [H1 H2]. split; [exact H1|].
           constructor; [unfold clashes; rewrite Hit; discriminate | exact H2].
        -- apply Exists_cons_tl, IH.
Qed.

(** X28. The grouping of [renderSavedTabs] fails exactly on a cache in
    which some link has a group named like an inherited property. When it
    completes, the groups have distinct keys, each group holds exactly the
    links of the cache with its key, in the order of the cache, no group
    is empty and every link is in the group of its key. *)
Theorem grouped_is_a_partition (cache : list SavedLink) :
  match LinkHive.grouped cache with
  | Normal groups =>
      Forall (fun it => ~ clashes it) cache
      /\ NoDup groups.*1
      /\ (forall k its, (k, its) ∈ groups ->
            its = in_group k cache /\ its ≠ [])
      /\ (forall it, it ∈ cache -> LinkHive.group_key it ∈ groups.*1)
  | Throw _ => Exists clashes cache
  end.
Proof.
  assert (H0 : filed [] []).
  { split; [constructor|]. split; [|split].
    - intros k Hk. apply elem_of_nil in Hk. contradiction.
    - intros k its Hk. apply elem_of_nil in Hk. contradiction.
    - intros it Hk. apply elem_of_nil in Hk. contradiction. }
  pose proof (group_from_filed cache [] [] H0) as H.
  unfold LinkHive.grouped. simpl in H.
  destruct (LinkHive.group_from [] cache); [|exact H].
  destruct H as [(Hnd & _ & Hgrp & Hall) Hok]. auto.
Qed.

Ltac link_unfold :=
  unfold LinkHive.setSavedTabsArray, LinkHive.storage_local_set,
    LinkHive.storage_local_remove, LinkHive.renderSavedTabs;
  unfold Storage.setStorageData, Storage.removeStorageData;
  unfold await, bind, modify_dom, modify, read, ret, throw;
  cbn [fst snd savedTabsCache dom local saved_tabs_list set_savedTabsCache
       set_local set_dom set_saved_tabs_list].

Ltac link_step :=
  cbn [fst snd savedTabsCache dom local saved_tabs_list set_savedTabsCache
       set_local set_dom set_saved_tabs_list].

Lemma persist_and_render_cache cache setErr rmErr w :
  savedTabsCache
    (exec (LinkHive.setSavedTabsArray cache setErr rmErr;;
           LinkHive.renderSavedTabs) w)
  = savedTabsCache w.
Proof.
  destruct w as [a cts ces st c d tok loc syn lg].
  destruct d as [tl el nem dot lbl sm stl tc].
  unfold exec. link_unfold.
  destruct setErr; link_step; [reflexivity|].
  destruct rmErr; link_step; [reflexivity|].
  destruct stl; link_step; [|reflexivity].
  destruct (LinkHive.grouped c); reflexivity.
Qed.

Lemma persist_healthy cache w :
  LinkHive.setSavedTabsArray cache None None w
  = (Normal tt, set_local (links_stored cache (local w)) w).
Proof.
  destruct w as [a cts ces st c d tok loc syn lg].
  link_unfold. reflexivity.
Qed.

Lemma renderSavedTabs_local w :
  local (exec LinkHive.renderSavedTabs w) = local w.
Proof.
  destruct w as [a cts ces st c d tok loc syn lg].
  destruct d as [tl el nem dot lbl sm stl tc].
  unfold exec. link_unfold. destruct stl; link_step; [|reflexivity].
  destruct (LinkHive.grouped c); reflexivity.
Qed.

Lemma persist_refused cache e rmErr w :
  (LinkHive.setSavedTabsArray cache (Some e) rmErr;;
   LinkHive.renderSavedTabs) w = (Throw e, w).
Proof.
  destruct w as [a cts ces st c d tok loc syn lg].
  link_unfold. reflexivity.
Qed.

(** X29. [onDeleteSavedTab] removes every link with the given identifier
    from the cache and keeps the others in order. With a healthy store the
    new array is what the canonical key then holds, and the legacy key is
    gone. When the write is refused the link is gone from the cache only:
    the store and the page stay as they were and the call rejects. *)
Theorem onDeleteSavedTab_removes (id : string) (setErr rmErr : option Error)
    (w : World) :
  let w' := exec (LinkHive.onDeleteSavedTab id setErr rmErr) w in
  savedTabsCache w'
  = filter (fun it => link_id it ≠ id) (savedTabsCache w)
  /\ (setErr = None -> rmErr = None ->
      local w' = links_stored (savedTabsCache w') (local w))
  /\ (forall e, setErr = Some e ->
      outcome (LinkHive.onDeleteSavedTab id setErr rmErr) w = Throw e
      /\ local w' = local w /\ dom w' = dom w).
Proof.
  cbv zeta.
  set (cache' := filter (fun it => link_id it ≠ id) (savedTabsCache w)).
  set (w0 := set_savedTabsCache cache' w).
  assert (Hrun : LinkHive.onDeleteSavedTab id setErr rmErr w
                 = (LinkHive.setSavedTabsArray cache' setErr rmErr;;
                    LinkHive.renderSavedTabs) w0).
  { unfold LinkHive.onDeleteSavedTab. unfold bind at 1. unfold modify.
    unfold bind at 1. unfold read. reflexivity. }
  unfold exec, outcome. rewrite Hrun. clear Hrun.
  split; [|split].
  - apply (persist_and_render_cache cache' setErr rmErr w0).
  - intros -> ->.
    pose proof (persist_and_render_cache cache' None None w0) as Hc.
    unfold exec in Hc. rewrite Hc.
    rewrite (bind_normal _ _ _ _ _ (persist_healthy cache' w0)).
    apply (renderSavedTabs_local (set_local _ w0)).
  - intros e ->. rewrite persist_refused. repeat split.
Qed.

Lemma onDeleteSavedTab_removes_witness :
  local (exec (LinkHive.onDeleteSavedTab "t1" None None) Sample.logged_in)
  = links_stored
      (savedTabsCache
         (exec (LinkHive.onDeleteSavedTab "t1" None None) Sample.logged_in))
      (local Sample.logged_in).
Proof.
  destruct (onDeleteSavedTab_removes "t1" None None Sample.logged_in)
    as (_ & H & _).
  apply H; reflexivity.
Defined.

Lemma onToggleStar_cache id setErr rmErr w :
  savedTabsCache (exec (LinkHive.onToggleStar id setErr rmErr) w)
  = star_toggled id (savedTabsCache w).
Proof.
  unfold star_toggled, exec, LinkHive.onToggleStar.
  unfold bind at 1. unfold read.
  destruct (list_find _ (savedTabsCache w)) as [[i it]|]; [|reflexivity].
  set (cache' := <[ i := LinkHive.toggle_star it ]> (savedTabsCache w)).
  set (w0 := set_savedTabsCache cache' w).
  unfold bind at 1. unfold modify. fold w0.
  unfold bind at 1. unfold read.
  pose proof (persist_and_render_cache (savedTabsCache w0) setErr rmErr w0)
    as H.
  unfold exec in H. rewrite H. reflexivity.
Qed.

Lemma toggle_star_involutive it :
  LinkHive.toggle_star (LinkHive.toggle_star it) = it.
Proof.
  destruct it as [i t u n g s]. unfold LinkHive.toggle_star. simpl.
  rewrite negb_involutive. reflexivity.
Qed.

Lemma star_toggled_twice id (cache : list SavedLink) :
  star_toggled id (star_toggled id cache) = cache.
Proof.
  unfold star_toggled at 2.
  destruct (list_find _ cache) as [[i it]|] eqn:Hf.
  - pose proof Hf as Hf'.
    apply list_find_Some in Hf' as (Hi & HP & Hbefore).
    assert (Hlen : (i < length cache)%nat) by (eapply lookup_lt_Some, Hi).
    assert (Hf2 : list_find (fun x => link_id x = id)
                    (<[ i := LinkHive.toggle_star it ]> cache)
                  = Some (i, LinkHive.toggle_star it)).
    { apply list_find_Some. split; [|split].
      - apply list_lookup_insert_eq, Hlen.
      - exact HP.
      - intros j y Hj Hlt. apply (Hbefore j y); [|exact Hlt].
        rewrite list_lookup_insert_ne in Hj by lia. exact Hj. }
    unfold star_toggled. rewrite Hf2.
    rewrite list_insert_insert_eq, toggle_star_involutive.
    apply list_insert_id, Hi.
  - unfold star_toggled. rewrite Hf. reflexivity.
Qed.

Lemma star_toggled_ids id (cache : list SavedLink) :
  link_id <$> star_toggled id cache = link_id <$> cache.
Proof.
  unfold star_toggled.
  destruct (list_find _ cache) as [[i it]|] eqn:Hf; [|reflexivity].
  apply list_find_Some in Hf as (Hi & _).
  rewrite list_fmap_insert. apply list_insert_id.
  rewrite list_lookup_fmap, Hi. reflexivity.
Qed.

(** X30. [onToggleStar] keeps the identifiers and the order of the cache,
    and starring twice gives back the cache, whatever the store answers.
    For an identifier that is not in the cache nothing happens at all:
    nothing is written and nothing is drawn. *)
Theorem onToggleStar_is_an_involution (id : string)
    (e1 e2 e3 e4 : option Error) (w : World) :
  let w' := exec (LinkHive.onToggleStar id e1 e2) w in
  link_id <$> savedTabsCache w' = link_id <$> savedTabsCache w
  /\ savedTabsCache (exec (LinkHive.onToggleStar id e3 e4) w')
     = savedTabsCache w
  /\ (id ∉ link_id <$> savedTabsCache w ->
      LinkHive.onToggleStar id e1 e2 w = (Normal tt, w)).
Proof.
  cbv zeta. rewrite !onToggleStar_cache.
  split; [apply star_toggled_ids|]. split; [apply star_toggled_twice|].
  intros Hnot. unfold LinkHive.onToggleStar. unfold bind at 1. unfold read.
  destruct (list_find _ (savedTabsCache w)) as [[i it]|] eqn:Hf;
    [|reflexivity].
  exfalso. apply Hnot. apply list_find_Some in Hf as (Hi & HP & _).
  apply list_elem_of_fmap. exists it. split; [symmetry; exact HP|].
  eapply list_elem_of_lookup_2, Hi.
Qed.

Lemma onToggleStar_is_an_involution_witness :
  LinkHive.onToggleStar "no-such-link" None None Sample.logged_in
  = (Normal tt, Sample.logged_in).
Proof.
  destruct (onToggleStar_is_an_involution "no-such-link" None None None None
              Sample.logged_in) as (_ & _ & H).
  apply H. simpl. apply not_elem_of_nil.
Defined.
